(** * Life Changer Library: seat booking, attendance, absence detection and
      cash-payment approval

    A shallow embedding of the request handlers of the application and of the
    part of the relational schema they rely on.

    - Every table is a list of rows.  The rows of [admissions],
      [seat_bookings], [attendance] and [cash_payments] are records with the
      columns of the migrations; those of [payment_history],
      [notifications] and [admin_logs], which the handlers only append to,
      keep the columns the handlers write.
    - Every [await supabase.from(..)...] is one atomic request against the
      store: a query [Q.t] whose effect is given by [exec].  A handler is a
      [Task]: a tree of queries and continuations, so that it can be run
      alone ([run]) or interleaved with another handler ([interleave]).
    - The store enforces what the migrations declare: CHECK constraints, the
      partial unique index [seat_bookings_unique_booked], the unique
      constraint [attendance_user_shift_date_status_key], column defaults and
      the ON DELETE CASCADE of [cash_payments.booking_id].  Row-level security
      and network failures are not modelled: the caller is taken to be
      authorised and the store reachable.
    - [uuid] values are natural numbers drawn from a counter, [timestamptz]
      values are integers (milliseconds), [date] values are the strings the
      client sends ('YYYY-MM-DD'), amounts are whole rupees.
    - A handler is modelled as the function of the screen it belongs to: it
      reads the state of the screen, as [fetchData] left it, and the clock of
      the device.  What a screen renders is modelled only where a section
      says so: the controls of the attendance list, the seat grid, the
      confirm button of the payment screen and the availability badges. *)

From Stdlib Require Import List String ZArith Bool Lia PeanoNat Permutation.
From Stdlib Require Floats.PrimFloat Numbers.Cyclic.Int63.Uint63.
Import ListNotations.

Set Implicit Arguments.

Definition Uuid := nat.
Definition Timestamp := Z.
Definition DateStr := string.
Bind Scope Z_scope with Timestamp.
Bind Scope string_scope with DateStr.

(** ** Rows *)

Module Admission.
Inductive PaymentStatus := pending | paid.

Record t := mk {
  id : Uuid;
  user_id : Uuid;
  name : string;
  age : Z;
  contact_number : string;
  full_address : string;
  email : string;
  course_name : string;
  father_name : string;
  father_contact : string;
  duration : Z;
  selected_shifts : list string;
  registration_fee : Z;
  shift_fee : Z;
  total_amount : Z;
  payment_status : PaymentStatus;
  payment_date : option Timestamp;
  start_date : option Timestamp;
  end_date : option Timestamp;
  created_at : Timestamp
}.

Definition is_paid (a : t) : bool :=
  match payment_status a with paid => true | pending => false end.

(** [.update({ payment_status: st })] on one row. *)
Definition set_payment_status (st : PaymentStatus) (a : t) : t :=
  mk (id a) (user_id a) (name a) (age a) (contact_number a) (full_address a)
     (email a) (course_name a) (father_name a) (father_contact a) (duration a)
     (selected_shifts a) (registration_fee a) (shift_fee a) (total_amount a)
     st (payment_date a) (start_date a) (end_date a) (created_at a).

(** [.update({ payment_status: 'paid', payment_date, start_date,
      end_date })] on one row. *)
Definition set_paid (pd sd ed : Timestamp) (a : t) : t :=
  mk (id a) (user_id a) (name a) (age a) (contact_number a) (full_address a)
     (email a) (course_name a) (father_name a) (father_contact a) (duration a)
     (selected_shifts a) (registration_fee a) (shift_fee a) (total_amount a)
     paid (Some pd) (Some sd) (Some ed) (created_at a).
End Admission.

Module SeatBooking.
Inductive Status := booked | available | pending.

Record t := mk {
  id : Uuid;
  user_id : Uuid;
  shift : string;
  seat_number : string;
  booking_status : Status;
  booking_date : DateStr;
  created_at : Timestamp
}.

Definition is_booked (b : t) : bool :=
  match booking_status b with booked => true | _ => false end.

Definition is_pending (b : t) : bool :=
  match booking_status b with pending => true | _ => false end.

Definition set_status (st : Status) (b : t) : t :=
  mk (id b) (user_id b) (shift b) (seat_number b) st (booking_date b)
     (created_at b).

(** The columns of [seat_bookings_unique_booked]. *)
Definition same_seat (a b : t) : bool :=
  String.eqb (shift a) (shift b) && String.eqb (seat_number a) (seat_number b)
  && String.eqb (booking_date a) (booking_date b).

Definition at_seat (sh seat d : string) (b : t) : bool :=
  String.eqb (shift b) sh && String.eqb (seat_number b) seat
  && String.eqb (booking_date b) d.

(** Payload of [.insert({...})]; a column left out takes its default. *)
Record Insert := mkInsert {
  i_user_id : Uuid;
  i_shift : string;
  i_seat_number : string;
  i_booking_status : option Status;
  i_booking_date : DateStr
}.
End SeatBooking.

Module Attendance.
Inductive Status := present | absent.

Record t := mk {
  id : Uuid;
  user_id : Uuid;
  shift : string;
  check_in_time : option Timestamp;
  check_out_time : option Timestamp;
  date : DateStr;
  status : Status;
  reason : option string;
  created_at : Timestamp
}.

Definition status_eqb (a b : Status) : bool :=
  match a, b with
  | present, present | absent, absent => true
  | _, _ => false
  end.

Definition set_check_out (ts : Timestamp) (r : t) : t :=
  mk (id r) (user_id r) (shift r) (check_in_time r) (Some ts) (date r)
     (status r) (reason r) (created_at r).

Record Insert := mkInsert {
  i_user_id : Uuid;
  i_shift : string;
  i_check_in_time : option Timestamp;
  i_date : DateStr;
  i_status : option Status;
  i_reason : option string
}.
End Attendance.

Module CashPayment.
Inductive Status := pending | approved | rejected.

Record t := mk {
  id : Uuid;
  user_id : Uuid;
  booking_id : option Uuid;
  admission_id : option Uuid;
  amount : Z;
  status : Status;
  admin_notes : option string;
  approved_by : option Uuid;
  approved_at : option Timestamp;
  created_at : Timestamp
}.

Definition is_pending (p : t) : bool :=
  match status p with pending => true | _ => false end.

(** [.update({ status, approved_by, approved_at })] on one row. *)
Definition set_decision (st : Status) (by_ : option Uuid) (at_ : Timestamp)
  (p : t) : t :=
  mk (id p) (user_id p) (booking_id p) (admission_id p) (amount p) st
     (admin_notes p) by_ (Some at_) (created_at p).

Record Insert := mkInsert {
  i_user_id : Uuid;
  i_booking_id : option Uuid;
  i_admission_id : option Uuid;
  i_amount : Z;
  i_status : Status
}.
End CashPayment.

Module PaymentHistory.
Record t := mk {
  id : Uuid;
  user_id : Uuid;
  amount : Z;
  payment_mode : string;
  duration_months : Z;
  payment_date : Timestamp;
  receipt_number : Timestamp
}.
End PaymentHistory.

Module Notification.
Record t := mk {
  id : Uuid;
  user_id : Uuid;
  title : string;
  type : string;
  created_by : option Uuid
}.
End Notification.

Module AdminLog.
Record t := mk {
  id : Uuid;
  admin_id : Uuid;
  action : string;
  payment_id : Uuid;
  amount : Z;
  payment_type : string
}.
End AdminLog.

(** ** The store *)

Record Store := mkStore {
  admissions : list Admission.t;
  seat_bookings : list SeatBooking.t;
  attendance : list Attendance.t;
  cash_payments : list CashPayment.t;
  payment_history : list PaymentHistory.t;
  notifications : list Notification.t;
  admin_logs : list AdminLog.t;
  next_id : Uuid
}.

Definition empty_store : Store := mkStore [] [] [] [] [] [] [] 0.

Definition with_admissions (l : list Admission.t) (s : Store) : Store :=
  mkStore l (seat_bookings s) (attendance s) (cash_payments s)
    (payment_history s) (notifications s) (admin_logs s) (next_id s).

Definition with_cash_payments (l : list CashPayment.t) (s : Store) : Store :=
  mkStore (admissions s) (seat_bookings s) (attendance s) l
    (payment_history s) (notifications s) (admin_logs s) (next_id s).

Definition with_seat_bookings (l : list SeatBooking.t) (s : Store) : Store :=
  mkStore (admissions s) l (attendance s) (cash_payments s)
    (payment_history s) (notifications s) (admin_logs s) (next_id s).

(** What PostgREST hands back: [{ data, error }] with exactly one of them. *)
Inductive PgError :=
| unique_violation (constraint : string)
| check_violation (constraint : string)
| PGRST116.

Inductive PgResult (A : Type) :=
| Ok (data : A)
| Err (error : PgError).
Arguments Ok {A} data.
Arguments Err {A} error.

Definition is_err {A} (r : PgResult A) : bool :=
  match r with Ok _ => false | Err _ => true end.

(** [CHECK (shift IN ('morning', 'noon', 'evening', 'night'))]. *)
Definition valid_shift (sh : string) : bool :=
  existsb (String.eqb sh) ["morning"; "noon"; "evening"; "night"]%string.

(** [.order(col, { ascending: false })]: insertion sort, largest key first;
    rows with equal keys stay in table order (SQL leaves their order open). *)
Fixpoint insert_desc {A} (key : A -> Z) (x : A) (l : list A) : list A :=
  match l with
  | [] => [x]
  | y :: l' => if (key y <=? key x)%Z then x :: l else y :: insert_desc key x l'
  end.

Definition order_desc {A} (key : A -> Z) (l : list A) : list A :=
  fold_right (insert_desc key) [] l.

(** [.single()]: exactly one row or an error. *)
Definition single {A} (rows : list A) : PgResult A :=
  match rows with
  | [x] => Ok x
  | _ => Err PGRST116
  end.

(** [.maybeSingle()]: [data] is the row when there is exactly one, and
    [null] otherwise; with several rows the builder also reports an error,
    which the callers here never read. *)
Definition maybeSingle {A} (rows : list A) : option A :=
  match rows with
  | [x] => Some x
  | _ => None
  end.

(** ** Requests

    Each definition below is one round trip to the store: it returns what the
    client receives and the store afterwards. *)

Definition Request (A : Type) := Store -> A * Store.

Module Db.

(** [from('admissions').select(..).eq('payment_status', 'paid')].  There is
    no [ORDER BY]: the order of the list is the order in which the database
    happens to return the rows, which SQL leaves open; what is proved of the
    answer of the detector is proved for every order ([Spec.same_rows]). *)
Definition select_paid_admissions : Request (PgResult (list Admission.t)) :=
  fun s => (Ok (filter Admission.is_paid (admissions s)), s).

(** [from('admissions').select('*').eq('user_id', u)
      .order('created_at', { ascending: false }).limit(1)] *)
Definition select_latest_admission (u : Uuid)
  : Request (PgResult (list Admission.t)) :=
  fun s =>
    (Ok (firstn 1 (order_desc Admission.created_at
           (filter (fun a => Admission.user_id a =? u) (admissions s)))), s).

(** [from('admissions').select('duration').eq('id', aid).single()] *)
Definition select_admission_duration (aid : Uuid) : Request (PgResult Z) :=
  fun s =>
    (match single (filter (fun a => Admission.id a =? aid) (admissions s)) with
     | Ok a => Ok (Admission.duration a)
     | Err e => Err e
     end, s).

(** [from('admissions').update({ payment_status: 'paid', payment_date,
      start_date, end_date }).eq('id', aid)] *)
Definition update_admission_paid (aid : Uuid) (pd sd ed : Timestamp)
  : Request (PgResult unit) :=
  fun s =>
    (Ok tt,
     with_admissions
       (map (fun a => if Admission.id a =? aid
                      then Admission.set_paid pd sd ed a else a)
            (admissions s)) s).

(** [from('admissions').update({ payment_status: st }).eq('id', aid)] *)
Definition update_admission_status (aid : Uuid) (st : Admission.PaymentStatus)
  : Request (PgResult unit) :=
  fun s =>
    (Ok tt,
     with_admissions
       (map (fun a => if Admission.id a =? aid
                      then Admission.set_payment_status st a else a)
            (admissions s)) s).

(** [from('seat_bookings').select(..).eq('booking_date', d)
      .eq('booking_status', 'booked')] *)
Definition select_booked_on (d : DateStr)
  : Request (PgResult (list SeatBooking.t)) :=
  fun s =>
    (Ok (filter (fun b => String.eqb (SeatBooking.booking_date b) d
                          && SeatBooking.is_booked b) (seat_bookings s)), s).

(** The row an insert builds: [gen_random_uuid()], [DEFAULT 'booked'],
    [DEFAULT now()]. *)
Definition new_seat_booking (now : Timestamp) (p : SeatBooking.Insert)
  (s : Store) : SeatBooking.t :=
  SeatBooking.mk (next_id s) (SeatBooking.i_user_id p) (SeatBooking.i_shift p)
    (SeatBooking.i_seat_number p)
    (match SeatBooking.i_booking_status p with
     | Some st => st
     | None => SeatBooking.booked
     end)
    (SeatBooking.i_booking_date p) now.

(** [from('seat_bookings').insert(p).select().single()] *)
Definition insert_seat_booking (now : Timestamp) (p : SeatBooking.Insert)
  : Request (PgResult SeatBooking.t) :=
  fun s =>
    let row := new_seat_booking now p s in
    if negb (valid_shift (SeatBooking.shift row)) then
      (Err (check_violation "seat_bookings_shift_check"), s)
    else if SeatBooking.is_booked row
            && existsb (fun r => SeatBooking.is_booked r
                                 && SeatBooking.same_seat r row)
                       (seat_bookings s) then
      (Err (unique_violation "seat_bookings_unique_booked"), s)
    else
      (Ok row,
       mkStore (admissions s) (seat_bookings s ++ [row]) (attendance s)
         (cash_payments s) (payment_history s) (notifications s)
         (admin_logs s) (S (next_id s))).

(** Would setting the status of the rows with id [bid] to [st] put two rows
    under [seat_bookings_unique_booked]? *)
Definition booked_conflict (bid : Uuid) (st : SeatBooking.Status)
  (tbl : list SeatBooking.t) : bool :=
  existsb (fun r =>
    (SeatBooking.id r =? bid)
    && SeatBooking.is_booked (SeatBooking.set_status st r)
    && existsb (fun r' => negb (SeatBooking.id r' =? bid)
                          && SeatBooking.is_booked r'
                          && SeatBooking.same_seat r' r) tbl) tbl.

(** [from('seat_bookings').update({ booking_status: st }).eq('id', bid)] *)
Definition update_booking_status (bid : Uuid) (st : SeatBooking.Status)
  : Request (PgResult unit) :=
  fun s =>
    if booked_conflict bid st (seat_bookings s) then
      (Err (unique_violation "seat_bookings_unique_booked"), s)
    else
      (Ok tt,
       with_seat_bookings
         (map (fun r => if SeatBooking.id r =? bid
                        then SeatBooking.set_status st r else r)
              (seat_bookings s)) s).

(** [from('seat_bookings').delete().eq('id', bid)]; the cash payments that
    reference the booking go with it (ON DELETE CASCADE). *)
Definition delete_seat_booking (bid : Uuid) : Request (PgResult unit) :=
  fun s =>
    (Ok tt,
     mkStore (admissions s)
       (filter (fun r => negb (SeatBooking.id r =? bid)) (seat_bookings s))
       (attendance s)
       (filter (fun p => match CashPayment.booking_id p with
                         | Some b => negb (b =? bid)
                         | None => true
                         end) (cash_payments s))
       (payment_history s) (notifications s) (admin_logs s) (next_id s)).

(** [from('attendance').select(..).eq('date', d)].  A row carries its date
    as the column prints it, 'YYYY-MM-DD', and [d] is compared with it as a
    string: this is the comparison of the database for a [d] of that form
    ([Spec.iso_date]).  Any other string goes through the date parser of
    the database, which reads it as some date or refuses the request; that
    parser is not modelled, and the answers of the detector are stated for
    dates of that form only. *)
Definition select_attendance_on (d : DateStr)
  : Request (PgResult (list Attendance.t)) :=
  fun s =>
    (Ok (filter (fun r => String.eqb (Attendance.date r) d) (attendance s)), s).

(** [from('attendance').select('*').eq('user_id', u).eq('date', d)
      .order('created_at', { ascending: false })] *)
Definition select_attendance_of (u : Uuid) (d : DateStr)
  : Request (PgResult (list Attendance.t)) :=
  fun s =>
    (Ok (order_desc Attendance.created_at
           (filter (fun r => (Attendance.user_id r =? u)
                             && String.eqb (Attendance.date r) d)
                   (attendance s))), s).

Definition new_attendance (now : Timestamp) (p : Attendance.Insert)
  (s : Store) : Attendance.t :=
  Attendance.mk (next_id s) (Attendance.i_user_id p) (Attendance.i_shift p)
    (Attendance.i_check_in_time p) None (Attendance.i_date p)
    (match Attendance.i_status p with
     | Some st => st
     | None => Attendance.present
     end)
    (Attendance.i_reason p) now.

(** The columns of [attendance_user_shift_date_status_key]. *)
Definition same_attendance_key (a b : Attendance.t) : bool :=
  (Attendance.user_id a =? Attendance.user_id b)
  && String.eqb (Attendance.shift a) (Attendance.shift b)
  && String.eqb (Attendance.date a) (Attendance.date b)
  && Attendance.status_eqb (Attendance.status a) (Attendance.status b).

(** [from('attendance').insert(p)] *)
Definition insert_attendance (now : Timestamp) (p : Attendance.Insert)
  : Request (PgResult unit) :=
  fun s =>
    let row := new_attendance now p s in
    if negb (valid_shift (Attendance.shift row)) then
      (Err (check_violation "attendance_shift_check"), s)
    else if existsb (fun r => same_attendance_key r row) (attendance s) then
      (Err (unique_violation "attendance_user_shift_date_status_key"), s)
    else
      (Ok tt,
       mkStore (admissions s) (seat_bookings s) (attendance s ++ [row])
         (cash_payments s) (payment_history s) (notifications s)
         (admin_logs s) (S (next_id s))).

(** [from('attendance').update({ check_out_time: ts }).eq('id', rid)] *)
Definition update_check_out (rid : Uuid) (ts : Timestamp)
  : Request (PgResult unit) :=
  fun s =>
    (Ok tt,
     mkStore (admissions s) (seat_bookings s)
       (map (fun r => if Attendance.id r =? rid
                      then Attendance.set_check_out ts r else r)
            (attendance s))
       (cash_payments s) (payment_history s) (notifications s)
       (admin_logs s) (next_id s)).

(** [from('cash_payments').select(..).eq('user_id', u)
      .eq('admission_id', aid).eq('status', 'pending')] *)
Definition select_pending_cash_for_admission (u aid : Uuid)
  : Request (list CashPayment.t) :=
  fun s =>
    (filter (fun p => (CashPayment.user_id p =? u)
                      && match CashPayment.admission_id p with
                         | Some a => a =? aid
                         | None => false
                         end
                      && CashPayment.is_pending p) (cash_payments s), s).

(** [from('cash_payments').select('*').eq('user_id', u)
      .eq('status', 'pending').not('booking_id', 'is', null)] *)
Definition select_pending_booking_cash (u : Uuid)
  : Request (PgResult (list CashPayment.t)) :=
  fun s =>
    (Ok (filter (fun p => (CashPayment.user_id p =? u)
                          && CashPayment.is_pending p
                          && match CashPayment.booking_id p with
                             | Some _ => true
                             | None => false
                             end) (cash_payments s)), s).

Definition new_cash_payment (now : Timestamp) (p : CashPayment.Insert)
  (s : Store) : CashPayment.t :=
  CashPayment.mk (next_id s) (CashPayment.i_user_id p)
    (CashPayment.i_booking_id p) (CashPayment.i_admission_id p)
    (CashPayment.i_amount p) (CashPayment.i_status p) None None None now.

(** [from('cash_payments').insert(p).select().single()];
    [CHECK (amount > 0)]. *)
Definition insert_cash_payment (now : Timestamp) (p : CashPayment.Insert)
  : Request (PgResult CashPayment.t) :=
  fun s =>
    let row := new_cash_payment now p s in
    if (CashPayment.amount row <=? 0)%Z then
      (Err (check_violation "cash_payments_amount_check"), s)
    else
      (Ok row,
       mkStore (admissions s) (seat_bookings s) (attendance s)
         (cash_payments s ++ [row]) (payment_history s) (notifications s)
         (admin_logs s) (S (next_id s))).

(** [from('cash_payments').update({ status, approved_by, approved_at })
      .eq('id', pid)] *)
Definition update_cash_payment (pid : Uuid) (st : CashPayment.Status)
  (by_ : option Uuid) (at_ : Timestamp) : Request (PgResult unit) :=
  fun s =>
    (Ok tt,
     with_cash_payments
       (map (fun p => if CashPayment.id p =? pid
                      then CashPayment.set_decision st by_ at_ p else p)
            (cash_payments s)) s).

(** [from('cash_payments').select(..).order('created_at',
      { ascending: false })]: the list the admin screen shows (the joined
    user, booking and admission rows are left out). *)
Definition select_cash_payments : Request (PgResult (list CashPayment.t)) :=
  fun s => (Ok (order_desc CashPayment.created_at (cash_payments s)), s).

(** [from('payment_history').insert({...})]: [CHECK (amount > 0)],
    [CHECK (duration_months IN (1, 3, 6))], [receipt_number UNIQUE]. *)
Definition insert_payment_history (u : Uuid) (amount : Z) (mode : string)
  (months : Z) (pd : Timestamp) (receipt : Timestamp)
  : Request (PgResult unit) :=
  fun s =>
    if (amount <=? 0)%Z then
      (Err (check_violation "payment_history_amount_check"), s)
    else if negb (existsb (Z.eqb months) [1; 3; 6]%Z) then
      (Err (check_violation "payment_history_duration_months_check"), s)
    else if existsb (fun h =>
                 String.eqb (PaymentHistory.payment_mode h) mode
                 && (PaymentHistory.receipt_number h =? receipt)%Z)
              (payment_history s) then
      (Err (unique_violation "payment_history_receipt_number_key"), s)
    else
      (Ok tt,
       mkStore (admissions s) (seat_bookings s) (attendance s)
         (cash_payments s)
         (payment_history s
          ++ [PaymentHistory.mk (next_id s) u amount mode months pd receipt])
         (notifications s) (admin_logs s) (S (next_id s))).

(** [from('notifications').insert({...})] *)
Definition insert_notification (u : Uuid) (title type : string)
  (by_ : option Uuid) : Request (PgResult unit) :=
  fun s =>
    (Ok tt,
     mkStore (admissions s) (seat_bookings s) (attendance s)
       (cash_payments s) (payment_history s)
       (notifications s ++ [Notification.mk (next_id s) u title type by_])
       (admin_logs s) (S (next_id s))).

(** [from('admin_logs').insert({...})] *)
Definition insert_admin_log (adm : Uuid) (action : string) (pid : Uuid)
  (amount : Z) (payment_type : string) : Request (PgResult unit) :=
  fun s =>
    (Ok tt,
     mkStore (admissions s) (seat_bookings s) (attendance s)
       (cash_payments s) (payment_history s) (notifications s)
       (admin_logs s
        ++ [AdminLog.mk (next_id s) adm action pid amount payment_type])
       (S (next_id s))).

End Db.

(** The requests a handler can send, and what the store does with each. *)
Module Q.
Inductive t : Type -> Type :=
| select_paid_admissions : t (PgResult (list Admission.t))
| select_latest_admission (u : Uuid) : t (PgResult (list Admission.t))
| select_admission_duration (aid : Uuid) : t (PgResult Z)
| update_admission_paid (aid : Uuid) (pd sd ed : Timestamp)
  : t (PgResult unit)
| update_admission_status (aid : Uuid) (st : Admission.PaymentStatus)
  : t (PgResult unit)
| select_booked_on (d : DateStr) : t (PgResult (list SeatBooking.t))
| insert_seat_booking (now : Timestamp) (p : SeatBooking.Insert)
  : t (PgResult SeatBooking.t)
| update_booking_status (bid : Uuid) (st : SeatBooking.Status)
  : t (PgResult unit)
| delete_seat_booking (bid : Uuid) : t (PgResult unit)
| select_attendance_on (d : DateStr) : t (PgResult (list Attendance.t))
| select_attendance_of (u : Uuid) (d : DateStr)
  : t (PgResult (list Attendance.t))
| insert_attendance (now : Timestamp) (p : Attendance.Insert)
  : t (PgResult unit)
| update_check_out (rid : Uuid) (ts : Timestamp) : t (PgResult unit)
| select_pending_cash_for_admission (u aid : Uuid) : t (list CashPayment.t)
| select_pending_booking_cash (u : Uuid) : t (PgResult (list CashPayment.t))
| insert_cash_payment (now : Timestamp) (p : CashPayment.Insert)
  : t (PgResult CashPayment.t)
| update_cash_payment (pid : Uuid) (st : CashPayment.Status)
    (by_ : option Uuid) (at_ : Timestamp) : t (PgResult unit)
| select_cash_payments : t (PgResult (list CashPayment.t))
| insert_payment_history (u : Uuid) (amount : Z) (mode : string) (months : Z)
    (pd : Timestamp) (receipt : Timestamp) : t (PgResult unit)
| insert_notification (u : Uuid) (title type : string) (by_ : option Uuid)
  : t (PgResult unit)
| insert_admin_log (adm : Uuid) (action : string) (pid : Uuid) (amount : Z)
    (payment_type : string) : t (PgResult unit).
End Q.

Definition exec {A} (q : Q.t A) : Request A :=
  match q in Q.t A return Request A with
  | Q.select_paid_admissions => Db.select_paid_admissions
  | Q.select_latest_admission u => Db.select_latest_admission u
  | Q.select_admission_duration aid => Db.select_admission_duration aid
  | Q.update_admission_paid aid pd sd ed =>
      Db.update_admission_paid aid pd sd ed
  | Q.update_admission_status aid st => Db.update_admission_status aid st
  | Q.select_booked_on d => Db.select_booked_on d
  | Q.insert_seat_booking now p => Db.insert_seat_booking now p
  | Q.update_booking_status bid st => Db.update_booking_status bid st
  | Q.delete_seat_booking bid => Db.delete_seat_booking bid
  | Q.select_attendance_on d => Db.select_attendance_on d
  | Q.select_attendance_of u d => Db.select_attendance_of u d
  | Q.insert_attendance now p => Db.insert_attendance now p
  | Q.update_check_out rid ts => Db.update_check_out rid ts
  | Q.select_pending_cash_for_admission u aid =>
      Db.select_pending_cash_for_admission u aid
  | Q.select_pending_booking_cash u => Db.select_pending_booking_cash u
  | Q.insert_cash_payment now p => Db.insert_cash_payment now p
  | Q.update_cash_payment pid st by_ at_ =>
      Db.update_cash_payment pid st by_ at_
  | Q.select_cash_payments => Db.select_cash_payments
  | Q.insert_payment_history u amount mode months pd receipt =>
      Db.insert_payment_history u amount mode months pd receipt
  | Q.insert_notification u title type by_ =>
      Db.insert_notification u title type by_
  | Q.insert_admin_log adm action pid amount payment_type =>
      Db.insert_admin_log adm action pid amount payment_type
  end.

(** ** Handlers as trees of requests *)

Inductive Task (R : Type) : Type :=
| Return (r : R)
| Await (A : Type) (request : Q.t A) (k : A -> Task R).
Arguments Return {R} r.
Arguments Await {R A} request k.

Declare Scope task_scope.
Delimit Scope task_scope with task.
Notation "x <- req ;; k" := (Await req (fun x => k))
  (at level 61, req at next level, right associativity) : task_scope.

Fixpoint bind {R R'} (t : Task R) (f : R -> Task R') : Task R' :=
  match t with
  | Return r => f r
  | Await req k => Await req (fun a => bind (k a) f)
  end.

Notation "x <<- t ;; k" := (bind t (fun x => k))
  (at level 61, t at next level, right associativity) : task_scope.

(** A handler running alone. *)
Fixpoint run {R} (t : Task R) (s : Store) : R * Store :=
  match t with
  | Return r => (r, s)
  | Await req k => let (a, s') := exec req s in run (k a) s'
  end.

(** One request of a handler. *)
Definition step {R} (t : Task R) (s : Store) : Task R * Store :=
  match t with
  | Return r => (Return r, s)
  | Await req k => let (a, s') := exec req s in (k a, s')
  end.

(** Two handlers running concurrently against the same store: the schedule
    says whose request reaches the store next (a handler that has returned
    lets its turn pass); when the schedule is used up the first handler
    finishes, then the second.  Every interleaving of the requests of the
    two handlers is the run of some schedule. *)
Fixpoint interleave {R1 R2} (sched : list bool) (t1 : Task R1) (t2 : Task R2)
  (s : Store) : R1 * R2 * Store :=
  match sched with
  | [] =>
      let (r1, s1) := run t1 s in
      let (r2, s2) := run t2 s1 in
      (r1, r2, s2)
  | true :: sched' =>
      let (t1', s') := step t1 s in interleave sched' t1' t2 s'
  | false :: sched' =>
      let (t2', s') := step t2 s in interleave sched' t1 t2' s'
  end.

(** What the handlers read from the device: [new Date()] as a timestamp, its
    UTC day ([toISOString().split('T')[0]]) and its local hour
    ([getHours()]). *)
Record Clock := mkClock {
  now : Timestamp;
  today : DateStr;
  hours : Z
}.

Local Open Scope task_scope.

(** JavaScript's [a || b] on a string that may be missing: the empty string
    is as falsy as [undefined]. *)
Definition or_else (a : option string) (b : string) : string :=
  match a with
  | Some x => if String.eqb x "" then b else x
  | None => b
  end.

Definition truthy (x : string) : bool := negb (String.eqb x "").

(** ** app/+api/check-absent-students.ts *)

Module Api.

Record Body := mkBody { date : option string }.

(** [json] is [None] when [request.json()] rejects (no body, or not JSON). *)
Record HttpRequest := mkRequest { json : option Body }.

Record AbsentStudent := mkAbsent {
  a_user_id : Uuid;
  a_shift : string;
  a_date : DateStr;
  a_status : string;
  a_reason : string
}.

Record Report := mkReport {
  success : bool;
  r_date : DateStr;
  absentCount : nat;
  absentStudents : list AbsentStudent
}.

Inductive Response :=
| Json (body : Report)
| JsonError (error : string) (status : Z).

(** The [switch (shift)] that sets [shiftEnded]. *)
Definition shiftEnded (shift : string) (currentHour : Z) : bool :=
  if String.eqb shift "morning" then (11 <=? currentHour)%Z
  else if String.eqb shift "noon" then (16 <=? currentHour)%Z
  else if String.eqb shift "evening" then (21 <=? currentHour)%Z
  else if String.eqb shift "night" then
    (5 <=? currentHour)%Z && (currentHour <? 21)%Z
  else false.

(** [attendanceRecords?.some(record => ...)] *)
Definition hasCheckedIn (attendanceRecords : list Attendance.t)
  (admission : Admission.t) (shift : string) : bool :=
  existsb (fun record =>
    (Attendance.user_id record =? Admission.user_id admission)
    && String.eqb (Attendance.shift record) shift
    && match Attendance.check_in_time record with
       | Some _ => true
       | None => false
       end) attendanceRecords.

(** Body of the inner [for (const shift of admission.selected_shifts)]. *)
Definition check_shift (checkDate : DateStr) (currentHour : Z)
  (attendanceRecords : list Attendance.t) (admission : Admission.t)
  (absentStudents : list AbsentStudent) (shift : string)
  : list AbsentStudent :=
  if shiftEnded shift currentHour then
    if negb (hasCheckedIn attendanceRecords admission shift) then
      absentStudents
        ++ [mkAbsent (Admission.user_id admission) shift checkDate
              "absent" "no_checkin"]
    else absentStudents
  else absentStudents.

(** The two nested loops. *)
Definition collect_absent (checkDate : DateStr) (currentHour : Z)
  (admissions : list Admission.t) (attendanceRecords : list Attendance.t)
  : list AbsentStudent :=
  fold_left (fun absentStudents admission =>
    fold_left (check_shift checkDate currentHour attendanceRecords admission)
      (Admission.selected_shifts admission) absentStudents)
    admissions [].

Definition failed : Response :=
  JsonError "Failed to check absent students" 500.

Definition POST (clock : Clock) (request : HttpRequest) : Task Response :=
  match json request with
  | None => Return failed
  | Some body =>
      let checkDate := or_else (date body) (today clock) in
      admissionsRes <- Q.select_paid_admissions ;;
      match admissionsRes with
      | Err _ => Return failed
      | Ok admissions =>
          attendanceRes <- Q.select_attendance_on checkDate ;;
          match attendanceRes with
          | Err _ => Return failed
          | Ok attendanceRecords =>
              let currentHour := hours clock in
              let absentStudents :=
                collect_absent checkDate currentHour admissions
                  attendanceRecords in
              Return (Json (mkReport true checkDate (List.length absentStudents)
                              absentStudents))
          end
      end
  end.

(** [url.searchParams.get('date') || today], re-dispatched to [POST]. *)
Definition GET (clock : Clock) (date_param : option string) : Task Response :=
  POST clock (mkRequest (Some (mkBody
    (Some (or_else date_param (today clock)))))).

End Api.

(** ** The home screen: seat availability *)

Module HomeScreen.

(** An entry of [SHIFTS] ([@/types/shifts], not part of the sources at hand:
    the list is a parameter of [fetchData]). *)
Record ShiftInfo := mkShift {
  s_id : string;
  s_name : string;
  s_price : Z
}.

Record ShiftAvailability := mkAvailability {
  shift : string;
  shiftName : string;
  totalSeats : Z;
  bookedSeats : Z;
  availableSeats : Z;
  price : Z
}.

Definition totalSeats_const : Z := 50.

(** [bookingsData?.filter(booking => booking.shift === shift.id).length || 0];
    [bookingsData] is [null] when the query fails. *)
Definition bookedCount (bookingsData : option (list SeatBooking.t))
  (shift_id : string) : Z :=
  match bookingsData with
  | Some rows =>
      Z.of_nat (List.length (filter (fun booking =>
        String.eqb (SeatBooking.shift booking) shift_id) rows))
  | None => 0%Z
  end.

(** [fetchData], as far as [shiftAvailability] goes: nothing is fetched
    without a signed-in user; the admission that is fetched first only feeds
    the subscription card. *)
Definition fetchData (SHIFTS : list ShiftInfo) (clock : Clock)
  (user : option Uuid) (shiftAvailability : list ShiftAvailability)
  : Task (list ShiftAvailability) :=
  match user with
  | None => Return shiftAvailability
  | Some uid =>
      _ <- Q.select_latest_admission uid ;;
      bookingsRes <- Q.select_booked_on (today clock) ;;
      let bookingsData :=
        match bookingsRes with Ok rows => Some rows | Err _ => None end in
      Return (map (fun sh =>
        let n := bookedCount bookingsData (s_id sh) in
        mkAvailability (s_id sh) (s_name sh) totalSeats_const n
          (totalSeats_const - n)%Z (s_price sh)) SHIFTS)
  end.

End HomeScreen.

(** ** The booking screen *)

Module BookingScreen.

Record State := mkState {
  user : option Uuid;
  admission : option Admission.t;
  selectedShift : string;
  selectedSeat : string;
  seatBookings : list SeatBooking.t;
  userBookings : list SeatBooking.t;
  pendingCashPayments : list CashPayment.t
}.

Inductive Alert :=
| AlreadyBooked
| PendingPaymentRequest
| BookingSubmitted
| BookingFailed.

(** [fetchData]: the latest admission of the caller (whose first shift
    becomes the selected one), today's booked rows, the caller's among them,
    and the caller's pending cash payments that carry a booking. *)
Definition fetchData (clock : Clock) (st : State) : Task State :=
  match user st with
  | None => Return st
  | Some uid =>
      admissionRes <- Q.select_latest_admission uid ;;
      let admission' :=
        match admissionRes with
        | Ok (a :: _) => Some a
        | _ => admission st
        end in
      let selectedShift' :=
        match admissionRes with
        | Ok (a :: _) =>
            match Admission.selected_shifts a with
            | sh :: _ => sh
            | [] => selectedShift st
            end
        | _ => selectedShift st
        end in
      bookingsRes <- Q.select_booked_on (today clock) ;;
      match bookingsRes with
      | Err _ =>
          Return (mkState (user st) admission' selectedShift'
                    (selectedSeat st) (seatBookings st) (userBookings st)
                    (pendingCashPayments st))
      | Ok bookingsData =>
          let userBookingsData :=
            filter (fun booking => SeatBooking.user_id booking =? uid)
              bookingsData in
          cashRes <- Q.select_pending_booking_cash uid ;;
          Return (mkState (user st) admission' selectedShift'
                    (selectedSeat st) bookingsData userBookingsData
                    (match cashRes with
                     | Ok cashPaymentsData => cashPaymentsData
                     | Err _ => pendingCashPayments st
                     end))
      end
  end.

Definition handleDirectBooking (clock : Clock) (st : State)
  : Task (option Alert) :=
  match user st with
  | None => Return None
  | Some uid =>
      if negb (truthy (selectedSeat st)) || negb (truthy (selectedShift st))
      then Return None
      else
        let hasPendingCashPayment :=
          existsb (fun payment =>
            match CashPayment.booking_id payment with
            | Some _ => true
            | None => false
            end) (pendingCashPayments st) in
        if hasPendingCashPayment then Return (Some PendingPaymentRequest)
        else
          bookingRes <- Q.insert_seat_booking (now clock)
            (SeatBooking.mkInsert uid (selectedShift st) (selectedSeat st)
               (Some SeatBooking.pending) (today clock)) ;;
          match bookingRes with
          | Err _ => Return (Some BookingFailed)
          | Ok bookingData =>
              cashRes <- Q.insert_cash_payment (now clock)
                (CashPayment.mkInsert uid (Some (SeatBooking.id bookingData))
                   None 50 CashPayment.pending) ;;
              match cashRes with
              | Err _ => Return (Some BookingFailed)
              | Ok cashPaymentData =>
                  _ <<- fetchData clock
                    (mkState (user st) (admission st) (selectedShift st)
                       (selectedSeat st) (seatBookings st) (userBookings st)
                       (pendingCashPayments st ++ [cashPaymentData])) ;;
                  Return (Some BookingSubmitted)
              end
          end
  end.

Definition handleSeatBooking (clock : Clock) (st : State)
  : Task (option Alert) :=
  match user st with
  | None => Return None
  | Some uid =>
      if negb (truthy (selectedSeat st)) || negb (truthy (selectedShift st))
      then Return None
      else
        match find (fun booking =>
                String.eqb (SeatBooking.shift booking) (selectedShift st))
              (userBookings st) with
        | Some existingBooking => Return (Some AlreadyBooked)
        | None => handleDirectBooking clock st
        end
  end.

(** The operation of the specification: [handleSeatBooking] on a screen
    that has just loaded and on which the student has picked [shift] and
    [seat].  (The seat grid, which offers only the seats not shown as booked,
    is not modelled.) *)
Definition requestBooking (clock : Clock) (userId : Uuid) (shift seat : string)
  : Task (option Alert) :=
  st <<- fetchData clock (mkState (Some userId) None "" "" [] [] []) ;;
  handleSeatBooking clock
    (mkState (user st) (admission st) shift seat (seatBookings st)
       (userBookings st) (pendingCashPayments st)).

End BookingScreen.

(** ** The attendance screen *)

Module AttendanceScreen.

Record State := mkState {
  user : option Uuid;
  admission : option Admission.t;
  todayAttendance : list Attendance.t
}.

Inductive Alert :=
| InvalidTime
| AlreadyCheckedIn
| ShiftCompleted
| Success
| Error.

(** [fetchData]: the latest admission and today's attendance of the caller
    (the seven-day history that is only displayed is left out). *)
Definition fetchData (clock : Clock) (st : State) : Task State :=
  match user st with
  | None => Return st
  | Some uid =>
      admissionRes <- Q.select_latest_admission uid ;;
      let admission' :=
        match admissionRes with
        | Ok (a :: _) => Some a
        | _ => admission st
        end in
      todayRes <- Q.select_attendance_of uid (today clock) ;;
      Return (mkState (user st) admission'
                (match todayRes with
                 | Ok todayData => todayData
                 | Err _ => todayAttendance st
                 end))
  end.

Definition is_set (x : option Timestamp) : bool :=
  match x with Some _ => true | None => false end.

(** [isCurrentTimeInShift] comes from [@/utils/shiftTimeUtils], which is not
    part of the sources at hand: it is a parameter of the two handlers. *)
Definition handleCheckIn (isCurrentTimeInShift : string -> Clock -> bool)
  (clock : Clock) (st : State) (shift : string) : Task (option Alert) :=
  match user st, admission st with
  | Some uid, Some _ =>
      if negb (isCurrentTimeInShift shift clock) then Return (Some InvalidTime)
      else
        match find (fun record =>
                String.eqb (Attendance.shift record) shift
                && is_set (Attendance.check_in_time record)
                && negb (is_set (Attendance.check_out_time record)))
              (todayAttendance st) with
        | Some existingCheckIn => Return (Some AlreadyCheckedIn)
        | None =>
            match find (fun record =>
                    String.eqb (Attendance.shift record) shift
                    && is_set (Attendance.check_in_time record)
                    && is_set (Attendance.check_out_time record))
                  (todayAttendance st) with
            | Some completedShift => Return (Some ShiftCompleted)
            | None =>
                res <- Q.insert_attendance (now clock)
                  (Attendance.mkInsert uid shift (Some (now clock))
                     (today clock) None None) ;;
                match res with
                | Err _ => Return (Some Error)
                | Ok _ =>
                    _ <<- fetchData clock st ;;
                    Return (Some Success)
                end
            end
        end
  | _, _ => Return None
  end.

Definition handleCheckOut (isCurrentTimeInShift : string -> Clock -> bool)
  (clock : Clock) (st : State) (attendanceId : Uuid) (shift : string)
  : Task (option Alert) :=
  match user st with
  | None => Return None
  | Some _ =>
      if negb (isCurrentTimeInShift shift clock) then Return (Some InvalidTime)
      else
        res <- Q.update_check_out attendanceId (now clock) ;;
        match res with
        | Err _ => Return (Some Error)
        | Ok _ =>
            _ <<- fetchData clock st ;;
            Return (Some Success)
        end
  end.

(** The operation of the specification: [handleCheckIn] on a screen that has
    just loaded.  (The screen shows the button only for a shift without any
    attendance row today; that is not modelled.) *)
Definition checkIn (isCurrentTimeInShift : string -> Clock -> bool)
  (clock : Clock) (userId : Uuid) (shift : string) : Task (option Alert) :=
  st <<- fetchData clock (mkState (Some userId) None []) ;;
  handleCheckIn isCurrentTimeInShift clock st shift.

End AttendanceScreen.

(** ** The payment screen: submitting a cash payment for an admission *)

Module PaymentScreen.

Record State := mkState {
  user : option Uuid;
  admission : option Admission.t;
  existingCashPayment : option CashPayment.t
}.

Inductive Alert :=
| PaymentRequestAlreadySubmitted
| PaymentRequestAlreadyExists
| CashPaymentSubmitted
| Error.

Definition fetchAdmission (st : State) : Task State :=
  match user st with
  | None => Return st
  | Some uid =>
      res <- Q.select_latest_admission uid ;;
      match res with
      | Err _ => Return st
      | Ok (a :: _) =>
          rows <- Q.select_pending_cash_for_admission uid (Admission.id a) ;;
          match maybeSingle rows with
          | Some cashPaymentData =>
              Return (mkState (user st) (Some a) (Some cashPaymentData))
          | None => Return (mkState (user st) (Some a) (existingCashPayment st))
          end
      | Ok [] => Return (mkState (user st) None (existingCashPayment st))
      end
  end.

Definition confirmCashPayment (clock : Clock) (st : State)
  : Task (option Alert) :=
  match admission st, user st with
  | Some adm, Some uid =>
      match existingCashPayment st with
      | Some _ => Return (Some PaymentRequestAlreadySubmitted)
      | None =>
          rows <- Q.select_pending_cash_for_admission uid (Admission.id adm) ;;
          match maybeSingle rows with
          | Some existingPayment => Return (Some PaymentRequestAlreadyExists)
          | None =>
              cashRes <- Q.insert_cash_payment (now clock)
                (CashPayment.mkInsert uid None (Some (Admission.id adm))
                   (Admission.total_amount adm) CashPayment.pending) ;;
              match cashRes with
              | Err _ => Return (Some Error)
              | Ok cashPaymentData =>
                  _ <- Q.update_admission_status (Admission.id adm)
                         Admission.pending ;;
                  Return (Some CashPaymentSubmitted)
              end
          end
      end
  | _, _ => Return None
  end.

(** The alerts that turn a submission down as a duplicate. *)
Definition duplicate_request (a : option Alert) : bool :=
  match a with
  | Some PaymentRequestAlreadySubmitted | Some PaymentRequestAlreadyExists =>
      true
  | _ => false
  end.

(** The operation of the specification: [confirmCashPayment] on a screen
    that has just loaded. *)
Definition submitCashPayment (clock : Clock) (userId : Uuid)
  : Task (option Alert) :=
  st <<- fetchAdmission (mkState (Some userId) None None) ;;
  confirmCashPayment clock st.

End PaymentScreen.

(** ** The admin screen: approving or rejecting a cash payment *)

Module AdminPayments.

Inductive Action := approve | reject.

Inductive Alert := Success | Error.

Definition action_name (action : Action) : string :=
  match action with
  | approve => "approve_cash_payment"
  | reject => "reject_cash_payment"
  end.

Definition payment_type (payment : CashPayment.t) : string :=
  match CashPayment.booking_id payment with
  | Some _ => "booking"
  | None => "admission"
  end.

(** From [// Log admin action] to the end of the [try] block. *)
Definition finish (adm : Uuid) (payment : CashPayment.t) (action : Action)
  : Task Alert :=
  _ <- Q.insert_admin_log adm (action_name action) (CashPayment.id payment)
         (CashPayment.amount payment) (payment_type payment) ;;
  match action with
  | approve =>
      _ <- Q.insert_notification (CashPayment.user_id payment)
             "Payment Approved" "success" (Some adm) ;;
      _ <- Q.select_cash_payments ;;
      Return Success
  | reject =>
      _ <- Q.select_cash_payments ;;
      Return Success
  end.

(** [if (payment.admission_id) {...}] of the approve branch.  [addMonths d n]
   stands for [d.setMonth(d.getMonth() + n)]. *)
Definition approve_admission (addMonths : Timestamp -> Z -> Timestamp)
  (adm : Uuid) (clock : Clock) (payment : CashPayment.t) : Task Alert :=
  match CashPayment.admission_id payment with
  | Some aid =>
      let startDate := now clock in
      durationRes <- Q.select_admission_duration aid ;;
      match durationRes with
      | Err _ => Return Error
      | Ok duration =>
          let endDate := addMonths (now clock) duration in
          res <- Q.update_admission_paid aid startDate startDate endDate ;;
          match res with
          | Err _ => Return Error
          | Ok _ =>
              _ <- Q.insert_payment_history (CashPayment.user_id payment)
                     (CashPayment.amount payment) "cash" duration startDate
                     (now clock) ;;
              finish adm payment approve
          end
      end
  | None => finish adm payment approve
  end.

(** [if (payment.booking_id) {...}] of the approve branch, and what follows. *)
Definition approve_booking (addMonths : Timestamp -> Z -> Timestamp)
  (adm : Uuid) (clock : Clock) (payment : CashPayment.t) : Task Alert :=
  match CashPayment.booking_id payment with
  | Some bid =>
      bookingRes <- Q.update_booking_status bid SeatBooking.booked ;;
      match bookingRes with
      | Err _ => Return Error
      | Ok _ => approve_admission addMonths adm clock payment
      end
  | None => approve_admission addMonths adm clock payment
  end.

(** [if (payment.admission_id) {...}] of the reject branch, and what follows. *)
Definition reject_admission (adm : Uuid) (payment : CashPayment.t)
  : Task Alert :=
  let notify :=
    _ <- Q.insert_notification (CashPayment.user_id payment)
           "Payment Rejected" "error" (Some adm) ;;
    finish adm payment reject in
  match CashPayment.admission_id payment with
  | Some aid =>
      res <- Q.update_admission_status aid Admission.pending ;;
      match res with
      | Err _ => Return Error
      | Ok _ => notify
      end
  | None => notify
  end.

Definition reject_booking (adm : Uuid) (payment : CashPayment.t)
  : Task Alert :=
  match CashPayment.booking_id payment with
  | Some bid =>
      bookingRes <- Q.delete_seat_booking bid ;;
      match bookingRes with
      | Err _ => Return Error
      | Ok _ => reject_admission adm payment
      end
  | None => reject_admission adm payment
  end.

(** [payment] is the row as the screen fetched it; [adm] is the admin the
    screen is rendered for. *)
Definition handlePaymentAction (addMonths : Timestamp -> Z -> Timestamp)
  (adm : Uuid) (clock : Clock) (payment : CashPayment.t) (action : Action)
  : Task Alert :=
  res <- Q.update_cash_payment (CashPayment.id payment)
           (match action with
            | approve => CashPayment.approved
            | reject => CashPayment.rejected
            end) (Some adm) (now clock) ;;
  match res with
  | Err _ => Return Error
  | Ok _ =>
      match action with
      | approve => approve_booking addMonths adm clock payment
      | reject => reject_booking adm payment
      end
  end.

End AdminPayments.

(** ** What the specification speaks about *)

Module Spec.

(** Modelled from the spec: [isNowWithin('night', now)], the night window of
    the Shift Catalog.  The function the application uses
    ([isCurrentTimeInShift] of [@/utils/shiftTimeUtils]) is not part of the
    sources at hand.  The specification says that the window wraps midnight,
    that the shift counts as ended "when hour >= 5 AND hour < 21 (not
    currently in the overnight window)", and that the window holds 23:59 and
    04:59 but neither 05:00 nor 20:59: the window is 21:00 to 05:00. *)
Definition isNowWithin_night (hour minute : Z) : bool :=
  (21 <=? hour)%Z || (hour <? 5)%Z.

(** The (paid admission, selected shift) pairs, in table order. *)
Definition enrolled_pairs (s : Store) : list (Admission.t * string) :=
  flat_map (fun a => map (pair a) (Admission.selected_shifts a))
    (filter Admission.is_paid (admissions s)).

(** Some attendance row of [(u, sh, d)] has a non-null [check_in_time]. *)
Definition checked_in (s : Store) (u : Uuid) (sh : string) (d : DateStr)
  : bool :=
  existsb (fun r =>
    (Attendance.user_id r =? u) && String.eqb (Attendance.shift r) sh
    && String.eqb (Attendance.date r) d
    && match Attendance.check_in_time r with
       | Some _ => true
       | None => false
       end) (attendance s).

(** The pair is to be flagged: its shift has ended and nobody checked in. *)
Definition flagged (s : Store) (d : DateStr) (hour : Z)
  (p : Admission.t * string) : bool :=
  Api.shiftEnded (snd p) hour
  && negb (checked_in s (Admission.user_id (fst p)) (snd p) d).

(** One entry per flagged pair. *)
Definition absent_entries (s : Store) (d : DateStr) (hour : Z)
  : list Api.AbsentStudent :=
  map (fun p => Api.mkAbsent (Admission.user_id (fst p)) (snd p) d
                  "absent" "no_checkin")
    (filter (flagged s d hour) (enrolled_pairs s)).

Definition report (s : Store) (d : DateStr) (hour : Z) : Api.Report :=
  Api.mkReport true d (List.length (absent_entries s d hour))
    (absent_entries s d hour).

(** The specification's [shiftHasEnded]: the column "ends (absence
    threshold)" of the table of shift windows of the Shift Catalog, written
    down from the table and not from the [switch] of the route, with which it
    is compared. *)
Definition shiftHasEnded (shift : string) (hour : Z) : bool :=
  (String.eqb shift "morning" && (11 <=? hour)%Z)
  || (String.eqb shift "noon" && (16 <=? hour)%Z)
  || (String.eqb shift "evening" && (21 <=? hour)%Z)
  || (String.eqb shift "night" && (5 <=? hour)%Z && (hour <? 21)%Z).

(** The records the specification asks for: one per (paid admission,
    selected shift) pair whose shift has ended at [hour] and for which no
    attendance row of (user, shift, [d]) has a check-in time. *)
Definition to_flag (s : Store) (d : DateStr) (hour : Z)
  (p : Admission.t * string) : bool :=
  shiftHasEnded (snd p) hour
  && negb (checked_in s (Admission.user_id (fst p)) (snd p) d).

Definition expected_absences (s : Store) (d : DateStr) (hour : Z)
  : list Api.AbsentStudent :=
  map (fun p => Api.mkAbsent (Admission.user_id (fst p)) (snd p) d
                  "absent" "no_checkin")
    (filter (to_flag s d hour) (enrolled_pairs s)).

(** Two stores whose [admissions] and [attendance] hold the same rows, in
    whatever order. *)
Definition same_rows (s s' : Store) : Prop :=
  Permutation (admissions s) (admissions s')
  /\ Permutation (attendance s) (attendance s').

(** A date as the [date] column prints it and as
    [toISOString().split('T')[0]] computes it: 'YYYY-MM-DD' (the hyphen is
    character 45), with a year from 0001 on, a month from 01 to 12 and a day
    that the month has. *)
Definition digit (c : Ascii.ascii) : option Z :=
  let n := Z.of_nat (Ascii.nat_of_ascii c) in
  if (48 <=? n)%Z && (n <=? 57)%Z then Some (n - 48)%Z else None.

Fixpoint number (cs : list Ascii.ascii) (acc : Z) : option Z :=
  match cs with
  | [] => Some acc
  | c :: cs' =>
      match digit c with
      | Some n => number cs' (10 * acc + n)%Z
      | None => None
      end
  end.

Definition leap_year (y : Z) : bool :=
  (y mod 4 =? 0)%Z && (negb (y mod 100 =? 0)%Z || (y mod 400 =? 0)%Z).

Definition days_in_month (y m : Z) : Z :=
  if (m =? 2)%Z then (if leap_year y then 29 else 28)%Z
  else if existsb (Z.eqb m) [4; 6; 9; 11]%Z then 30%Z else 31%Z.

Definition iso_date (d : DateStr) : bool :=
  match list_ascii_of_string d with
  | [y1; y2; y3; y4; h1; m1; m2; h2; d1; d2] =>
      Nat.eqb (Ascii.nat_of_ascii h1) 45
      && Nat.eqb (Ascii.nat_of_ascii h2) 45
      && match number [y1; y2; y3; y4] 0, number [m1; m2] 0,
               number [d1; d2] 0 with
         | Some y, Some m, Some day =>
             (1 <=? y)%Z && (1 <=? m)%Z && (m <=? 12)%Z && (1 <=? day)%Z
             && (day <=? days_in_month y m)%Z
         | _, _, _ => false
         end
  | _ => false
  end.

(** The persisted absent rows of a day. *)
Definition absent_rows (s : Store) (d : DateStr) : list Attendance.t :=
  filter (fun r => String.eqb (Attendance.date r) d
                   && Attendance.status_eqb (Attendance.status r)
                        Attendance.absent) (attendance s).

(** Number of [booked] rows of a shift on a day. *)
Definition booked_count (s : Store) (sh : string) (d : DateStr) : Z :=
  Z.of_nat (List.length (filter (fun b =>
    SeatBooking.is_booked b && String.eqb (SeatBooking.shift b) sh
    && String.eqb (SeatBooking.booking_date b) d) (seat_bookings s))).

(** Number of [booked] rows of a seat of a shift on a day. *)
Definition booked_rows (tbl : list SeatBooking.t) (sh seat : string)
  (d : DateStr) : nat :=
  List.length (filter (fun b =>
    SeatBooking.is_booked b && SeatBooking.at_seat sh seat d b) tbl).

(** Every field of an admission row but [payment_status]. *)
Definition same_but_payment_status (a a' : Admission.t) : Prop :=
  Admission.id a' = Admission.id a
  /\ Admission.user_id a' = Admission.user_id a
  /\ Admission.name a' = Admission.name a
  /\ Admission.age a' = Admission.age a
  /\ Admission.contact_number a' = Admission.contact_number a
  /\ Admission.full_address a' = Admission.full_address a
  /\ Admission.email a' = Admission.email a
  /\ Admission.course_name a' = Admission.course_name a
  /\ Admission.father_name a' = Admission.father_name a
  /\ Admission.father_contact a' = Admission.father_contact a
  /\ Admission.duration a' = Admission.duration a
  /\ Admission.selected_shifts a' = Admission.selected_shifts a
  /\ Admission.registration_fee a' = Admission.registration_fee a
  /\ Admission.shift_fee a' = Admission.shift_fee a
  /\ Admission.total_amount a' = Admission.total_amount a
  /\ Admission.payment_date a' = Admission.payment_date a
  /\ Admission.start_date a' = Admission.start_date a
  /\ Admission.end_date a' = Admission.end_date a
  /\ Admission.created_at a' = Admission.created_at a.

(** The caller has an admission row: the attendance screen shows the
    check-in button only to a student with a (paid) admission. *)
Definition has_admission (s : Store) (u : Uuid) : bool :=
  existsb (fun a => Admission.user_id a =? u) (admissions s).

(** An open row of [(u, sh, d)]: check-in set, check-out not set. *)
Definition open_row (s : Store) (u : Uuid) (sh : string) (d : DateStr)
  : bool :=
  existsb (fun r =>
    (Attendance.user_id r =? u) && String.eqb (Attendance.shift r) sh
    && String.eqb (Attendance.date r) d
    && AttendanceScreen.is_set (Attendance.check_in_time r)
    && negb (AttendanceScreen.is_set (Attendance.check_out_time r)))
    (attendance s).

(** A closed row of [(u, sh, d)]: both times set. *)
Definition closed_row (s : Store) (u : Uuid) (sh : string) (d : DateStr)
  : bool :=
  existsb (fun r =>
    (Attendance.user_id r =? u) && String.eqb (Attendance.shift r) sh
    && String.eqb (Attendance.date r) d
    && AttendanceScreen.is_set (Attendance.check_in_time r)
    && AttendanceScreen.is_set (Attendance.check_out_time r))
    (attendance s).

(** Every [present] row carries a check-in time: the only writer of present
    rows is the check-in handler, which always sets it. *)
Definition present_rows_checked_in (s : Store) : Prop :=
  forall r, In r (attendance s) ->
    Attendance.status r = Attendance.present ->
    Attendance.check_in_time r <> None.

(** The row a check-in adds. *)
Definition check_in_row (s : Store) (clock : Clock) (u : Uuid) (sh : string)
  : Attendance.t :=
  Attendance.mk (next_id s) u sh (Some (now clock)) None (today clock)
    Attendance.present None (now clock).

Definition add_attendance (r : Attendance.t) (s : Store) : Store :=
  mkStore (admissions s) (seat_bookings s) (attendance s ++ [r])
    (cash_payments s) (payment_history s) (notifications s) (admin_logs s)
    (S (next_id s)).

(** The caller holds a [booked] row of [(u, sh, d)]. *)
Definition holds_booked (s : Store) (u : Uuid) (sh : string) (d : DateStr)
  : bool :=
  existsb (fun b =>
    (SeatBooking.user_id b =? u) && String.eqb (SeatBooking.shift b) sh
    && String.eqb (SeatBooking.booking_date b) d && SeatBooking.is_booked b)
    (seat_bookings s).

(** The caller holds a [pending] or [booked] row of [(u, sh, d)]. *)
Definition holds_active (s : Store) (u : Uuid) (sh : string) (d : DateStr)
  : bool :=
  existsb (fun b =>
    (SeatBooking.user_id b =? u) && String.eqb (SeatBooking.shift b) sh
    && String.eqb (SeatBooking.booking_date b) d
    && (SeatBooking.is_pending b || SeatBooking.is_booked b))
    (seat_bookings s).

(** The caller has a pending cash payment that is linked to a booking. *)
Definition has_pending_booking_payment (s : Store) (u : Uuid) : bool :=
  existsb (fun p =>
    (CashPayment.user_id p =? u) && CashPayment.is_pending p
    && match CashPayment.booking_id p with
       | Some _ => true
       | None => false
       end) (cash_payments s).

(** The two rows a booking request adds. *)
Definition booking_row (s : Store) (clock : Clock) (u : Uuid)
  (sh seat : string) : SeatBooking.t :=
  SeatBooking.mk (next_id s) u sh seat SeatBooking.pending (today clock)
    (now clock).

Definition booking_payment_row (s : Store) (clock : Clock) (u : Uuid)
  : CashPayment.t :=
  CashPayment.mk (S (next_id s)) u (Some (next_id s)) None 50
    CashPayment.pending None None None (now clock).

Definition add_booking_request (b : SeatBooking.t) (p : CashPayment.t)
  (s : Store) : Store :=
  mkStore (admissions s) (seat_bookings s ++ [b]) (attendance s)
    (cash_payments s ++ [p]) (payment_history s) (notifications s)
    (admin_logs s) (S (S (next_id s))).

(** The invariant of the claim: no seat of a shift and day has two
    [booked] rows. *)
Definition unique_booked (tbl : list SeatBooking.t) : Prop :=
  forall sh seat d, booked_rows tbl sh seat d <= 1.

(** The booking table as the schema keeps it: ids are a primary key drawn
    from the counter, and, by the index [seat_bookings_unique_booked], two
    booked rows of one seat of a shift and day are one row. *)
Definition bookings_wf (s : Store) : Prop :=
  NoDup (map SeatBooking.id (seat_bookings s))
  /\ (forall b, In b (seat_bookings s) -> SeatBooking.id b < next_id s)
  /\ (forall a b,
        In a (seat_bookings s) -> In b (seat_bookings s) ->
        SeatBooking.is_booked a = true -> SeatBooking.is_booked b = true ->
        SeatBooking.same_seat a b = true ->
        SeatBooking.id a = SeatBooking.id b).

(** The status of the booking with id [bid]. *)
Definition status_of (s : Store) (bid : Uuid) : option SeatBooking.Status :=
  option_map SeatBooking.booking_status
    (find (fun r => SeatBooking.id r =? bid) (seat_bookings s)).

(** The pending cash payments of an admission. *)
Definition pending_cash_for_admission (s : Store) (aid : Uuid)
  : list CashPayment.t :=
  filter (fun p => match CashPayment.admission_id p with
                   | Some a => a =? aid
                   | None => false
                   end && CashPayment.is_pending p) (cash_payments s).

End Spec.

(** ** Two approvals racing for one seat: the bookkeeping of the proof *)

Module Race.

(** Where an approval of a booking payment stands: before the payment update,
    before the booking update, before the log entry, before the notification,
    before the list is fetched again, done, or failed. *)
Inductive Phase := PPay | PBook | PLog | PNotify | PList | PDone | PFailed.

Definition approval_at (addMonths : Timestamp -> Z -> Timestamp) (adm : Uuid)
  (clock : Clock) (p : CashPayment.t) (ph : Phase)
  : Task AdminPayments.Alert :=
  match ph with
  | PPay =>
      AdminPayments.handlePaymentAction addMonths adm clock p
        AdminPayments.approve
  | PBook => AdminPayments.approve_booking addMonths adm clock p
  | PLog => AdminPayments.finish adm p AdminPayments.approve
  | PNotify =>
      (_ <- Q.insert_notification (CashPayment.user_id p) "Payment Approved"
              "success" (Some adm) ;;
       _ <- Q.select_cash_payments ;;
       Return AdminPayments.Success)%task
  | PList => (_ <- Q.select_cash_payments ;; Return AdminPayments.Success)%task
  | PDone => Return AdminPayments.Success
  | PFailed => Return AdminPayments.Error
  end.

Definition set_booked (bid : Uuid) (tbl : list SeatBooking.t)
  : list SeatBooking.t :=
  map (fun r => if SeatBooking.id r =? bid
                then SeatBooking.set_status SeatBooking.booked r else r) tbl.

(** The phase and the bookings after the next request of the approval. *)
Definition next_phase (bid : Uuid) (ph : Phase) (tbl : list SeatBooking.t)
  : Phase :=
  match ph with
  | PPay => PBook
  | PBook =>
      if Db.booked_conflict bid SeatBooking.booked tbl then PFailed else PLog
  | PLog => PNotify
  | PNotify => PList
  | PList => PDone
  | PDone => PDone
  | PFailed => PFailed
  end.

Definition next_bookings (bid : Uuid) (ph : Phase) (tbl : list SeatBooking.t)
  : list SeatBooking.t :=
  match ph with
  | PBook =>
      if Db.booked_conflict bid SeatBooking.booked tbl then tbl
      else set_booked bid tbl
  | _ => tbl
  end.

(** The last phase and the bookings once the approval has run to its end. *)
Definition last_phase (bid : Uuid) (ph : Phase) (tbl : list SeatBooking.t)
  : Phase :=
  match ph with
  | PPay | PBook =>
      if Db.booked_conflict bid SeatBooking.booked tbl then PFailed else PDone
  | PFailed => PFailed
  | _ => PDone
  end.

Definition last_bookings (bid : Uuid) (ph : Phase) (tbl : list SeatBooking.t)
  : list SeatBooking.t :=
  match ph with
  | PPay | PBook =>
      if Db.booked_conflict bid SeatBooking.booked tbl then tbl
      else set_booked bid tbl
  | _ => tbl
  end.

Definition alert_of (ph : Phase) : AdminPayments.Alert :=
  match ph with
  | PFailed => AdminPayments.Error
  | _ => AdminPayments.Success
  end.

(** What matters of a phase for the seat. *)
Inductive Progress := Waiting | Booked | Refused.

Definition progress (ph : Phase) : Progress :=
  match ph with
  | PPay | PBook => Waiting
  | PFailed => Refused
  | _ => Booked
  end.

Definition status_at (g : Progress) : SeatBooking.Status :=
  match g with
  | Booked => SeatBooking.booked
  | _ => SeatBooking.pending
  end.

(** The invariant of the race for the seat [(sh, seat, d)] between the
    bookings [b1] and [b2]. *)
Definition Inv (sh seat d : string) (b1 b2 : Uuid) (g1 g2 : Progress)
  (tbl : list SeatBooking.t) : Prop :=
  NoDup (map SeatBooking.id tbl)
  /\ (exists r, In r tbl /\ SeatBooking.id r = b1
                /\ SeatBooking.at_seat sh seat d r = true
                /\ SeatBooking.booking_status r = status_at g1)
  /\ (exists r, In r tbl /\ SeatBooking.id r = b2
                /\ SeatBooking.at_seat sh seat d r = true
                /\ SeatBooking.booking_status r = status_at g2)
  /\ (forall r, In r tbl -> SeatBooking.is_booked r = true ->
                SeatBooking.at_seat sh seat d r = true ->
                SeatBooking.id r = b1 \/ SeatBooking.id r = b2)
  /\ b1 <> b2
  /\ (g1 = Refused -> g2 = Booked)
  /\ (g2 = Refused -> g1 = Booked)
  /\ ~ (g1 = Booked /\ g2 = Booked).

End Race.

(** ** Example states *)

Module Scenario.

(** 10 January 2025 at 08:00, 10:00 and 12:00. *)
Definition clock_morning : Clock := mkClock 1736496000000 "2025-01-10" 8.

Definition clock_ten : Clock := mkClock 1736503200000 "2025-01-10" 10.

Definition clock_noon : Clock := mkClock 1736510400000 "2025-01-10" 12.

(** [d.setMonth(d.getMonth() + n)], with months of 30 days. *)
Definition addMonths (d : Timestamp) (n : Z) : Timestamp :=
  (d + n * 2592000000)%Z.

Definition SHIFTS : list HomeScreen.ShiftInfo :=
  [HomeScreen.mkShift "morning" "Morning" 299;
   HomeScreen.mkShift "noon" "Noon" 349;
   HomeScreen.mkShift "evening" "Evening" 299;
   HomeScreen.mkShift "night" "Night" 299].

(** A catalogue window for the check-in examples: the morning shift runs
    from 06:00 to 11:00. *)
Definition in_window (sh : string) (clock : Clock) : bool :=
  String.eqb sh "morning" && (6 <=? hours clock)%Z && (hours clock <? 11)%Z.

(** A paid one-month admission of user 7 for the morning shift. *)
Definition asha : Admission.t :=
  Admission.mk 1 7 "Asha" 21 "9000000001" "12 Lake Road" "asha@example.org"
    "UPSC" "Ravi" "9000000002" 1 ["morning"%string] 50 299 349 Admission.paid
    (Some 1735689600000%Z) (Some 1735689600000%Z) (Some 1738368000000%Z)
    1735603200000.

(** A pending three-month admission of user 8 (amount 549). *)
Definition bina : Admission.t :=
  Admission.mk 2 8 "Bina" 19 "9000000003" "4 Hill Street" "bina@example.org"
    "SSC" "Mohan" "9000000004" 3 ["morning"; "noon"]%string 50 499 549
    Admission.pending None None None 1736400000000.

Definition one_student : Store := mkStore [asha] [] [] [] [] [] [] 2.

(** User 7 has checked in for the morning shift at 08:00 ... *)
Definition checked_in_store : Store :=
  Eval vm_compute in
    snd (run (AttendanceScreen.checkIn in_window clock_morning 7 "morning")
           one_student).

(** ... and has checked out at 10:00. *)
Definition checked_out_store : Store :=
  Eval vm_compute in
    snd (run (AttendanceScreen.handleCheckOut in_window clock_ten
                (AttendanceScreen.mkState (Some 7) (Some asha) []) 2
                "morning") checked_in_store).

(** Users [asha] and [bina] are enrolled; nobody has paid in cash yet. *)
Definition enrolled : Store := mkStore [asha; bina] [] [] [] [] [] [] 3.

(** User 8 has submitted a cash payment for the admission [bina]. *)
Definition cash_submitted : Store :=
  Eval vm_compute in
    snd (run (PaymentScreen.submitCashPayment clock_morning 8) enrolled).

Definition payment_of_8 : CashPayment.t :=
  CashPayment.mk 3 8 None (Some 2) 549 CashPayment.pending None None None
    1736496000000.

(** User 8 submits the cash payment for the admission [bina] from two
    devices at once: both read before either writes. *)
Definition both_read_first : list bool :=
  [true; true; true; false; false; false].

Definition raced : Store :=
  Eval vm_compute in
    snd (interleave both_read_first
           (PaymentScreen.submitCashPayment clock_morning 8)
           (PaymentScreen.submitCashPayment clock_morning 8) enrolled).

(** Seat A1 of the morning shift is booked by user 1; user 2 has a pending
    request for seat A2. *)
Definition two_bookings : Store :=
  mkStore []
    [SeatBooking.mk 10 1 "morning" "A1" SeatBooking.booked "2025-01-10"
       1736490000000;
     SeatBooking.mk 11 2 "morning" "A2" SeatBooking.pending "2025-01-10"
       1736490000001]
    [] [] [] [] [] 12.

(** User 1 has asked for seat B1 of the evening shift and waits for the
    admin. *)
Definition one_request : Store :=
  Eval vm_compute in
    snd (run (BookingScreen.requestBooking clock_morning 1 "evening" "B1")
           empty_store).

(** Users 1 and 2 both ask for seat A12 of the morning shift. *)
Definition two_requests : Store :=
  Eval vm_compute in
    snd (run (BookingScreen.requestBooking clock_morning 2 "morning" "A12")
           (snd (run (BookingScreen.requestBooking clock_morning 1 "morning"
                        "A12") empty_store))).

(** Their two pending rows ... *)
Definition request_of_1 : SeatBooking.t :=
  SeatBooking.mk 0 1 "morning" "A12" SeatBooking.pending "2025-01-10"
    1736496000000.

Definition request_of_2 : SeatBooking.t :=
  SeatBooking.mk 2 2 "morning" "A12" SeatBooking.pending "2025-01-10"
    1736496000000.

(** ... and their cash payments, as the admin screen lists them. *)
Definition payment_of_1 : CashPayment.t :=
  CashPayment.mk 1 1 (Some 0) None 50 CashPayment.pending None None None
    1736496000000.

Definition payment_of_2 : CashPayment.t :=
  CashPayment.mk 3 2 (Some 2) None 50 CashPayment.pending None None None
    1736496000000.

(** The admin (user 99) has approved the payment of user 1. *)
Definition first_approved : Store :=
  Eval vm_compute in
    snd (run (AdminPayments.handlePaymentAction addMonths 99 clock_morning
                payment_of_1 AdminPayments.approve) two_requests).

(** The approval of the payment of user 2 has failed: seat A12 is taken. *)
Definition second_refused : Store :=
  Eval vm_compute in
    snd (run (AdminPayments.handlePaymentAction addMonths 99 clock_morning
                payment_of_2 AdminPayments.approve) first_approved).

End Scenario.

(** ** What the further properties speak about *)

Module Facts.

(** The columns of [attendance_user_shift_date_status_key] of a row. *)
Definition attendance_key (r : Attendance.t)
  : Uuid * string * DateStr * Attendance.Status :=
  (Attendance.user_id r, Attendance.shift r, Attendance.date r,
   Attendance.status r).

(** The attendance rows of [(u, sh, d)] with status [st]. *)
Definition attendance_rows (s : Store) (u : Uuid) (sh : string) (d : DateStr)
  (st : Attendance.Status) : list Attendance.t :=
  filter (fun r =>
    (Attendance.user_id r =? u) && String.eqb (Attendance.shift r) sh
    && String.eqb (Attendance.date r) d
    && Attendance.status_eqb (Attendance.status r) st) (attendance s).

(** The store with another attendance table. *)
Definition with_attendance (l : list Attendance.t) (s : Store) : Store :=
  mkStore (admissions s) (seat_bookings s) l (cash_payments s)
    (payment_history s) (notifications s) (admin_logs s) (next_id s).

(** The attendance table after [check_out_time] of the rows with id [rid]
    has been set. *)
Definition checked_out (rid : Uuid) (ts : Timestamp) (s : Store)
  : list Attendance.t :=
  map (fun r => if Attendance.id r =? rid
                then Attendance.set_check_out ts r else r) (attendance s).

(** The store with one more admission. *)
Definition add_admission (a : Admission.t) (s : Store) : Store :=
  mkStore (admissions s ++ [a]) (seat_bookings s) (attendance s)
    (cash_payments s) (payment_history s) (notifications s) (admin_logs s)
    (S (next_id s)).

(** The latest admission of a student, as the screens fetch it. *)
Definition latest_admission (s : Store) (u : Uuid) : option Admission.t :=
  hd_error (order_desc Admission.created_at
              (filter (fun a => Admission.user_id a =? u) (admissions s))).

(** The pending cash payment requests of a student for an admission. *)
Definition pending_requests (s : Store) (u aid : Uuid) : list CashPayment.t :=
  filter (fun p => (CashPayment.user_id p =? u)
                   && match CashPayment.admission_id p with
                      | Some a => a =? aid
                      | None => false
                      end
                   && CashPayment.is_pending p) (cash_payments s).

End Facts.
(** ** The attendance screen: the status list and the controls it shows

    [updateAttendanceStatus] and the part of the render of
    [AttendanceScreen] that decides which control a shift gets.
    [shouldMarkAbsent] and [formatAbsentMessage] come from
    [@/utils/attendanceUtils], which is not part of the sources at hand: like
    [isCurrentTimeInShift] they are parameters.  The flags [checkingIn] and
    [checkingOut], set while a handler is running, are taken to be false. *)

Module AttendanceStatus.

Inductive Status := present | absent | pending.

Record t := mk {
  shift : string;
  status : Status;
  checkInTime : option Timestamp;
  checkOutTime : option Timestamp;
  message : option string
}.

End AttendanceStatus.

Module AttendanceView.

Section Utils.

Variable isCurrentTimeInShift : string -> Clock -> bool.
Variable shouldMarkAbsent : string -> bool -> Clock -> bool.
Variable formatAbsentMessage : string -> string.

(** [todayAttendance.find(record => record.shift === shift)] *)
Definition shiftAttendance (st : AttendanceScreen.State) (shift : string)
  : option Attendance.t :=
  find (fun record => String.eqb (Attendance.shift record) shift)
    (AttendanceScreen.todayAttendance st).

(** The callback of [admission.selected_shifts.map] in
    [updateAttendanceStatus]. *)
Definition shift_status (clock : Clock) (st : AttendanceScreen.State)
  (shift : string) : AttendanceStatus.t :=
  let hasCheckedIn :=
    match shiftAttendance st shift with
    | Some record => AttendanceScreen.is_set (Attendance.check_in_time record)
    | None => false
    end in
  let isCompleted :=
    match shiftAttendance st shift with
    | Some record =>
        AttendanceScreen.is_set (Attendance.check_in_time record)
        && AttendanceScreen.is_set (Attendance.check_out_time record)
    | None => false
    end in
  let check_in_time :=
    match shiftAttendance st shift with
    | Some record => Attendance.check_in_time record
    | None => None
    end in
  let check_out_time :=
    match shiftAttendance st shift with
    | Some record => Attendance.check_out_time record
    | None => None
    end in
  if isCompleted then
    AttendanceStatus.mk shift AttendanceStatus.present check_in_time
      check_out_time None
  else if hasCheckedIn then
    AttendanceStatus.mk shift AttendanceStatus.present check_in_time None None
  else if shouldMarkAbsent shift hasCheckedIn clock then
    AttendanceStatus.mk shift AttendanceStatus.absent None None
      (Some (formatAbsentMessage shift))
  else
    AttendanceStatus.mk shift AttendanceStatus.pending None None None.

(** [updateAttendanceStatus]: the new value of [attendanceStatus]. *)
Definition updateAttendanceStatus (clock : Clock)
  (st : AttendanceScreen.State) (attendanceStatus : list AttendanceStatus.t)
  : list AttendanceStatus.t :=
  match AttendanceScreen.admission st with
  | None => attendanceStatus
  | Some admission =>
      map (shift_status clock st) (Admission.selected_shifts admission)
  end.

(** The screen shows the list only to a student whose admission is paid. *)
Definition listShown (st : AttendanceScreen.State) : bool :=
  match AttendanceScreen.admission st with
  | Some admission => Admission.is_paid admission
  | None => false
  end.

Definition isCheckedIn (st : AttendanceScreen.State)
  (status : AttendanceStatus.t) : bool :=
  match shiftAttendance st (AttendanceStatus.shift status) with
  | Some record =>
      AttendanceScreen.is_set (Attendance.check_in_time record)
      && negb (AttendanceScreen.is_set (Attendance.check_out_time record))
  | None => false
  end.

Definition isCompleted (status : AttendanceStatus.t) : bool :=
  match AttendanceStatus.status status with
  | AttendanceStatus.present =>
      AttendanceScreen.is_set (AttendanceStatus.checkOutTime status)
  | _ => false
  end.

Definition isAbsent (status : AttendanceStatus.t) : bool :=
  match AttendanceStatus.status status with
  | AttendanceStatus.absent => true
  | _ => false
  end.

Definition isShiftActive (clock : Clock) (status : AttendanceStatus.t)
  : bool :=
  isCurrentTimeInShift (AttendanceStatus.shift status) clock.

(** What [styles.actionButtons] holds for one entry of the list. *)
Inductive Control :=
| CheckInButton (shift : string) (disabled : bool)
| CheckOutButton (attendanceId : Uuid) (shift : string) (disabled : bool)
| CompletedLabel.

Definition actionButtons (clock : Clock) (st : AttendanceScreen.State)
  (status : AttendanceStatus.t) : list Control :=
  (match shiftAttendance st (AttendanceStatus.shift status) with
   | None =>
       if negb (isAbsent status)
       then [CheckInButton (AttendanceStatus.shift status)
               (negb (isShiftActive clock status))]
       else []
   | Some _ => []
   end)
  ++ (match shiftAttendance st (AttendanceStatus.shift status) with
      | Some record =>
          if negb (isAbsent status) && isCheckedIn st status
          then [CheckOutButton (Attendance.id record)
                  (AttendanceStatus.shift status)
                  (negb (isShiftActive clock status))]
          else []
      | None => []
      end)
  ++ (if negb (isAbsent status) && isCompleted status
      then [CompletedLabel] else []).

(** Pressing a control: a disabled button does nothing. *)
Definition press (clock : Clock) (st : AttendanceScreen.State)
  (control : Control) : Task (option AttendanceScreen.Alert) :=
  match control with
  | CheckInButton shift disabled =>
      if disabled then Return None
      else AttendanceScreen.handleCheckIn isCurrentTimeInShift clock st shift
  | CheckOutButton attendanceId shift disabled =>
      if disabled then Return None
      else AttendanceScreen.handleCheckOut isCurrentTimeInShift clock st
             attendanceId shift
  | CompletedLabel => Return None
  end.

End Utils.

End AttendanceView.

(** ** The booking screen: the seat grid

    The helpers the render of [BookingScreen] uses and the two [onPress]
    callbacks of its grid.  The seat numbers of the grid come from
    [generateSeatNumbers] of [@/utils/shiftUtils], which is not part of the
    sources at hand. *)

Module BookingSeats.

Definition isSeatBooked (st : BookingScreen.State) (seatNumber shift : string)
  : bool :=
  existsb (fun booking =>
    String.eqb (SeatBooking.seat_number booking) seatNumber
    && String.eqb (SeatBooking.shift booking) shift
    && SeatBooking.is_booked booking) (BookingScreen.seatBookings st).

Definition isUserSeat (st : BookingScreen.State) (seatNumber shift : string)
  : bool :=
  existsb (fun booking =>
    String.eqb (SeatBooking.seat_number booking) seatNumber
    && String.eqb (SeatBooking.shift booking) shift
    && SeatBooking.is_booked booking) (BookingScreen.userBookings st).

Definition hasUserBookedShift (st : BookingScreen.State) (shift : string)
  : bool :=
  existsb (fun booking => String.eqb (SeatBooking.shift booking) shift)
    (BookingScreen.userBookings st).

Definition getUserSeatForShift (st : BookingScreen.State) (shift : string)
  : option string :=
  match find (fun booking => String.eqb (SeatBooking.shift booking) shift)
          (BookingScreen.userBookings st) with
  | Some booking => Some (SeatBooking.seat_number booking)
  | None => None
  end.

Definition setSelectedShift (st : BookingScreen.State) (shift : string)
  : BookingScreen.State :=
  BookingScreen.mkState (BookingScreen.user st) (BookingScreen.admission st)
    shift (BookingScreen.selectedSeat st) (BookingScreen.seatBookings st)
    (BookingScreen.userBookings st) (BookingScreen.pendingCashPayments st).

Definition setSelectedSeat (st : BookingScreen.State) (seat : string)
  : BookingScreen.State :=
  BookingScreen.mkState (BookingScreen.user st) (BookingScreen.admission st)
    (BookingScreen.selectedShift st) seat (BookingScreen.seatBookings st)
    (BookingScreen.userBookings st) (BookingScreen.pendingCashPayments st).

(** [onPress] of a shift option. *)
Definition pressShift (st : BookingScreen.State) (shift_id : string)
  : BookingScreen.State :=
  setSelectedSeat (setSelectedShift st shift_id) "".

(** [disabled] of a seat of the grid. *)
Definition seatDisabled (st : BookingScreen.State) (seatNumber : string)
  : bool :=
  isSeatBooked st seatNumber (BookingScreen.selectedShift st)
  || hasUserBookedShift st (BookingScreen.selectedShift st).

(** [onPress] of a seat of the grid. *)
Definition seatOnPress (st : BookingScreen.State) (seatNumber : string)
  : option BookingScreen.Alert * BookingScreen.State :=
  let isBooked := isSeatBooked st seatNumber (BookingScreen.selectedShift st) in
  let isUserBooked :=
    isUserSeat st seatNumber (BookingScreen.selectedShift st) in
  let userHasBookedShift :=
    hasUserBookedShift st (BookingScreen.selectedShift st) in
  if userHasBookedShift then (Some BookingScreen.AlreadyBooked, st)
  else if negb isBooked && negb isUserBooked then
    (None,
     setSelectedSeat st
       (if String.eqb (BookingScreen.selectedSeat st) seatNumber
        then ""%string else seatNumber))
  else (None, st).

(** Pressing a seat: a disabled seat does not call [onPress]. *)
Definition pressSeat (st : BookingScreen.State) (seatNumber : string)
  : option BookingScreen.Alert * BookingScreen.State :=
  if seatDisabled st seatNumber then (None, st) else seatOnPress st seatNumber.

(** The submit button is part of the seat card, which needs a selected
    shift, and needs a selected seat and no booking of the student for the
    shift. *)
Definition submitShown (st : BookingScreen.State) : bool :=
  truthy (BookingScreen.selectedShift st)
  && (truthy (BookingScreen.selectedSeat st)
      && negb (hasUserBookedShift st (BookingScreen.selectedShift st))).

End BookingSeats.

(** ** The admission form

    [handleSubmit] and [toggleShift] of [AdmissionScreen].  The insert into
    [admissions] is not among the requests of [Q.t], so the handler, whose
    only request it is, is given as a function on the store.
    [calculateShiftFee] comes from [@/utils/shiftUtils], which is not part of
    the sources at hand, and [parseInt] is JavaScript's: both are parameters,
    [parseInt] answering [None] for [NaN]. *)

Module AdmissionDb.

(** What the table refuses an insert for. *)
Inductive Error :=
| not_null_violation (column : string)
| check_violation (constraint : string).

(** Payload of [from('admissions').insert({...})]; a [NaN] is sent as
    [null]. *)
Record Insert := mkInsert {
  i_user_id : Uuid;
  i_name : string;
  i_age : option Z;
  i_contact_number : string;
  i_full_address : string;
  i_email : string;
  i_course_name : string;
  i_father_name : string;
  i_father_contact : string;
  i_duration : option Z;
  i_selected_shifts : list string;
  i_registration_fee : Z;
  i_shift_fee : Z;
  i_total_amount : Z;
  i_payment_status : Admission.PaymentStatus
}.

(** [from('admissions').insert(p)]: [age integer NOT NULL CHECK (age > 0 AND
    age < 150)], [duration integer NOT NULL CHECK (duration IN (1, 3, 6))];
    the dates stay [null]; the client receives [error]. *)
Definition insert_admission (now : Timestamp) (p : Insert)
  : Request (option Error) :=
  fun s =>
    match i_age p, i_duration p with
    | None, _ => (Some (not_null_violation "age"), s)
    | Some _, None => (Some (not_null_violation "duration"), s)
    | Some age, Some duration =>
        if negb ((0 <? age)%Z && (age <? 150)%Z) then
          (Some (check_violation "admissions_age_check"), s)
        else if negb (existsb (Z.eqb duration) [1; 3; 6]%Z) then
          (Some (check_violation "admissions_duration_check"), s)
        else
          (None,
           mkStore
             (admissions s
              ++ [Admission.mk (next_id s) (i_user_id p) (i_name p) age
                    (i_contact_number p) (i_full_address p) (i_email p)
                    (i_course_name p) (i_father_name p) (i_father_contact p)
                    duration (i_selected_shifts p) (i_registration_fee p)
                    (i_shift_fee p) (i_total_amount p) (i_payment_status p)
                    None None None now])
             (seat_bookings s) (attendance s) (cash_payments s)
             (payment_history s) (notifications s) (admin_logs s)
             (S (next_id s)))
    end.

End AdmissionDb.

Module AdmissionScreen.

Record FormData := mkForm {
  name : string;
  age : string;
  contactNumber : string;
  fullAddress : string;
  email : string;
  courseName : string;
  fatherName : string;
  fatherContact : string;
  duration : string;
  selectedShifts : list string
}.

(** The form as [useState] creates it. *)
Definition initialForm : FormData := mkForm "" "" "" "" "" "" "" "" "1" [].

(** What [handleSubmit] ends with: one of the four messages of [setError],
    or [router.push('/payment')]. *)
Inductive Outcome :=
| AuthenticationRequired
| FillAllFields
| SelectAShift
| SubmitFailed
| GoToPayment.

Definition toggleShift (shiftId : string) (prev : FormData) : FormData :=
  mkForm (name prev) (age prev) (contactNumber prev) (fullAddress prev)
    (email prev) (courseName prev) (fatherName prev) (fatherContact prev)
    (duration prev)
    (if existsb (String.eqb shiftId) (selectedShifts prev)
     then filter (fun id => negb (String.eqb id shiftId)) (selectedShifts prev)
     else selectedShifts prev ++ [shiftId]).

Section Utils.

Variable parseInt : string -> option Z.
Variable calculateShiftFee : list string -> Z.

Definition handleSubmit (clock : Clock) (user : option Uuid)
  (formData : FormData) : Request Outcome :=
  fun s =>
    match user with
    | None => (AuthenticationRequired, s)
    | Some uid =>
        if negb (truthy (name formData)) || negb (truthy (age formData))
           || negb (truthy (contactNumber formData))
           || negb (truthy (fullAddress formData))
           || negb (truthy (email formData))
           || negb (truthy (courseName formData))
           || negb (truthy (fatherName formData))
           || negb (truthy (fatherContact formData))
           || (List.length (selectedShifts formData) =? 0)
        then (FillAllFields, s)
        else if List.length (selectedShifts formData) =? 0
        then (SelectAShift, s)
        else
          let shiftFee := calculateShiftFee (selectedShifts formData) in
          let totalAmount := (shiftFee + 50)%Z in
          let (admissionError, s') :=
            AdmissionDb.insert_admission (now clock)
              (AdmissionDb.mkInsert uid (name formData)
                 (parseInt (age formData)) (contactNumber formData)
                 (fullAddress formData) (email formData)
                 (courseName formData) (fatherName formData)
                 (fatherContact formData) (parseInt (duration formData))
                 (selectedShifts formData) 50 shiftFee totalAmount
                 Admission.pending) s in
          match admissionError with
          | Some _ => (SubmitFailed, s')
          | None => (GoToPayment, s')
          end
    end.

End Utils.

End AdmissionScreen.

(** ** The payment screen: confirming a payment made by QR code

    [confirmPayment] of [PaymentScreen].  [addMonthsToDate] comes from
    [@/utils/dateUtils], which is not part of the sources at hand: it is a
    parameter. *)

Module QrPayment.

Inductive Alert :=
| PaymentConfirmed
| Error.

Definition confirmPayment (addMonthsToDate : Timestamp -> Z -> Timestamp)
  (clock : Clock) (st : PaymentScreen.State) : Task (option Alert) :=
  match PaymentScreen.admission st, PaymentScreen.user st with
  | Some admission, Some uid =>
      let startDate := now clock in
      let endDate := addMonthsToDate (now clock) (Admission.duration admission)
      in
      res <- Q.update_admission_paid (Admission.id admission) startDate
               startDate endDate ;;
      match res with
      | Err _ => Return (Some Error)
      | Ok _ =>
          _ <- Q.insert_payment_history uid (Admission.total_amount admission)
                 "upi" (Admission.duration admission) startDate (now clock) ;;
          Return (Some PaymentConfirmed)
      end
  | _, _ => Return None
  end.

(** The payment form is shown for an admission that is not paid, and its
    confirm button once a method is chosen, unless the screen holds a
    pending cash payment request. *)
Inductive Method := qr | cash.

Definition confirmShown (st : PaymentScreen.State)
  (selectedPaymentMethod : option Method) : bool :=
  match PaymentScreen.admission st with
  | Some admission =>
      negb (Admission.is_paid admission)
      && match selectedPaymentMethod with Some _ => true | None => false end
      && match PaymentScreen.existingCashPayment st with
         | Some _ => false
         | None => true
         end
  | None => false
  end.

End QrPayment.

(** ** The home screen: the colour and the label of a shift's availability

    [getAvailabilityColor] and [getAvailabilityStatus] of [HomeScreen]
    compute a percentage with JavaScript numbers, which are binary64
    floating-point numbers: [number] is the number a seat count stands for
    (exactly, for counts below 2^53, far beyond any the screen meets). *)

Module AvailabilityBadge.

Definition number (z : Z) : PrimFloat.float :=
  match z with
  | Z0 => PrimFloat.zero
  | Zpos _ => PrimFloat.of_uint63 (Uint63.of_Z z)
  | Zneg p => PrimFloat.opp (PrimFloat.of_uint63 (Uint63.of_Z (Zpos p)))
  end.

(** [(availableSeats / totalSeats) * 100] *)
Definition percentage (availableSeats : Z) : PrimFloat.float :=
  PrimFloat.mul
    (PrimFloat.div (number availableSeats) (number HomeScreen.totalSeats_const))
    (number 100).

Definition getAvailabilityColor (availableSeats : Z) : string :=
  if PrimFloat.ltb (number 50) (percentage availableSeats) then "#10B981"
  else if PrimFloat.ltb (number 20) (percentage availableSeats) then "#F59E0B"
  else "#EF4444".

Definition getAvailabilityStatus (availableSeats : Z) : string :=
  if PrimFloat.ltb (number 50) (percentage availableSeats)
  then "Good Availability"
  else if PrimFloat.ltb (number 20) (percentage availableSeats)
  then "Limited Seats"
  else "Almost Full".

End AvailabilityBadge.

(** ** The admin screen: the list of students

    [filterStudents], [getStatusColor] and [getStatusText] of
    [AdminStudentsScreen]; a student is a row of [users] with the latest
    admission, as [fetchStudents] leaves it.  [calculateRemainingDays] comes
    from [@/utils/dateUtils], which is not part of the sources at hand, and
    [toLowerCase] is JavaScript's: both are parameters. *)

Module AdminStudents.

Record Student := mkStudent {
  id : Uuid;
  full_name : string;
  email : string;
  mobile_number : string;
  admission : option Admission.t
}.

Inductive Filter := all | active | expiring | expired.

(** The texts of [getStatusText]; two of them carry the number of days. *)
Inductive StatusText :=
| NoAdmission
| PaymentPending
| NoEndDate
| Expired
| ExpiresIn (remainingDays : Z)
| Remaining (remainingDays : Z).

(** [haystack.includes(needle)] *)
Fixpoint includes (haystack needle : string) : bool :=
  String.prefix needle haystack
  || match haystack with
     | String _ rest => includes rest needle
     | EmptyString => false
     end.

Section Utils.

Variable calculateRemainingDays : Timestamp -> Clock -> Z.
Variable toLowerCase : string -> string.

Definition matchesSearch (searchQuery : string) (student : Student) : bool :=
  includes (toLowerCase (full_name student)) (toLowerCase searchQuery)
  || includes (toLowerCase (email student)) (toLowerCase searchQuery)
  || includes (mobile_number student) searchQuery.

Definition isActive (clock : Clock) (student : Student) : bool :=
  match admission student with
  | Some a =>
      Admission.is_paid a
      && match Admission.end_date a with
         | Some end_date => (now clock <? end_date)%Z
         | None => false
         end
  | None => false
  end.

Definition isExpiring (clock : Clock) (student : Student) : bool :=
  match admission student with
  | Some a =>
      match Admission.end_date a with
      | Some end_date =>
          if negb (Admission.is_paid a) then false
          else
            let remainingDays := calculateRemainingDays end_date clock in
            (remainingDays <=? 7)%Z && (0 <? remainingDays)%Z
      | None => false
      end
  | None => false
  end.

Definition isExpired (clock : Clock) (student : Student) : bool :=
  match admission student with
  | Some a =>
      match Admission.end_date a with
      | Some end_date => (end_date <=? now clock)%Z
      | None => false
      end
  | None => false
  end.

(** [filterStudents]: the new value of [filteredStudents]. *)
Definition filterStudents (clock : Clock) (students : list Student)
  (searchQuery : string) (filter : Filter) : list Student :=
  let filtered :=
    if truthy searchQuery
    then List.filter (matchesSearch searchQuery) students
    else students in
  match filter with
  | all => filtered
  | active => List.filter (isActive clock) filtered
  | expiring => List.filter (isExpiring clock) filtered
  | expired => List.filter (isExpired clock) filtered
  end.

Definition getStatusColor (clock : Clock) (student : Student) : string :=
  match admission student with
  | None => "#64748B"
  | Some a =>
      if negb (Admission.is_paid a) then "#64748B"
      else
        match Admission.end_date a with
        | None => "#64748B"
        | Some end_date =>
            let remainingDays := calculateRemainingDays end_date clock in
            if (remainingDays <=? 0)%Z then "#EF4444"
            else if (remainingDays <=? 7)%Z then "#F59E0B"
            else "#10B981"
        end
  end.

Definition getStatusText (clock : Clock) (student : Student) : StatusText :=
  match admission student with
  | None => NoAdmission
  | Some a =>
      if negb (Admission.is_paid a) then PaymentPending
      else
        match Admission.end_date a with
        | None => NoEndDate
        | Some end_date =>
            let remainingDays := calculateRemainingDays end_date clock in
            if (remainingDays <=? 0)%Z then Expired
            else if (remainingDays <=? 7)%Z then ExpiresIn remainingDays
            else Remaining remainingDays
        end
  end.

End Utils.

End AdminStudents.

(** ** What the properties of the admission form speak about *)

Module AdmissionFacts.

(** A required field of the form is empty, or no shift is selected. *)
Definition incomplete (f : AdmissionScreen.FormData) : Prop :=
  AdmissionScreen.name f = ""%string \/ AdmissionScreen.age f = ""%string
  \/ AdmissionScreen.contactNumber f = ""%string
  \/ AdmissionScreen.fullAddress f = ""%string
  \/ AdmissionScreen.email f = ""%string
  \/ AdmissionScreen.courseName f = ""%string
  \/ AdmissionScreen.fatherName f = ""%string
  \/ AdmissionScreen.fatherContact f = ""%string
  \/ AdmissionScreen.selectedShifts f = [].

(** The row a submission of the form [f] by [u] adds, for the age [a] and
    the duration [d] read off the form and the shift fee [fee]. *)
Definition submitted_row (s : Store) (clock : Clock) (u : Uuid)
  (f : AdmissionScreen.FormData) (a d fee : Z) : Admission.t :=
  Admission.mk (next_id s) u (AdmissionScreen.name f) a
    (AdmissionScreen.contactNumber f) (AdmissionScreen.fullAddress f)
    (AdmissionScreen.email f) (AdmissionScreen.courseName f)
    (AdmissionScreen.fatherName f) (AdmissionScreen.fatherContact f) d
    (AdmissionScreen.selectedShifts f) 50 fee (fee + 50) Admission.pending
    None None None (now clock).

End AdmissionFacts.

(** ** Two check-ins racing for one shift: the bookkeeping of the proof *)

Module CheckInRace.

Section Race.

Variable w : string -> Clock -> bool.
Variable u : Uuid.
Variable sh : string.

(** Where a check-in stands: before the admission is fetched, before today's
    rows are fetched, before the insert, before the admission and today's
    rows are fetched again, or done. *)
Inductive Phase :=
| Load
| LoadToday (admissionRes : PgResult (list Admission.t))
| Insert (admissionRes : PgResult (list Admission.t))
    (todayRes : PgResult (list Attendance.t))
| Reload (admissionRes : PgResult (list Admission.t))
    (todayRes : PgResult (list Attendance.t))
| ReloadToday
| Done (alert : option AttendanceScreen.Alert).

(** The screen once [fetchData] has its two answers. *)
Definition loaded (admissionRes : PgResult (list Admission.t))
  (todayRes : PgResult (list Attendance.t)) : AttendanceScreen.State :=
  AttendanceScreen.mkState (Some u)
    (match admissionRes with
     | Ok (a :: _) => Some a
     | _ => None
     end)
    (match todayRes with
     | Ok todayData => todayData
     | Err _ => []
     end).

Definition payload (clock : Clock) : Attendance.Insert :=
  Attendance.mkInsert u sh (Some (now clock)) (today clock) None None.

Definition task_at (clock : Clock) (ph : Phase)
  : Task (option AttendanceScreen.Alert) :=
  match ph with
  | Load => AttendanceScreen.checkIn w clock u sh
  | LoadToday admissionRes =>
      (todayRes <- Q.select_attendance_of u (today clock) ;;
       AttendanceScreen.handleCheckIn w clock (loaded admissionRes todayRes)
         sh)%task
  | Insert admissionRes todayRes =>
      (res <- Q.insert_attendance (now clock) (payload clock) ;;
       match res with
       | Err _ => Return (Some AttendanceScreen.Error)
       | Ok _ =>
           _ <<- AttendanceScreen.fetchData clock
                   (loaded admissionRes todayRes) ;;
           Return (Some AttendanceScreen.Success)
       end)%task
  | Reload admissionRes todayRes =>
      (_ <<- AttendanceScreen.fetchData clock (loaded admissionRes todayRes) ;;
       Return (Some AttendanceScreen.Success))%task
  | ReloadToday =>
      (_ <- Q.select_attendance_of u (today clock) ;;
       Return (Some AttendanceScreen.Success))%task
  | Done alert => Return alert
  end.

(** The phase after the checks of [handleCheckIn] on a loaded screen. *)
Definition checked (clock : Clock) (admissionRes : PgResult (list Admission.t))
  (todayRes : PgResult (list Attendance.t)) : Phase :=
  let st := loaded admissionRes todayRes in
  match AttendanceScreen.admission st with
  | None => Done None
  | Some _ =>
      if negb (w sh clock) then Done (Some AttendanceScreen.InvalidTime)
      else
        match find (fun record =>
                String.eqb (Attendance.shift record) sh
                && AttendanceScreen.is_set (Attendance.check_in_time record)
                && negb (AttendanceScreen.is_set
                           (Attendance.check_out_time record)))
              (AttendanceScreen.todayAttendance st) with
        | Some _ => Done (Some AttendanceScreen.AlreadyCheckedIn)
        | None =>
            match find (fun record =>
                    String.eqb (Attendance.shift record) sh
                    && AttendanceScreen.is_set (Attendance.check_in_time record)
                    && AttendanceScreen.is_set
                         (Attendance.check_out_time record))
                  (AttendanceScreen.todayAttendance st) with
            | Some _ => Done (Some AttendanceScreen.ShiftCompleted)
            | None => Insert admissionRes todayRes
            end
        end
  end.

(** The phase and the store after the next request of the check-in. *)
Definition next_phase (clock : Clock) (ph : Phase) (s : Store) : Phase :=
  match ph with
  | Load => LoadToday (fst (Db.select_latest_admission u s))
  | LoadToday admissionRes =>
      checked clock admissionRes
        (fst (Db.select_attendance_of u (today clock) s))
  | Insert admissionRes todayRes =>
      match fst (Db.insert_attendance (now clock) (payload clock) s) with
      | Ok _ => Reload admissionRes todayRes
      | Err _ => Done (Some AttendanceScreen.Error)
      end
  | Reload _ _ => ReloadToday
  | ReloadToday => Done (Some AttendanceScreen.Success)
  | Done alert => Done alert
  end.

Definition next_store (clock : Clock) (ph : Phase) (s : Store) : Store :=
  match ph with
  | Insert _ _ => snd (Db.insert_attendance (now clock) (payload clock) s)
  | _ => s
  end.

(** The requests a check-in in phase [ph] has yet to send, at most. *)
Definition rank (ph : Phase) : nat :=
  match ph with
  | Load => 5
  | LoadToday _ => 4
  | Insert _ _ => 3
  | Reload _ _ => 2
  | ReloadToday => 1
  | Done _ => 0
  end.

(** What matters of a phase for the race. *)
Inductive Progress := Before | Ready | Won | Lost.

Definition at_progress (r0 : PgResult (list Admission.t)) (ph : Phase)
  (g : Progress) : Prop :=
  match g with
  | Before => ph = Load \/ ph = LoadToday r0
  | Ready => exists t, ph = Insert r0 t
  | Won =>
      (exists t, ph = Reload r0 t) \/ ph = ReloadToday
      \/ ph = Done (Some AttendanceScreen.Success)
  | Lost =>
      ph = Done (Some AttendanceScreen.AlreadyCheckedIn)
      \/ ph = Done (Some AttendanceScreen.Error)
  end.

(** The invariant of the race between the check-ins at [clock1] and
    [clock2], started in the store [s0]: the store is [s0] as long as
    neither has inserted, and holds the row of the one that has. *)
Definition Inv (clock1 clock2 : Clock) (s0 : Store) (ph1 ph2 : Phase)
  (s : Store) : Prop :=
  let r0 := fst (Db.select_latest_admission u s0) in
  exists g1 g2,
    at_progress r0 ph1 g1 /\ at_progress r0 ph2 g2
    /\ ((s = s0 /\ g1 <> Won /\ g1 <> Lost /\ g2 <> Won /\ g2 <> Lost)
        \/ (s = Spec.add_attendance (Spec.check_in_row s0 clock1 u sh) s0
            /\ g1 = Won /\ g2 <> Won)
        \/ (s = Spec.add_attendance (Spec.check_in_row s0 clock2 u sh) s0
            /\ g2 = Won /\ g1 <> Won)).

End Race.

End CheckInRace.

(** ** Further example states *)

Module Examples.

(** A rule for [shouldMarkAbsent]: a shift without check-in counts as absent
    once the detector would report it. *)
Definition shouldMarkAbsent (shift : string) (hasCheckedIn : bool)
  (clock : Clock) : bool :=
  negb hasCheckedIn && Api.shiftEnded shift (hours clock).

Definition formatAbsentMessage (shift : string) : string :=
  ("Marked absent for the " ++ shift ++ " shift")%string.

(** The attendance screen of user 7 as it loads at 08:00 on a day without
    attendance, and at 10:00 after the check-in. *)
Definition screen_at_eight : AttendanceScreen.State :=
  Eval vm_compute in
    fst (run (AttendanceScreen.fetchData Scenario.clock_morning
                (AttendanceScreen.mkState (Some 7) None []))
           Scenario.one_student).

Definition screen_at_ten : AttendanceScreen.State :=
  Eval vm_compute in
    fst (run (AttendanceScreen.fetchData Scenario.clock_ten
                (AttendanceScreen.mkState (Some 7) None []))
           Scenario.checked_in_store).

(** [parseInt] on strings that start with decimal digits (it stops at the
    first other character, and answers [None], for [NaN], without a
    digit). *)
Fixpoint digits (s : string) (acc : option Z) : option Z :=
  match s with
  | String c rest =>
      let n := Z.of_nat (Ascii.nat_of_ascii c) in
      if (48 <=? n)%Z && (n <=? 57)%Z then
        digits rest
          (Some (10 * match acc with Some a => a | None => 0 end + (n - 48))%Z)
      else acc
  | EmptyString => acc
  end.

Definition parseInt (s : string) : option Z := digits s None.

(** A shift fee: the sum of the catalogue prices of the shifts. *)
Definition calculateShiftFee (shifts : list string) : Z :=
  fold_right Z.add 0%Z
    (map HomeScreen.s_price
       (filter (fun sh => existsb (String.eqb (HomeScreen.s_id sh)) shifts)
          Scenario.SHIFTS)).

(** The form of user 9, filled in for three months of morning and noon. *)
Definition cara_form : AdmissionScreen.FormData :=
  AdmissionScreen.mkForm "Cara" "20" "9000000005" "7 Mill Lane"
    "cara@example.org" "Banking" "Dev" "9000000006" "3"
    ["morning"; "noon"]%string.

(** ... and the store once the form has been submitted at 08:00. *)
Definition cara_enrolled : Store :=
  Eval vm_compute in
    snd (AdmissionScreen.handleSubmit parseInt calculateShiftFee
           Scenario.clock_morning (Some 9) cara_form Scenario.enrolled).

(** Whole days left until [end_date]. *)
Definition calculateRemainingDays (end_date : Timestamp) (clock : Clock) : Z :=
  ((end_date - now clock) / 86400000)%Z.

(** [toLowerCase] on the letters A to Z. *)
Fixpoint toLowerCase (s : string) : string :=
  match s with
  | String c rest =>
      let n := Ascii.nat_of_ascii c in
      String (if (65 <=? n) && (n <=? 90)
              then Ascii.ascii_of_nat (n + 32) else c) (toLowerCase rest)
  | EmptyString => EmptyString
  end.

(** 27 January 2025 at 09:00: five days before the admission [asha] ends. *)
Definition clock_late : Clock := mkClock 1737968400000 "2025-01-27" 9.

Definition student_asha : AdminStudents.Student :=
  AdminStudents.mkStudent 7 "Asha Rao" "asha@example.org" "9000000001"
    (Some Scenario.asha).

(** The payment screen of user 8 as it loads before any payment ... *)
Definition payment_screen_of_8 : PaymentScreen.State :=
  Eval vm_compute in
    fst (run (PaymentScreen.fetchAdmission
                (PaymentScreen.mkState (Some 8) None None)) Scenario.enrolled).

(** ... and the store after user 8 has confirmed a payment by QR code at
    08:00. *)
Definition paid_by_qr : Store :=
  Eval vm_compute in
    snd (run (QrPayment.confirmPayment Scenario.addMonths
                Scenario.clock_morning payment_screen_of_8) Scenario.enrolled).

(** A paid admission of user 1 for the morning and the night shift. *)
Definition chitra : Admission.t :=
  Admission.mk 3 1 "Chitra" 23 "9000000007" "3 Fort Road"
    "chitra@example.org" "Railways" "Arun" "9000000008" 1
    ["morning"; "night"]%string 50 598 648 Admission.paid
    (Some 1736400000000%Z) (Some 1736400000000%Z) (Some 1738992000000%Z)
    1736300000000.

Definition chitra_checked_in : Attendance.t :=
  Attendance.mk 4 1 "morning" (Some 1736496000000%Z) None "2025-01-10"
    Attendance.present None 1736496000000.


(** ... and the same rows in the order in which a database that has
    rewritten the row of [asha] last returns them. *)
Definition detector_rows : Store :=
  mkStore [Scenario.bina; chitra; Scenario.asha] [] [chitra_checked_in] [] []
    [] [] 5.

(** A paid admission of user 2 for the morning shift. *)
Definition dev : Admission.t :=
  Admission.mk 4 2 "Dev" 22 "9000000009" "9 Canal Street" "dev@example.org"
    "Banking" "Hari" "9000000010" 1 ["morning"%string] 50 299 349
    Admission.paid (Some 1736400000000%Z) (Some 1736400000000%Z)
    (Some 1738992000000%Z) 1736300000001.

(** [chitra] and [dev] are enrolled and have paid ... *)
Definition two_paid : Store := mkStore [chitra; dev] [] [] [] [] [] [] 5.

(** ... and both ask for seat A12 of the morning shift. *)
Definition paid_requests : Store :=
  Eval vm_compute in
    snd (run (BookingScreen.requestBooking Scenario.clock_morning 2 "morning"
                "A12")
           (snd (run (BookingScreen.requestBooking Scenario.clock_morning 1
                        "morning" "A12") two_paid))).

(** Their two pending rows and their cash payments, as the admin screen
    lists them. *)
Definition request_of_chitra : SeatBooking.t :=
  SeatBooking.mk 5 1 "morning" "A12" SeatBooking.pending "2025-01-10"
    1736496000000.

Definition request_of_dev : SeatBooking.t :=
  SeatBooking.mk 7 2 "morning" "A12" SeatBooking.pending "2025-01-10"
    1736496000000.

Definition payment_of_chitra : CashPayment.t :=
  CashPayment.mk 6 1 (Some 5) None 50 CashPayment.pending None None None
    1736496000000.

Definition payment_of_dev : CashPayment.t :=
  CashPayment.mk 8 2 (Some 7) None 50 CashPayment.pending None None None
    1736496000000.

(** The admin (user 99) has approved the payment of [chitra]: seat A12 is
    hers. *)
Definition seat_taken : Store :=
  Eval vm_compute in
    snd (run (AdminPayments.handlePaymentAction Scenario.addMonths 99
                Scenario.clock_morning payment_of_chitra
                AdminPayments.approve) paid_requests).

(** A grid of four seats. *)
Definition seatNumbers : list string := ["A11"; "A12"; "A13"; "A14"]%string.

End Examples.

(** * Proofs *)

(** ** Lists *)

Lemma existsb_filter {A} (f g : A -> bool) (l : list A) :
  existsb f (filter g l) = existsb (fun x => g x && f x) l.
Proof.
  induction l as [|x l IH]; simpl; [reflexivity|].
  destruct (g x); simpl; now rewrite IH.
Qed.

Lemma existsb_ext {A} (f g : A -> bool) (l : list A) :
  (forall x, f x = g x) -> existsb f l = existsb g l.
Proof.
  intros E. induction l as [|x l IH]; simpl; [reflexivity|].
  now rewrite E, IH.
Qed.

Lemma filter_filter {A} (f g : A -> bool) (l : list A) :
  filter f (filter g l) = filter (fun x => g x && f x) l.
Proof.
  induction l as [|x l IH]; simpl; [reflexivity|].
  destruct (g x); simpl; [destruct (f x)|]; now rewrite IH.
Qed.

(** ** The absence detector *)

Lemma shiftEnded_night h :
  Api.shiftEnded "night" h = true <-> (5 <= h < 21)%Z.
Proof.
  unfold Api.shiftEnded; simpl.
  rewrite andb_true_iff, Z.leb_le, Z.ltb_lt. tauto.
Qed.

(** C6: the shift-end thresholds of the absence detector, and the night
    window of the Shift Catalog.  A night shift counts as ended exactly when
    5 <= hour < 21; morning, noon and evening count as ended exactly from 11,
    16 and 21 o'clock on.  The night window holds 23:59 and 04:59, holds
    neither 05:00 nor 20:59, and "ended" is its negation at every hour. *)
Theorem shiftEnded_thresholds :
  (forall h, Api.shiftEnded "night" h = true <-> (5 <= h < 21)%Z)
  /\ (forall h, Api.shiftEnded "morning" h = true <-> (11 <= h)%Z)
  /\ (forall h, Api.shiftEnded "noon" h = true <-> (16 <= h)%Z)
  /\ (forall h, Api.shiftEnded "evening" h = true <-> (21 <= h)%Z)
  /\ Spec.isNowWithin_night 23 59 = true
  /\ Spec.isNowWithin_night 4 59 = true
  /\ Spec.isNowWithin_night 5 0 = false
  /\ Spec.isNowWithin_night 20 59 = false
  /\ (forall h m,
        Api.shiftEnded "night" h = negb (Spec.isNowWithin_night h m)).
Proof.
  split; [exact shiftEnded_night|].
  split; [intros h; unfold Api.shiftEnded; simpl; apply Z.leb_le|].
  split; [intros h; unfold Api.shiftEnded; simpl; apply Z.leb_le|].
  split; [intros h; unfold Api.shiftEnded; simpl; apply Z.leb_le|].
  do 4 (split; [reflexivity|]).
  intros h m. unfold Api.shiftEnded, Spec.isNowWithin_night; simpl.
  rewrite negb_orb, <- Z.ltb_antisym, <- Z.leb_antisym.
  apply andb_comm.
Qed.

Lemma fold_check_shift d h recs a acc shifts :
  fold_left (Api.check_shift d h recs a) shifts acc =
  (acc ++ map (fun sh => Api.mkAbsent (Admission.user_id a) sh d
                           "absent" "no_checkin")
            (filter (fun sh => Api.shiftEnded sh h
                               && negb (Api.hasCheckedIn recs a sh))
               shifts))%list.
Proof.
  revert acc. induction shifts as [|sh shifts IH]; intros acc; simpl.
  - now rewrite app_nil_r.
  - rewrite IH. unfold Api.check_shift.
    destruct (Api.shiftEnded sh h); simpl; [|reflexivity].
    destruct (Api.hasCheckedIn recs a sh); simpl; [reflexivity|].
    now rewrite <- app_assoc.
Qed.

Lemma fold_collect d h recs adms acc :
  fold_left (fun absentStudents admission =>
    fold_left (Api.check_shift d h recs admission)
      (Admission.selected_shifts admission) absentStudents) adms acc =
  (acc ++ map (fun p => Api.mkAbsent (Admission.user_id (fst p)) (snd p) d
                          "absent" "no_checkin")
            (filter (fun p => Api.shiftEnded (snd p) h
                              && negb (Api.hasCheckedIn recs (fst p) (snd p)))
               (flat_map (fun a => map (pair a) (Admission.selected_shifts a))
                  adms)))%list.
Proof.
  revert acc. induction adms as [|a adms IH]; intros acc; simpl.
  - now rewrite app_nil_r.
  - rewrite IH, fold_check_shift, filter_app, map_app, <- app_assoc.
    f_equal. f_equal.
    induction (Admission.selected_shifts a) as [|sh l IHl]; simpl;
      [reflexivity|].
    destruct (Api.shiftEnded sh h && negb (Api.hasCheckedIn recs a sh));
      simpl; now rewrite IHl.
Qed.

Lemma hasCheckedIn_on_date s d a sh :
  Api.hasCheckedIn
    (filter (fun r => String.eqb (Attendance.date r) d) (attendance s)) a sh =
  Spec.checked_in s (Admission.user_id a) sh d.
Proof.
  unfold Api.hasCheckedIn, Spec.checked_in. rewrite existsb_filter.
  apply existsb_ext. intros r.
  destruct (Attendance.user_id r =? Admission.user_id a),
    (String.eqb (Attendance.shift r) sh),
    (String.eqb (Attendance.date r) d); reflexivity.
Qed.

Lemma collect_absent_entries s d h :
  Api.collect_absent d h (filter Admission.is_paid (admissions s))
    (filter (fun r => String.eqb (Attendance.date r) d) (attendance s)) =
  Spec.absent_entries s d h.
Proof.
  unfold Api.collect_absent, Spec.absent_entries, Spec.enrolled_pairs.
  rewrite fold_collect. simpl. f_equal.
  apply filter_ext. intros [a sh]. unfold Spec.flagged. simpl.
  now rewrite hasCheckedIn_on_date.
Qed.

Lemma POST_run clock body s :
  run (Api.POST clock (Api.mkRequest (Some body))) s =
  (Api.Json (Spec.report s (or_else (Api.date body) (today clock))
               (hours clock)), s).
Proof.
  unfold Api.POST, Spec.report. cbn.
  now rewrite collect_absent_entries.
Qed.

(** The table of the specification and the [switch] of the route agree. *)
Lemma shiftHasEnded_shiftEnded sh h :
  Spec.shiftHasEnded sh h = Api.shiftEnded sh h.
Proof.
  unfold Spec.shiftHasEnded, Api.shiftEnded.
  destruct (String.eqb sh "morning") eqn:M.
  { apply String.eqb_eq in M. subst sh. cbn. now rewrite !orb_false_r. }
  destruct (String.eqb sh "noon") eqn:N.
  { apply String.eqb_eq in N. subst sh. cbn. now rewrite !orb_false_r. }
  destruct (String.eqb sh "evening") eqn:E.
  { apply String.eqb_eq in E. subst sh. cbn. now rewrite !orb_false_r. }
  destruct (String.eqb sh "night"); reflexivity.
Qed.

Lemma expected_absences_entries s d h :
  Spec.expected_absences s d h = Spec.absent_entries s d h.
Proof.
  unfold Spec.expected_absences, Spec.absent_entries. f_equal.
  apply filter_ext. intros p. unfold Spec.to_flag, Spec.flagged.
  now rewrite shiftHasEnded_shiftEnded.
Qed.

Lemma Permutation_filter_same {A} (f : A -> bool) l l' :
  Permutation l l' -> Permutation (filter f l) (filter f l').
Proof.
  induction 1 as [|x l l' _ IH|x y l|l l' l'' _ IH1 _ IH2]; cbn.
  - constructor.
  - destruct (f x); [now constructor|exact IH].
  - destruct (f x), (f y); try reflexivity. apply perm_swap.
  - now transitivity (filter f l').
Qed.

Lemma existsb_Permutation {A} (f : A -> bool) l l' :
  Permutation l l' -> existsb f l = existsb f l'.
Proof.
  induction 1 as [|x l l' _ IH|x y l|l l' l'' _ IH1 _ IH2]; cbn.
  - reflexivity.
  - now rewrite IH.
  - destruct (f x), (f y); reflexivity.
  - congruence.
Qed.

(** The records asked for do not depend on the order of the rows. *)
Lemma expected_absences_rows s rows d h :
  Spec.same_rows s rows ->
  Permutation (Spec.expected_absences rows d h)
    (Spec.expected_absences s d h).
Proof.
  intros [Ha Ht]. unfold Spec.expected_absences. apply Permutation_map.
  rewrite (filter_ext (Spec.to_flag rows d h) (Spec.to_flag s d h)).
  - apply Permutation_filter_same. unfold Spec.enrolled_pairs.
    apply Permutation_flat_map, Permutation_filter_same.
    now apply Permutation_sym.
  - intros p. unfold Spec.to_flag, Spec.checked_in.
    now rewrite (existsb_Permutation _ Ht).
Qed.

Lemma POST_report clock body s rows :
  Spec.same_rows s rows ->
  exists report,
    run (Api.POST clock (Api.mkRequest (Some body))) rows =
    (Api.Json report, rows)
    /\ Api.success report = true
    /\ Api.r_date report = or_else (Api.date body) (today clock)
    /\ Api.absentCount report = List.length (Api.absentStudents report)
    /\ Permutation (Api.absentStudents report)
         (Spec.expected_absences s (or_else (Api.date body) (today clock))
            (hours clock)).
Proof.
  intros H. rewrite POST_run. eexists. split; [reflexivity|].
  cbn [Spec.report Api.success Api.r_date Api.absentCount
       Api.absentStudents].
  repeat split. rewrite <- expected_absences_entries.
  now apply expected_absences_rows.
Qed.




(** A request without a JSON body is not answered with a report:
    [request.json()] rejects and the handler answers with status 500. *)
Example POST_without_body clock s :
  run (Api.POST clock (Api.mkRequest None)) s =
  (Api.JsonError "Failed to check absent students" 500, s).
Proof. reflexivity. Qed.

(** C3, as stated, fails: with one paid morning admission and no check-in,
    the detector run at noon reports the student absent and persists no
    absent attendance row. *)
Lemma detector_persists_no_absent_row :
  fst (run (Api.POST Scenario.clock_noon
              (Api.mkRequest (Some (Api.mkBody None)))) Scenario.one_student) =
  Api.Json (Api.mkReport true "2025-01-10" 1
              [Api.mkAbsent 7 "morning" "2025-01-10" "absent" "no_checkin"])
  /\ Spec.absent_rows
       (snd (run (Api.POST Scenario.clock_noon
                    (Api.mkRequest (Some (Api.mkBody None))))
               Scenario.one_student)) "2025-01-10" = [].
Proof. split; reflexivity. Qed.

Lemma POST_store clock request s : snd (run (Api.POST clock request) s) = s.
Proof.
  destruct request as [[body|]]; [|reflexivity].
  now rewrite POST_run.
Qed.

(** C3, amended: the detector only reports.  It leaves the store as it
    found it, so it persists no absent row; a second run for the same request
    at the same hour gives the same answer and finds the same absent rows.
    For a date of the form 'YYYY-MM-DD' (or none) its answer holds one
    record [{status: 'absent', reason: 'no_checkin'}] per flagged (user,
    shift) pair, in whatever order the database returns the rows ([table]
    holds the rows of [s] in any other order). *)
Theorem detector_only_reports clock request s :
  snd (run (Api.POST clock request) s) = s
  /\ (forall d,
        Spec.absent_rows (snd (run (Api.POST clock request) s)) d =
        Spec.absent_rows s d)
  /\ run (Api.POST clock request) (snd (run (Api.POST clock request) s)) =
     run (Api.POST clock request) s
  /\ (forall body table,
        request = Api.mkRequest (Some body) ->
        Spec.iso_date (or_else (Api.date body) (today clock)) = true ->
        Spec.same_rows table s ->
        exists report,
          fst (run (Api.POST clock request) s) = Api.Json report
          /\ Api.absentCount report = List.length (Api.absentStudents report)
          /\ Permutation (Api.absentStudents report)
               (Spec.expected_absences table
                  (or_else (Api.date body) (today clock)) (hours clock))).
Proof.
  rewrite POST_store. do 3 (split; [reflexivity|]).
  intros body table -> _ H.
  destruct (POST_report clock body H) as (r & E & _ & _ & C & P).
  exists r. rewrite E. repeat split; assumption.
Qed.

(** The run of the counterexample, seen through the amended statement. *)
Lemma detector_only_reports_witness :
  exists report,
    fst (run (Api.POST Scenario.clock_noon
                (Api.mkRequest (Some (Api.mkBody None))))
           Scenario.one_student) = Api.Json report
    /\ Api.absentCount report = List.length (Api.absentStudents report)
    /\ Permutation (Api.absentStudents report)
         [Api.mkAbsent 7 "morning" "2025-01-10" "absent" "no_checkin"].
Proof.
  apply (proj2 (proj2 (proj2 (detector_only_reports Scenario.clock_noon
                  (Api.mkRequest (Some (Api.mkBody None)))
                  Scenario.one_student))) (Api.mkBody None)
           Scenario.one_student eq_refl eq_refl
           (conj (Permutation_refl _) (Permutation_refl _))).
Defined.

(** ** Seat availability *)

Lemma bookedCount_booked_count s d sh :
  HomeScreen.bookedCount
    (Some (filter (fun b => String.eqb (SeatBooking.booking_date b) d
                            && SeatBooking.is_booked b) (seat_bookings s))) sh =
  Spec.booked_count s sh d.
Proof.
  unfold HomeScreen.bookedCount, Spec.booked_count.
  rewrite filter_filter. do 2 f_equal. apply filter_ext. intros b.
  destruct (SeatBooking.is_booked b),
    (String.eqb (SeatBooking.booking_date b) d),
    (String.eqb (SeatBooking.shift b) sh); reflexivity.
Qed.

Lemma fetchData_run SHIFTS clock u prev s :
  run (HomeScreen.fetchData SHIFTS clock (Some u) prev) s =
  (map (fun sh =>
     HomeScreen.mkAvailability (HomeScreen.s_id sh) (HomeScreen.s_name sh) 50
       (Spec.booked_count s (HomeScreen.s_id sh) (today clock))
       (50 - Spec.booked_count s (HomeScreen.s_id sh) (today clock))
       (HomeScreen.s_price sh)) SHIFTS, s).
Proof.
  unfold HomeScreen.fetchData.
  cbn -[HomeScreen.bookedCount Z.sub order_desc]. f_equal.
  apply map_ext. intros sh. now rewrite bookedCount_booked_count.
Qed.

Lemma booked_count_skip_pending s l1 b l2 sh d :
  seat_bookings s = (l1 ++ b :: l2)%list ->
  SeatBooking.booking_status b = SeatBooking.pending ->
  Spec.booked_count (with_seat_bookings (l1 ++ l2) s) sh d =
  Spec.booked_count s sh d.
Proof.
  intros E P. unfold Spec.booked_count. simpl. rewrite E.
  rewrite !filter_app. simpl.
  replace (SeatBooking.is_booked b) with false
    by (unfold SeatBooking.is_booked; now rewrite P).
  reflexivity.
Qed.

(** C7: the availability the home screen shows for a shift is 50 minus the
    number of rows of that shift and day with [booking_status = 'booked'];
    a [pending] row does not change it. *)
Theorem availability_is_capacity_minus_booked :
  (forall SHIFTS clock u prev s,
     fst (run (HomeScreen.fetchData SHIFTS clock (Some u) prev) s) =
     map (fun sh =>
       HomeScreen.mkAvailability (HomeScreen.s_id sh) (HomeScreen.s_name sh)
         50 (Spec.booked_count s (HomeScreen.s_id sh) (today clock))
         (50 - Spec.booked_count s (HomeScreen.s_id sh) (today clock))
         (HomeScreen.s_price sh)) SHIFTS)
  /\ (forall SHIFTS clock u prev s l1 b l2,
        seat_bookings s = (l1 ++ b :: l2)%list ->
        SeatBooking.booking_status b = SeatBooking.pending ->
        fst (run (HomeScreen.fetchData SHIFTS clock (Some u) prev)
               (with_seat_bookings (l1 ++ l2) s)) =
        fst (run (HomeScreen.fetchData SHIFTS clock (Some u) prev) s)).
Proof.
  split; intros.
  - now rewrite fetchData_run.
  - rewrite !fetchData_run. simpl. apply map_ext. intros sh.
    now rewrite (booked_count_skip_pending s l1 b l2).
Qed.

(** The pending request for seat A2 does not change what user 5 is shown. *)
Lemma availability_is_capacity_minus_booked_witness :
  fst (run (HomeScreen.fetchData Scenario.SHIFTS Scenario.clock_noon (Some 5)
              [])
         (with_seat_bookings
            ([SeatBooking.mk 10 1 "morning" "A1" SeatBooking.booked
                "2025-01-10" 1736490000000] ++ []) Scenario.two_bookings)) =
  fst (run (HomeScreen.fetchData Scenario.SHIFTS Scenario.clock_noon (Some 5)
              [])
         Scenario.two_bookings).
Proof.
  apply (proj2 availability_is_capacity_minus_booked Scenario.SHIFTS
           Scenario.clock_noon 5 [] Scenario.two_bookings
           [SeatBooking.mk 10 1 "morning" "A1" SeatBooking.booked
              "2025-01-10" 1736490000000]
           (SeatBooking.mk 11 2 "morning" "A2" SeatBooking.pending
              "2025-01-10" 1736490000001) []);
    reflexivity.
Defined.

(** ** Approving and rejecting cash payments *)

Lemma Forall2_map_same {A} (R : A -> A -> Prop) (f : A -> A) (l : list A) :
  (forall a, R a (f a)) -> Forall2 R l (map f l).
Proof. intros H. induction l; simpl; constructor; auto. Qed.

Lemma set_payment_status_frame st a :
  Spec.same_but_payment_status a (Admission.set_payment_status st a).
Proof. unfold Spec.same_but_payment_status. simpl. tauto. Qed.

Lemma same_but_payment_status_refl a : Spec.same_but_payment_status a a.
Proof. unfold Spec.same_but_payment_status. tauto. Qed.

Lemma reject_admissions addMonths adm clock p aid s :
  CashPayment.admission_id p = Some aid ->
  admissions
    (snd (run (AdminPayments.handlePaymentAction addMonths adm clock p
                 AdminPayments.reject) s)) =
  map (fun a => if Admission.id a =? aid
                then Admission.set_payment_status Admission.pending a else a)
    (admissions s).
Proof.
  intros H.
  unfold AdminPayments.handlePaymentAction, AdminPayments.reject_booking,
    AdminPayments.reject_admission.
  rewrite H. destruct (CashPayment.booking_id p); reflexivity.
Qed.

(** C9: rejecting a cash payment whose target is an admission sets the
    [payment_status] of that admission row to [pending] and changes no other
    field of it ([start_date], [end_date] and [payment_date] among them);
    every other admission row stays as it is. *)
Theorem reject_touches_only_payment_status addMonths adm clock p aid s :
  CashPayment.admission_id p = Some aid ->
  Forall2 (fun a a' =>
      Spec.same_but_payment_status a a'
      /\ (Admission.id a = aid ->
          Admission.payment_status a' = Admission.pending)
      /\ (Admission.id a <> aid -> a' = a))
    (admissions s)
    (admissions
       (snd (run (AdminPayments.handlePaymentAction addMonths adm clock p
                    AdminPayments.reject) s))).
Proof.
  intros H. rewrite (reject_admissions addMonths adm clock p s H).
  apply Forall2_map_same. intros a.
  destruct (Nat.eqb_spec (Admission.id a) aid) as [E|E].
  - split; [apply set_payment_status_frame|]. split; [reflexivity|].
    intros N. contradiction.
  - split; [apply same_but_payment_status_refl|]. split; [|reflexivity].
    intros N. contradiction.
Qed.

(** C10: the first request of the handler writes the decision ([approved] or
    [rejected]) into the cash payment and touches no other table; the update
    of the booking or admission comes after it.  When the booking update that
    follows an approval is turned down by [seat_bookings_unique_booked], the
    handler reports an error and stops: the payment keeps its [approved]
    status and the bookings are as before, the linked one still pending. *)
Theorem payment_decision_is_not_rolled_back addMonths adm clock p :
  (forall s,
     step (AdminPayments.handlePaymentAction addMonths adm clock p
             AdminPayments.approve) s =
     (AdminPayments.approve_booking addMonths adm clock p,
      with_cash_payments
        (map (fun c => if CashPayment.id c =? CashPayment.id p
                       then CashPayment.set_decision CashPayment.approved
                              (Some adm) (now clock) c
                       else c) (cash_payments s)) s))
  /\ (forall s,
        step (AdminPayments.handlePaymentAction addMonths adm clock p
                AdminPayments.reject) s =
        (AdminPayments.reject_booking adm p,
         with_cash_payments
           (map (fun c => if CashPayment.id c =? CashPayment.id p
                          then CashPayment.set_decision CashPayment.rejected
                                 (Some adm) (now clock) c
                          else c) (cash_payments s)) s))
  /\ (forall bid s,
        CashPayment.booking_id p = Some bid ->
        Db.booked_conflict bid SeatBooking.booked (seat_bookings s) = true ->
        run (AdminPayments.handlePaymentAction addMonths adm clock p
               AdminPayments.approve) s =
        (AdminPayments.Error,
         with_cash_payments
           (map (fun c => if CashPayment.id c =? CashPayment.id p
                          then CashPayment.set_decision CashPayment.approved
                                 (Some adm) (now clock) c
                          else c) (cash_payments s)) s)).
Proof.
  split; [reflexivity|]. split; [reflexivity|].
  intros bid s Hb Hc.
  unfold AdminPayments.handlePaymentAction, AdminPayments.approve_booking.
  rewrite Hb. cbn -[Db.update_booking_status].
  unfold Db.update_booking_status. cbn -[Db.booked_conflict].
  now rewrite Hc.
Qed.

(** The admin rejects the cash payment of user 8 for the admission [bina]. *)
Lemma reject_touches_only_payment_status_witness :
  Forall2 (fun a a' =>
      Spec.same_but_payment_status a a'
      /\ (Admission.id a = 2 ->
          Admission.payment_status a' = Admission.pending)
      /\ (Admission.id a <> 2 -> a' = a))
    (admissions Scenario.cash_submitted)
    (admissions
       (snd (run (AdminPayments.handlePaymentAction Scenario.addMonths 99
                    Scenario.clock_noon Scenario.payment_of_8
                    AdminPayments.reject) Scenario.cash_submitted))).
Proof.
  apply (reject_touches_only_payment_status Scenario.addMonths 99
           Scenario.clock_noon Scenario.payment_of_8
           Scenario.cash_submitted (aid := 2)).
  reflexivity.
Defined.

(** Seat A12 went to user 1; the approval for user 2 fails, and leaves the
    payment of user 2 approved next to a pending booking. *)
Lemma payment_decision_is_not_rolled_back_witness :
  let out :=
    run (AdminPayments.handlePaymentAction Scenario.addMonths 99
           Scenario.clock_noon Scenario.payment_of_2 AdminPayments.approve)
      Scenario.first_approved in
  fst out = AdminPayments.Error
  /\ map (fun c => (CashPayment.id c, CashPayment.booking_id c,
                    CashPayment.status c)) (cash_payments (snd out)) =
     [(1, Some 0, CashPayment.approved); (3, Some 2, CashPayment.approved)]
  /\ map (fun b => (SeatBooking.id b, SeatBooking.booking_status b))
       (seat_bookings (snd out)) =
     [(0, SeatBooking.booked); (2, SeatBooking.pending)].
Proof.
  intros out. unfold out.
  rewrite (proj2 (proj2 (payment_decision_is_not_rolled_back
                           Scenario.addMonths 99 Scenario.clock_noon
                           Scenario.payment_of_2))
             2 Scenario.first_approved eq_refl eq_refl).
  repeat split.
Defined.

(** ** Check-in *)

Lemma existsb_insert_desc {A} (key : A -> Z) (f : A -> bool) x l :
  existsb f (insert_desc key x l) = f x || existsb f l.
Proof.
  induction l as [|y l IH]; simpl; [reflexivity|].
  destruct (key y <=? key x)%Z; simpl; [reflexivity|].
  rewrite IH. destruct (f x), (f y); reflexivity.
Qed.

Lemma existsb_order_desc {A} (key : A -> Z) (f : A -> bool) l :
  existsb f (order_desc key l) = existsb f l.
Proof.
  induction l as [|x l IH]; simpl; [reflexivity|].
  now rewrite existsb_insert_desc, IH.
Qed.

Lemma find_existsb {A} (f : A -> bool) l :
  match find f l with Some _ => true | None => false end = existsb f l.
Proof.
  induction l as [|x l IH]; simpl; [reflexivity|].
  destruct (f x); [reflexivity|exact IH].
Qed.

Lemma insert_desc_cons {A} (key : A -> Z) x l :
  exists y l', insert_desc key x l = y :: l'.
Proof.
  destruct l as [|y l]; simpl; [eauto|].
  destruct (key y <=? key x)%Z; eauto.
Qed.

Lemma order_desc_cons {A} (key : A -> Z) (l : list A) :
  l <> [] -> exists y l', order_desc key l = y :: l'.
Proof.
  destruct l as [|x l]; [congruence|]. intros _. simpl.
  apply insert_desc_cons.
Qed.

Lemma existsb_filter_nonempty {A} (f : A -> bool) l :
  existsb f l = true -> filter f l <> [].
Proof.
  induction l as [|x l IH]; simpl; [discriminate|].
  destruct (f x); [discriminate|exact IH].
Qed.

(** What the screen holds after loading, for a student with an admission. *)
Lemma attendance_fetchData clock u s :
  Spec.has_admission s u = true ->
  exists a,
    run (AttendanceScreen.fetchData clock
           (AttendanceScreen.mkState (Some u) None [])) s =
    (AttendanceScreen.mkState (Some u) (Some a)
       (order_desc Attendance.created_at
          (filter (fun r => (Attendance.user_id r =? u)
                            && String.eqb (Attendance.date r) (today clock))
             (attendance s))), s).
Proof.
  intros H. apply existsb_filter_nonempty in H.
  destruct (order_desc_cons Admission.created_at H) as (a & l & E).
  exists a. unfold AttendanceScreen.fetchData. cbn -[order_desc].
  now rewrite E.
Qed.

Lemma run_bind {R R'} (t : Task R) (f : R -> Task R') s :
  run (bind t f) s = let (r, s') := run t s in run (f r) s'.
Proof.
  revert s. induction t as [r|A req k IH]; intros s; simpl; [reflexivity|].
  destruct (exec req s) as [a s']. apply IH.
Qed.

Lemma today_rows_existsb clock u (f g : Attendance.t -> bool) s :
  (forall r,
     g r = (Attendance.user_id r =? u)
           && String.eqb (Attendance.date r) (today clock) && f r) ->
  match find f
          (order_desc Attendance.created_at
             (filter (fun r => (Attendance.user_id r =? u)
                               && String.eqb (Attendance.date r) (today clock))
                (attendance s))) with
  | Some _ => true
  | None => false
  end = existsb g (attendance s).
Proof.
  intros E. rewrite find_existsb, existsb_order_desc, existsb_filter.
  apply existsb_ext. intros r. now rewrite E.
Qed.

Lemma snapshot_open clock u sh s :
  match find (fun record =>
          String.eqb (Attendance.shift record) sh
          && AttendanceScreen.is_set (Attendance.check_in_time record)
          && negb (AttendanceScreen.is_set (Attendance.check_out_time record)))
        (order_desc Attendance.created_at
           (filter (fun r => (Attendance.user_id r =? u)
                             && String.eqb (Attendance.date r) (today clock))
              (attendance s))) with
  | Some _ => true
  | None => false
  end = Spec.open_row s u sh (today clock).
Proof.
  apply today_rows_existsb. intros r.
  destruct (Attendance.user_id r =? u),
    (String.eqb (Attendance.shift r) sh),
    (String.eqb (Attendance.date r) (today clock)); reflexivity.
Qed.

Lemma snapshot_closed clock u sh s :
  match find (fun record =>
          String.eqb (Attendance.shift record) sh
          && AttendanceScreen.is_set (Attendance.check_in_time record)
          && AttendanceScreen.is_set (Attendance.check_out_time record))
        (order_desc Attendance.created_at
           (filter (fun r => (Attendance.user_id r =? u)
                             && String.eqb (Attendance.date r) (today clock))
              (attendance s))) with
  | Some _ => true
  | None => false
  end = Spec.closed_row s u sh (today clock).
Proof.
  apply today_rows_existsb. intros r.
  destruct (Attendance.user_id r =? u),
    (String.eqb (Attendance.shift r) sh),
    (String.eqb (Attendance.date r) (today clock)); reflexivity.
Qed.

(** With neither an open nor a closed row, and every present row carrying a
    check-in time, no present row of the key exists: the insert passes
    [attendance_user_shift_date_status_key]. *)
Lemma no_present_row clock u sh s :
  Spec.present_rows_checked_in s ->
  Spec.open_row s u sh (today clock) = false ->
  Spec.closed_row s u sh (today clock) = false ->
  existsb (fun r => Db.same_attendance_key r (Spec.check_in_row s clock u sh))
    (attendance s) = false.
Proof.
  intros W O C. apply not_true_is_false. intros E.
  apply existsb_exists in E. destruct E as (r & Hin & K).
  unfold Db.same_attendance_key in K. simpl in K.
  apply andb_prop in K. destruct K as [K Kst].
  apply andb_prop in K. destruct K as [K Kd].
  apply andb_prop in K. destruct K as [Ku Ksh].
  assert (P : Attendance.status r = Attendance.present)
    by (destruct (Attendance.status r); [reflexivity|discriminate]).
  specialize (W r Hin P).
  destruct (Attendance.check_in_time r) as [ci|] eqn:Eci; [|congruence].
  destruct (Attendance.check_out_time r) as [co|] eqn:Eco.
  - assert (Spec.closed_row s u sh (today clock) = true); [|congruence].
    apply existsb_exists. exists r. split; [exact Hin|].
    now rewrite Ku, Ksh, Kd, Eci, Eco.
  - assert (Spec.open_row s u sh (today clock) = true); [|congruence].
    apply existsb_exists. exists r. split; [exact Hin|].
    now rewrite Ku, Ksh, Kd, Eci, Eco.
Qed.

(** C5: check-in of a student with an admission.  Outside the window of the
    shift the handler answers 'Invalid Time'; inside it, with an open row
    (check-in set, check-out not set) of (user, shift, today) it answers
    'Already Checked In'; failing that, with a closed row (both set) it
    answers 'Shift Completed'; and in each of these cases the store is left
    untouched.  Otherwise it inserts one attendance row with
    [check_in_time = now] and [status = present]. *)
Theorem checkIn_cases isCurrentTimeInShift clock u sh s :
  Spec.has_admission s u = true ->
  let out := run (AttendanceScreen.checkIn isCurrentTimeInShift clock u sh) s in
  (isCurrentTimeInShift sh clock = false ->
   out = (Some AttendanceScreen.InvalidTime, s))
  /\ (isCurrentTimeInShift sh clock = true ->
      Spec.open_row s u sh (today clock) = true ->
      out = (Some AttendanceScreen.AlreadyCheckedIn, s))
  /\ (isCurrentTimeInShift sh clock = true ->
      Spec.open_row s u sh (today clock) = false ->
      Spec.closed_row s u sh (today clock) = true ->
      out = (Some AttendanceScreen.ShiftCompleted, s))
  /\ (isCurrentTimeInShift sh clock = true ->
      Spec.open_row s u sh (today clock) = false ->
      Spec.closed_row s u sh (today clock) = false ->
      valid_shift sh = true ->
      Spec.present_rows_checked_in s ->
      out = (Some AttendanceScreen.Success,
             Spec.add_attendance (Spec.check_in_row s clock u sh) s)).
Proof.
  intros Ha out. subst out.
  destruct (attendance_fetchData clock u s Ha) as (a & Ef).
  unfold AttendanceScreen.checkIn. rewrite run_bind, Ef.
  unfold AttendanceScreen.handleCheckIn.
  cbn [AttendanceScreen.user AttendanceScreen.admission
       AttendanceScreen.todayAttendance].
  pose proof (snapshot_open clock u sh s) as So.
  pose proof (snapshot_closed clock u sh s) as Sc.
  repeat split.
  - intros W. now rewrite W.
  - intros W O. rewrite W, O in *. simpl.
    destruct (find _ _); [reflexivity|discriminate].
  - intros W O C. rewrite W, O, C in *. simpl.
    destruct (find _ _); [discriminate|].
    destruct (find _ _); [reflexivity|discriminate].
  - intros W O C V P. rewrite W, O, C in *. simpl.
    destruct (find _ _); [discriminate|].
    destruct (find _ _); [discriminate|].
    pose proof (no_present_row clock u sh P O C) as N.
    cbn -[order_desc]. unfold Db.insert_attendance.
    cbn -[order_desc valid_shift Db.same_attendance_key].
    rewrite V. cbn -[order_desc Db.same_attendance_key].
    unfold Spec.check_in_row in N. unfold Db.new_attendance. simpl.
    rewrite N. reflexivity.
Qed.

(** The four cases for user 7: at noon, after the check-in, after the
    check-out, and at 08:00 on a day without attendance. *)
Lemma checkIn_cases_witness :
  run (AttendanceScreen.checkIn Scenario.in_window Scenario.clock_noon 7
         "morning") Scenario.one_student =
  (Some AttendanceScreen.InvalidTime, Scenario.one_student)
  /\ run (AttendanceScreen.checkIn Scenario.in_window Scenario.clock_ten 7
            "morning") Scenario.checked_in_store =
     (Some AttendanceScreen.AlreadyCheckedIn, Scenario.checked_in_store)
  /\ run (AttendanceScreen.checkIn Scenario.in_window Scenario.clock_ten 7
            "morning") Scenario.checked_out_store =
     (Some AttendanceScreen.ShiftCompleted, Scenario.checked_out_store)
  /\ run (AttendanceScreen.checkIn Scenario.in_window Scenario.clock_morning 7
            "morning") Scenario.one_student =
     (Some AttendanceScreen.Success,
      Spec.add_attendance
        (Attendance.mk 2 7 "morning" (Some 1736496000000%Z) None "2025-01-10"
           Attendance.present None 1736496000000) Scenario.one_student).
Proof.
  split; [|split; [|split]].
  - apply (checkIn_cases Scenario.in_window Scenario.clock_noon 7 "morning"
             Scenario.one_student eq_refl).
    reflexivity.
  - apply (checkIn_cases Scenario.in_window Scenario.clock_ten 7 "morning"
             Scenario.checked_in_store eq_refl); reflexivity.
  - apply (checkIn_cases Scenario.in_window Scenario.clock_ten 7 "morning"
             Scenario.checked_out_store eq_refl); reflexivity.
  - apply (checkIn_cases Scenario.in_window Scenario.clock_morning 7 "morning"
             Scenario.one_student eq_refl); try reflexivity.
    intros r [].
Defined.

Lemma attendance_fetchData_store clock st s :
  snd (run (AttendanceScreen.fetchData clock st) s) = s.
Proof.
  unfold AttendanceScreen.fetchData. destruct (AttendanceScreen.user st);
    reflexivity.
Qed.

(** [handleCheckIn] writes at most the check-in row. *)
Lemma handleCheckIn_store isCurrentTimeInShift clock st sh s :
  snd (run (AttendanceScreen.handleCheckIn isCurrentTimeInShift clock st sh)
         s) = s
  \/ exists uid,
       snd (run (AttendanceScreen.handleCheckIn isCurrentTimeInShift clock st
                   sh) s) =
       Spec.add_attendance (Spec.check_in_row s clock uid sh) s.
Proof.
  unfold AttendanceScreen.handleCheckIn.
  destruct (AttendanceScreen.user st) as [uid|]; [|now left].
  destruct (AttendanceScreen.admission st); [|now left].
  destruct (isCurrentTimeInShift sh clock); simpl; [|now left].
  destruct (find _ _); [now left|].
  destruct (find _ _); [now left|].
  cbn -[Db.insert_attendance AttendanceScreen.fetchData].
  unfold Db.insert_attendance.
  destruct (negb _); [now left|].
  destruct (existsb _ _); [now left|].
  right. exists uid.
  cbn -[AttendanceScreen.fetchData]. rewrite run_bind.
  match goal with
  | |- context [run (AttendanceScreen.fetchData ?c ?t) ?x] =>
      pose proof (attendance_fetchData_store c t x) as E;
      destruct (run (AttendanceScreen.fetchData c t) x) as [st' s']
  end.
  simpl in E. subst s'. reflexivity.
Qed.

(** The hypothesis of the last case of [checkIn_cases] is kept by
    check-ins: the row they add carries its check-in time. *)
Lemma checkIn_keeps_check_in_times isCurrentTimeInShift clock u sh s :
  Spec.present_rows_checked_in s ->
  Spec.present_rows_checked_in
    (snd (run (AttendanceScreen.checkIn isCurrentTimeInShift clock u sh) s)).
Proof.
  intros H. unfold AttendanceScreen.checkIn. rewrite run_bind.
  match goal with
  | |- context [run (AttendanceScreen.fetchData ?c ?t) ?x] =>
      pose proof (attendance_fetchData_store c t x) as E;
      destruct (run (AttendanceScreen.fetchData c t) x) as [st' s']
  end.
  simpl in E. subst s'.
  destruct (handleCheckIn_store isCurrentTimeInShift clock st' sh s)
    as [E|(uid & E)]; rewrite E; [exact H|].
  intros r Hr P. simpl in Hr. apply in_app_or in Hr.
  destruct Hr as [Hr|[<-|[]]]; [now apply H|discriminate].
Qed.

(** ** Booking requests *)

Lemma booking_fetchData clock u s :
  exists adm sel,
    run (BookingScreen.fetchData clock
           (BookingScreen.mkState (Some u) None "" "" [] [] [])) s =
    (BookingScreen.mkState (Some u) adm sel ""
       (filter (fun b => String.eqb (SeatBooking.booking_date b) (today clock)
                         && SeatBooking.is_booked b) (seat_bookings s))
       (filter (fun booking => SeatBooking.user_id booking =? u)
          (filter (fun b =>
                     String.eqb (SeatBooking.booking_date b) (today clock)
                     && SeatBooking.is_booked b) (seat_bookings s)))
       (filter (fun p => (CashPayment.user_id p =? u)
                         && CashPayment.is_pending p
                         && match CashPayment.booking_id p with
                            | Some _ => true
                            | None => false
                            end) (cash_payments s)), s).
Proof. eexists. eexists. reflexivity. Qed.

Lemma snapshot_booked clock u sh s :
  match find (fun booking => String.eqb (SeatBooking.shift booking) sh)
          (filter (fun booking => SeatBooking.user_id booking =? u)
             (filter (fun b =>
                        String.eqb (SeatBooking.booking_date b) (today clock)
                        && SeatBooking.is_booked b) (seat_bookings s))) with
  | Some _ => true
  | None => false
  end = Spec.holds_booked s u sh (today clock).
Proof.
  rewrite find_existsb, !existsb_filter. apply existsb_ext. intros b.
  destruct (SeatBooking.user_id b =? u),
    (String.eqb (SeatBooking.shift b) sh),
    (String.eqb (SeatBooking.booking_date b) (today clock)),
    (SeatBooking.is_booked b); reflexivity.
Qed.

Lemma snapshot_pending_payment u s :
  existsb (fun payment =>
      match CashPayment.booking_id payment with
      | Some _ => true
      | None => false
      end)
    (filter (fun p => (CashPayment.user_id p =? u)
                      && CashPayment.is_pending p
                      && match CashPayment.booking_id p with
                         | Some _ => true
                         | None => false
                         end) (cash_payments s)) =
  Spec.has_pending_booking_payment s u.
Proof.
  rewrite existsb_filter. apply existsb_ext. intros p.
  destruct (CashPayment.user_id p =? u), (CashPayment.is_pending p),
    (CashPayment.booking_id p); reflexivity.
Qed.

Lemma truthy_nonempty x : x <> ""%string -> truthy x = true.
Proof.
  intros H. unfold truthy. destruct (String.eqb_spec x ""); [contradiction|].
  reflexivity.
Qed.

Lemma valid_shift_nonempty sh : valid_shift sh = true -> sh <> ""%string.
Proof. intros V E. subst sh. discriminate. Qed.

Lemma holds_active_booked s u sh d :
  Spec.holds_active s u sh d = false -> Spec.holds_booked s u sh d = false.
Proof.
  unfold Spec.holds_active, Spec.holds_booked.
  induction (seat_bookings s) as [|b l IH]; simpl; [reflexivity|].
  intros H. apply orb_false_elim in H. destruct H as [H1 H2].
  rewrite (IH H2), orb_false_r.
  destruct (SeatBooking.is_booked b); [|apply andb_false_r].
  now rewrite orb_true_r in H1.
Qed.

(** C2, as stated, fails: user 1 waits for the approval of an evening
    booking.  Asking for another evening seat is turned down, but as a
    pending payment request, not as 'Already Booked'; and asking for a
    morning seat, for which the user holds no row at all, is turned down too
    and inserts nothing. *)
Lemma requestBooking_pending_gate :
  Spec.holds_active Scenario.one_request 1 "evening" "2025-01-10" = true
  /\ run (BookingScreen.requestBooking Scenario.clock_morning 1 "evening"
            "B2") Scenario.one_request =
     (Some BookingScreen.PendingPaymentRequest, Scenario.one_request)
  /\ Spec.holds_active Scenario.one_request 1 "morning" "2025-01-10" = false
  /\ run (BookingScreen.requestBooking Scenario.clock_morning 1 "morning"
            "A12") Scenario.one_request =
     (Some BookingScreen.PendingPaymentRequest, Scenario.one_request).
Proof. repeat split. Qed.

(** What the amended statement leaves open: the approval for user 2 failed
    on the seat index, so user 2 holds a pending morning row without a
    pending payment, and a further request for the morning shift adds a
    second one. *)
Example second_pending_row :
  Spec.holds_active Scenario.second_refused 2 "morning" "2025-01-10" = true
  /\ fst (run (BookingScreen.requestBooking Scenario.clock_noon 2 "morning"
                 "A13") Scenario.second_refused) =
     Some BookingScreen.BookingSubmitted.
Proof. split; reflexivity. Qed.

(** C2, amended: a request for a seat is answered 'Already Booked' when the
    caller holds a booked row of (user, shift, today), and 'Pending Payment
    Request' when the caller has a pending cash payment linked to any
    booking; both leave the store untouched.  When the caller holds neither a
    pending nor a booked row of (user, shift, today) and has no such payment,
    the request inserts a pending booking row and a pending cash payment of
    50 linked to it. *)
Theorem requestBooking_cases clock u sh seat s :
  seat <> ""%string ->
  let out := run (BookingScreen.requestBooking clock u sh seat) s in
  (sh <> ""%string ->
   Spec.holds_booked s u sh (today clock) = true ->
   out = (Some BookingScreen.AlreadyBooked, s))
  /\ (sh <> ""%string ->
      Spec.holds_booked s u sh (today clock) = false ->
      Spec.has_pending_booking_payment s u = true ->
      out = (Some BookingScreen.PendingPaymentRequest, s))
  /\ (valid_shift sh = true ->
      Spec.holds_active s u sh (today clock) = false ->
      Spec.has_pending_booking_payment s u = false ->
      out = (Some BookingScreen.BookingSubmitted,
             Spec.add_booking_request (Spec.booking_row s clock u sh seat)
               (Spec.booking_payment_row s clock u) s)).
Proof.
  intros Hseat out. subst out.
  unfold BookingScreen.requestBooking.
  destruct (booking_fetchData clock u s) as (adm & sel & Ef).
  rewrite run_bind, Ef.
  unfold BookingScreen.handleSeatBooking, BookingScreen.handleDirectBooking.
  cbn [BookingScreen.user BookingScreen.selectedShift
       BookingScreen.selectedSeat BookingScreen.userBookings
       BookingScreen.seatBookings BookingScreen.pendingCashPayments].
  rewrite (truthy_nonempty Hseat).
  pose proof (snapshot_booked clock u sh s) as Sb.
  rewrite snapshot_pending_payment.
  split; [|split].
  - intros Hsh B. rewrite (truthy_nonempty Hsh), B in *. simpl.
    destruct (find _ _); [reflexivity|discriminate].
  - intros Hsh B P. rewrite (truthy_nonempty Hsh), B, P in *. simpl.
    destruct (find _ _); [discriminate|reflexivity].
  - intros V A P. pose proof (holds_active_booked _ _ _ _ A) as B.
    rewrite (truthy_nonempty (valid_shift_nonempty V)), B, P in *. simpl.
    destruct (find _ _); [discriminate|].
    cbn -[Db.insert_seat_booking]. unfold Db.insert_seat_booking.
    cbn -[valid_shift]. rewrite V. reflexivity.
Qed.

(** After the first approval: user 1 holds a booked morning seat, user 2
    still waits, and user 1 may ask for a noon seat. *)
Lemma requestBooking_cases_witness :
  run (BookingScreen.requestBooking Scenario.clock_noon 1 "morning" "A13")
    Scenario.first_approved =
  (Some BookingScreen.AlreadyBooked, Scenario.first_approved)
  /\ run (BookingScreen.requestBooking Scenario.clock_noon 2 "noon" "C1")
       Scenario.first_approved =
     (Some BookingScreen.PendingPaymentRequest, Scenario.first_approved)
  /\ run (BookingScreen.requestBooking Scenario.clock_noon 1 "noon" "C1")
       Scenario.first_approved =
     (Some BookingScreen.BookingSubmitted,
      Spec.add_booking_request
        (SeatBooking.mk 6 1 "noon" "C1" SeatBooking.pending "2025-01-10"
           1736510400000)
        (CashPayment.mk 7 1 (Some 6) None 50 CashPayment.pending None None
           None 1736510400000) Scenario.first_approved).
Proof.
  split; [|split].
  - apply (requestBooking_cases Scenario.clock_noon 1 "morning"
             Scenario.first_approved (seat := "A13")); [discriminate| |];
      [discriminate|reflexivity].
  - apply (requestBooking_cases Scenario.clock_noon 2 "noon"
             Scenario.first_approved (seat := "C1")); [discriminate| | |];
      [discriminate|reflexivity|reflexivity].
  - apply (requestBooking_cases Scenario.clock_noon 1 "noon"
             Scenario.first_approved (seat := "C1")); [discriminate| | |];
      reflexivity.
Defined.

(** ** The booked-seat invariant *)

Lemma same_seat_sym a b : SeatBooking.same_seat a b = SeatBooking.same_seat b a.
Proof.
  unfold SeatBooking.same_seat.
  now rewrite (String.eqb_sym (SeatBooking.shift a)),
    (String.eqb_sym (SeatBooking.seat_number a)),
    (String.eqb_sym (SeatBooking.booking_date a)).
Qed.

Lemma at_seat_same sh seat d a b :
  SeatBooking.at_seat sh seat d a = true ->
  SeatBooking.at_seat sh seat d b = true ->
  SeatBooking.same_seat a b = true.
Proof.
  unfold SeatBooking.at_seat, SeatBooking.same_seat. intros Ha Hb.
  apply andb_prop in Ha. destruct Ha as [Ha Ha3].
  apply andb_prop in Ha. destruct Ha as [Ha1 Ha2].
  apply andb_prop in Hb. destruct Hb as [Hb Hb3].
  apply andb_prop in Hb. destruct Hb as [Hb1 Hb2].
  apply String.eqb_eq in Ha1, Ha2, Ha3, Hb1, Hb2, Hb3.
  rewrite Ha1, Ha2, Ha3, Hb1, Hb2, Hb3, !String.eqb_refl. reflexivity.
Qed.

Lemma same_seat_at sh seat d a b :
  SeatBooking.same_seat a b = true ->
  SeatBooking.at_seat sh seat d b = true ->
  SeatBooking.at_seat sh seat d a = true.
Proof.
  unfold SeatBooking.at_seat, SeatBooking.same_seat. intros Ha Hb.
  apply andb_prop in Ha. destruct Ha as [Ha Ha3].
  apply andb_prop in Ha. destruct Ha as [Ha1 Ha2].
  apply String.eqb_eq in Ha1, Ha2, Ha3.
  now rewrite Ha1, Ha2, Ha3.
Qed.

Lemma NoDup_map_filter {A B} (f : A -> B) (p : A -> bool) l :
  NoDup (map f l) -> NoDup (map f (filter p l)).
Proof.
  induction l as [|x l IH]; simpl; intros H; [constructor|].
  inversion H as [|? ? Hn Hd]; subst.
  destruct (p x); simpl; [|auto].
  constructor; [|auto].
  intros Hin. apply Hn. apply in_map_iff in Hin.
  destruct Hin as (y & E & Hy). apply filter_In in Hy.
  apply in_map_iff. exists y. tauto.
Qed.

Lemma NoDup_map_inj {A B} (f : A -> B) l x y :
  NoDup (map f l) -> In x l -> In y l -> f x = f y -> x = y.
Proof.
  induction l as [|z l IH]; simpl; intros H Hx Hy E; [contradiction|].
  inversion H as [|? ? Hn Hd]; subst.
  destruct Hx as [Hx|Hx], Hy as [Hy|Hy]; subst; auto.
  - exfalso. apply Hn. rewrite E. now apply in_map.
  - exfalso. apply Hn. rewrite <- E. now apply in_map.
Qed.

Lemma map_id_set_status bid st tbl :
  map SeatBooking.id
    (map (fun r => if SeatBooking.id r =? bid
                   then SeatBooking.set_status st r else r) tbl) =
  map SeatBooking.id tbl.
Proof.
  rewrite map_map. apply map_ext. intros r.
  destruct (SeatBooking.id r =? bid); reflexivity.
Qed.

Ltac frame_wf :=
  unfold Spec.bookings_wf, Db.insert_attendance, Db.insert_cash_payment,
    Db.insert_payment_history in *; cbn;
  repeat match goal with
         | |- context [if ?c then _ else _] => destruct c; cbn
         | |- context [match ?c with Ok _ => _ | Err _ => _ end] =>
             destruct c; cbn
         end;
  intuition auto using Nat.lt_lt_succ_r.

Lemma wf_insert_seat_booking now p s :
  Spec.bookings_wf s ->
  Spec.bookings_wf (snd (Db.insert_seat_booking now p s)).
Proof.
  intros (Hd & Hlt & Hu). unfold Db.insert_seat_booking.
  set (row := Db.new_seat_booking now p s).
  destruct (negb (valid_shift (SeatBooking.shift row)));
    [now repeat split|].
  destruct (SeatBooking.is_booked row
            && existsb (fun r => SeatBooking.is_booked r
                                 && SeatBooking.same_seat r row)
                 (seat_bookings s)) eqn:C; [now repeat split|].
  assert (Hid : SeatBooking.id row = next_id s) by reflexivity.
  assert (Hfree : forall r, In r (seat_bookings s) ->
            SeatBooking.is_booked r = true ->
            SeatBooking.is_booked row = true ->
            SeatBooking.same_seat r row = true -> False).
  { intros r Hr Br Brow Sr. rewrite Brow in C. simpl in C.
    assert (existsb (fun r => SeatBooking.is_booked r
                              && SeatBooking.same_seat r row)
              (seat_bookings s) = true); [|congruence].
    apply existsb_exists. exists r. now rewrite Br, Sr. }
  repeat split; simpl.
  - rewrite map_app. simpl. apply NoDup_app.
    + exact Hd.
    + constructor; [intros []|constructor].
    + intros x Hx [E|[]]. apply in_map_iff in Hx.
      destruct Hx as (b & Eb & Hb). apply Hlt in Hb.
      cbn in E. lia.
  - intros b Hb. apply in_app_or in Hb. destruct Hb as [Hb|[E|[]]].
    + apply Hlt in Hb. lia.
    + subst b. rewrite Hid. lia.
  - intros a b Ha Hb Ba Bb Sab.
    apply in_app_or in Ha. apply in_app_or in Hb.
    destruct Ha as [Ha|[Ea|[]]], Hb as [Hb|[Eb|[]]]; subst.
    + now apply Hu.
    + exfalso. eapply Hfree; eauto.
    + exfalso. rewrite same_seat_sym in Sab. eapply Hfree; eauto.
    + reflexivity.
Qed.

(** An update that the index lets through has no booked neighbour. *)
Lemma no_conflict bid st tbl r r' :
  Db.booked_conflict bid st tbl = false ->
  In r tbl -> In r' tbl ->
  SeatBooking.id r = bid -> SeatBooking.id r' <> bid ->
  SeatBooking.is_booked (SeatBooking.set_status st r) = true ->
  SeatBooking.is_booked r' = true ->
  SeatBooking.same_seat r' r = true -> False.
Proof.
  intros C Hr Hr' E N B B' S.
  assert (Db.booked_conflict bid st tbl = true); [|congruence].
  unfold Db.booked_conflict. apply existsb_exists. exists r.
  split; [exact Hr|].
  apply Nat.eqb_eq in E. rewrite E, B. simpl.
  apply existsb_exists. exists r'. split; [exact Hr'|].
  apply Nat.eqb_neq in N. now rewrite N, B', S.
Qed.

Lemma wf_update_booking_status bid st s :
  Spec.bookings_wf s ->
  Spec.bookings_wf (snd (Db.update_booking_status bid st s)).
Proof.
  intros (Hd & Hlt & Hu). unfold Db.update_booking_status.
  destruct (Db.booked_conflict bid st (seat_bookings s)) eqn:C;
    [now repeat split|].
  repeat split; simpl.
  - now rewrite map_id_set_status.
  - intros b Hb. apply in_map_iff in Hb. destruct Hb as (r & E & Hr).
    apply Hlt in Hr. subst b. destruct (SeatBooking.id r =? bid); exact Hr.
  - intros a b Ha Hb Ba Bb Sab.
    apply in_map_iff in Ha. destruct Ha as (ra & Ea & Ha).
    apply in_map_iff in Hb. destruct Hb as (rb & Eb & Hb).
    subst a b.
    destruct (Nat.eqb_spec (SeatBooking.id ra) bid) as [Ia|Ia],
      (Nat.eqb_spec (SeatBooking.id rb) bid) as [Ib|Ib]; simpl.
    + congruence.
    + exfalso.
      apply (@no_conflict bid st (seat_bookings s) ra rb C Ha Hb Ia Ib Ba Bb).
      rewrite same_seat_sym. exact Sab.
    + exfalso.
      apply (@no_conflict bid st (seat_bookings s) rb ra C Hb Ha Ib Ia Bb Ba).
      exact Sab.
    + now apply Hu.
Qed.

Lemma wf_delete_seat_booking bid s :
  Spec.bookings_wf s ->
  Spec.bookings_wf (snd (Db.delete_seat_booking bid s)).
Proof.
  intros (Hd & Hlt & Hu). repeat split; simpl.
  - now apply NoDup_map_filter.
  - intros b Hb. apply filter_In in Hb. now apply Hlt.
  - intros a b Ha Hb. apply filter_In in Ha, Hb. now apply Hu.
Qed.

Lemma wf_exec A (q : Q.t A) s :
  Spec.bookings_wf s -> Spec.bookings_wf (snd (exec q s)).
Proof.
  intros H.
  destruct q; cbn [exec];
    try (apply wf_insert_seat_booking; exact H);
    try (apply wf_update_booking_status; exact H);
    try (apply wf_delete_seat_booking; exact H);
    frame_wf.
Qed.

Lemma wf_insert_admission now p s :
  Spec.bookings_wf s ->
  Spec.bookings_wf (snd (AdmissionDb.insert_admission now p s)).
Proof.
  intros (Hd & Hlt & Hu). unfold AdmissionDb.insert_admission.
  destruct (AdmissionDb.i_age p) as [age|]; [|now repeat split].
  destruct (AdmissionDb.i_duration p) as [duration|]; [|now repeat split].
  destruct (negb _); [now repeat split|].
  destruct (negb _); [now repeat split|].
  repeat split; cbn; auto using Nat.lt_lt_succ_r.
Qed.

Lemma filter_length_le_1 {A} (p : A -> bool) (f : A -> nat) l :
  NoDup (map f l) ->
  (forall x y, In x l -> In y l -> p x = true -> p y = true -> f x = f y) ->
  List.length (filter p l) <= 1.
Proof.
  intros Hd Hu.
  pose proof (NoDup_map_filter f p l Hd) as Hd'.
  assert (Hin : forall x, In x (filter p l) -> In x l /\ p x = true)
    by (intros x Hx; now apply filter_In in Hx).
  destruct (filter p l) as [|x [|y l']]; simpl; try lia.
  exfalso. simpl in Hd'. inversion Hd' as [|? ? Hn _]; subst.
  apply Hn. left.
  destruct (Hin x (or_introl eq_refl)) as [Hx Px].
  destruct (Hin y (or_intror (or_introl eq_refl))) as [Hy Py].
  symmetry. now apply Hu.
Qed.

Lemma wf_unique_booked s :
  Spec.bookings_wf s -> Spec.unique_booked (seat_bookings s).
Proof.
  intros (Hd & _ & Hu) sh seat d. unfold Spec.booked_rows.
  apply (filter_length_le_1 _ SeatBooking.id _ Hd).
  intros x y Hx Hy Px Py.
  apply andb_prop in Px, Py. destruct Px as [Bx Ax], Py as [By Ay].
  apply Hu; auto. eapply at_seat_same; eauto.
Qed.

(** Two rows that pass a test which at most one row passes are one row. *)
Lemma filter_le_1_eq {A} (p : A -> bool) l x y :
  List.length (filter p l) <= 1 ->
  In x l -> In y l -> p x = true -> p y = true -> x = y.
Proof.
  intros L Hx Hy Px Py.
  assert (Fx : In x (filter p l)) by (apply filter_In; auto).
  assert (Fy : In y (filter p l)) by (apply filter_In; auto).
  destruct (filter p l) as [|z [|z' l']]; cbn in L; [contradiction| |lia].
  destruct Fx as [<-|[]], Fy as [<-|[]]. reflexivity.
Qed.

(** A table with a primary key that obeys the index is as [bookings_wf]
    asks. *)
Lemma unique_booked_wf s :
  NoDup (map SeatBooking.id (seat_bookings s)) ->
  (forall b, In b (seat_bookings s) -> SeatBooking.id b < next_id s) ->
  Spec.unique_booked (seat_bookings s) ->
  Spec.bookings_wf s.
Proof.
  intros Hd Hlt Hu. split; [exact Hd|]. split; [exact Hlt|].
  intros a b Ha Hb Ba Bb Sab. f_equal.
  apply (@filter_le_1_eq _
           (fun r => SeatBooking.is_booked r
                     && SeatBooking.at_seat (SeatBooking.shift a)
                          (SeatBooking.seat_number a)
                          (SeatBooking.booking_date a) r)
           (seat_bookings s) a b
           (Hu (SeatBooking.shift a) (SeatBooking.seat_number a)
              (SeatBooking.booking_date a)) Ha Hb).
  - rewrite Ba. unfold SeatBooking.at_seat. now rewrite !String.eqb_refl.
  - rewrite Bb. rewrite same_seat_sym in Sab. exact Sab.
Qed.

Lemma wf_run R (t : Task R) s :
  Spec.bookings_wf s -> Spec.bookings_wf (snd (run t s)).
Proof.
  revert s. induction t as [r|A q k IH]; intros s H; simpl; [exact H|].
  pose proof (wf_exec q H) as H'.
  destruct (exec q s) as [a s']. now apply IH.
Qed.

Lemma wf_step R (t : Task R) s :
  Spec.bookings_wf s -> Spec.bookings_wf (snd (step t s)).
Proof.
  destruct t as [r|A q k]; intros H; simpl; [exact H|].
  pose proof (wf_exec q H) as H'.
  destruct (exec q s) as [a s']. exact H'.
Qed.

Lemma wf_interleave R1 R2 sched (t1 : Task R1) (t2 : Task R2) s :
  Spec.bookings_wf s -> Spec.bookings_wf (snd (interleave sched t1 t2 s)).
Proof.
  revert t1 t2 s. induction sched as [|[|] sched IH]; intros t1 t2 s H; simpl.
  - pose proof (wf_run t1 H) as H1.
    destruct (run t1 s) as [r1 s1]. simpl in H1.
    pose proof (wf_run t2 H1) as H2.
    destruct (run t2 s1) as [r2 s2]. exact H2.
  - pose proof (wf_step t1 H) as H1.
    destruct (step t1 s) as [t1' s']. apply IH. exact H1.
  - pose proof (wf_step t2 H) as H1.
    destruct (step t2 s) as [t2' s']. apply IH. exact H1.
Qed.

(** ** Two approvals racing for one seat *)

Lemma step_approval addMonths adm clock p b ph s :
  CashPayment.booking_id p = Some b ->
  CashPayment.admission_id p = None ->
  exists s',
    step (Race.approval_at addMonths adm clock p ph) s =
    (Race.approval_at addMonths adm clock p
       (Race.next_phase b ph (seat_bookings s)), s')
    /\ seat_bookings s' = Race.next_bookings b ph (seat_bookings s).
Proof.
  destruct p as [pid uid bk ad amt st notes by_ at_ cr]. simpl.
  intros -> ->.
  destruct ph; try (eexists; split; reflexivity).
  cbn -[Db.update_booking_status]. unfold Db.update_booking_status.
  unfold Race.next_phase, Race.next_bookings.
  destruct (Db.booked_conflict b SeatBooking.booked (seat_bookings s));
    eexists; split; reflexivity.
Qed.

Lemma run_approval addMonths adm clock p b ph s :
  CashPayment.booking_id p = Some b ->
  CashPayment.admission_id p = None ->
  exists s',
    run (Race.approval_at addMonths adm clock p ph) s =
    (Race.alert_of (Race.last_phase b ph (seat_bookings s)), s')
    /\ seat_bookings s' = Race.last_bookings b ph (seat_bookings s).
Proof.
  destruct p as [pid uid bk ad amt st notes by_ at_ cr]. simpl.
  intros -> ->.
  destruct ph; try (eexists; split; reflexivity);
    cbn -[Db.update_booking_status]; unfold Db.update_booking_status;
    unfold Race.last_phase, Race.last_bookings;
    cbn -[Db.booked_conflict];
    destruct (Db.booked_conflict b SeatBooking.booked (seat_bookings s));
    eexists; split; reflexivity.
Qed.

Lemma inv_sym sh seat d b1 b2 g1 g2 tbl :
  Race.Inv sh seat d b1 b2 g1 g2 tbl -> Race.Inv sh seat d b2 b1 g2 g1 tbl.
Proof.
  intros (Hd & H1 & H2 & Hall & Hne & Hf1 & Hf2 & Hnb).
  repeat split; auto.
  - intros r Hr B A. destruct (Hall r Hr B A); auto.
  - tauto.
Qed.

Lemma status_at_booked g :
  Race.status_at g = SeatBooking.booked -> g = Race.Booked.
Proof. destruct g; simpl; congruence. Qed.

(** The booking update of the first contender: refused when the other one
    holds the seat, let through otherwise. *)
Lemma inv_book sh seat d b1 b2 g2 tbl :
  Race.Inv sh seat d b1 b2 Race.Waiting g2 tbl ->
  if Db.booked_conflict b1 SeatBooking.booked tbl
  then Race.Inv sh seat d b1 b2 Race.Refused g2 tbl
  else Race.Inv sh seat d b1 b2 Race.Booked g2 (Race.set_booked b1 tbl).
Proof.
  intros (Hd & (r1 & Hr1 & Hi1 & Ha1 & Hs1) & (r2 & Hr2 & Hi2 & Ha2 & Hs2)
          & Hall & Hne & Hf1 & Hf2 & Hnb).
  destruct (Db.booked_conflict b1 SeatBooking.booked tbl) eqn:C.
  - assert (G : g2 = Race.Booked).
    { unfold Db.booked_conflict in C. apply existsb_exists in C.
      destruct C as (r & Hr & C).
      apply andb_prop in C. destruct C as [C C'].
      apply andb_prop in C. destruct C as [Ei _].
      apply Nat.eqb_eq in Ei.
      assert (r = r1)
        by (apply (@NoDup_map_inj _ _ SeatBooking.id tbl r r1 Hd Hr Hr1);
            congruence).
      subst r. apply existsb_exists in C'. destruct C' as (r' & Hr' & C').
      apply andb_prop in C'. destruct C' as [C' S'].
      apply andb_prop in C'. destruct C' as [N' B'].
      apply negb_true_iff, Nat.eqb_neq in N'.
      pose proof (@same_seat_at sh seat d r' r1 S' Ha1) as A'.
      destruct (Hall r' Hr' B' A') as [E|E]; [congruence|].
      assert (r' = r2)
        by (apply (@NoDup_map_inj _ _ SeatBooking.id tbl r' r2 Hd Hr' Hr2);
            congruence).
      subst r'. apply status_at_booked. rewrite <- Hs2.
      unfold SeatBooking.is_booked in B'.
      destruct (SeatBooking.booking_status r2); congruence. }
    subst g2.
    split; [exact Hd|]. split; [exists r1; auto|]. split; [exists r2; auto|].
    split; [exact Hall|]. split; [exact Hne|].
    split; [reflexivity|]. split; [discriminate|].
    intros [E _]. discriminate.
  - assert (G : g2 <> Race.Booked).
    { intros ->. simpl in Hs2.
      apply (@no_conflict b1 SeatBooking.booked tbl r1 r2 C Hr1 Hr2 Hi1);
        [congruence|reflexivity| |].
      - unfold SeatBooking.is_booked. now rewrite Hs2.
      - eapply at_seat_same; eauto. }
    split; [unfold Race.set_booked; now rewrite map_id_set_status|].
    split.
    { exists (SeatBooking.set_status SeatBooking.booked r1).
      split; [|auto].
      unfold Race.set_booked. apply in_map_iff. exists r1.
      apply Nat.eqb_eq in Hi1. now rewrite Hi1. }
    split.
    { exists r2. split; [|auto].
      unfold Race.set_booked. apply in_map_iff. exists r2.
      assert (N : (SeatBooking.id r2 =? b1) = false)
        by (apply Nat.eqb_neq; congruence).
      now rewrite N. }
    split.
    { intros r Hr B A. unfold Race.set_booked in Hr.
      apply in_map_iff in Hr. destruct Hr as (r0 & E & Hr0).
      destruct (Nat.eqb_spec (SeatBooking.id r0) b1) as [I|I]; subst r.
      - left. exact I.
      - now apply Hall. }
    split; [exact Hne|]. split; [discriminate|]. split; [reflexivity|].
    intros [_ E]. contradiction.
Qed.

Lemma inv_next sh seat d b1 b2 ph g2 tbl :
  Race.Inv sh seat d b1 b2 (Race.progress ph) g2 tbl ->
  Race.Inv sh seat d b1 b2 (Race.progress (Race.next_phase b1 ph tbl)) g2
    (Race.next_bookings b1 ph tbl).
Proof.
  intros H. destruct ph; simpl in *; try exact H.
  apply inv_book in H.
  destruct (Db.booked_conflict b1 SeatBooking.booked tbl); exact H.
Qed.

Lemma inv_last sh seat d b1 b2 ph g2 tbl :
  Race.Inv sh seat d b1 b2 (Race.progress ph) g2 tbl ->
  Race.Inv sh seat d b1 b2 (Race.progress (Race.last_phase b1 ph tbl)) g2
    (Race.last_bookings b1 ph tbl).
Proof.
  intros H. destruct ph; simpl in *; try exact H;
    apply inv_book in H;
    destruct (Db.booked_conflict b1 SeatBooking.booked tbl); exact H.
Qed.

Lemma last_phase_final b ph tbl :
  Race.progress (Race.last_phase b ph tbl) <> Race.Waiting.
Proof.
  destruct ph; simpl; try discriminate;
    destruct (Db.booked_conflict b SeatBooking.booked tbl); discriminate.
Qed.

Lemma alert_of_progress ph :
  Race.progress ph <> Race.Waiting ->
  (Race.progress ph = Race.Booked /\ Race.alert_of ph = AdminPayments.Success)
  \/ (Race.progress ph = Race.Refused
      /\ Race.alert_of ph = AdminPayments.Error).
Proof. destruct ph; simpl; intros H; auto; contradiction. Qed.

(** However the requests of the two approvals are interleaved, the
    invariant holds at the end and both approvals have come to a verdict. *)
Lemma race_invariant M1 M2 adm1 adm2 clock1 clock2 p1 p2 b1 b2 sh seat d
  sched :
  CashPayment.booking_id p1 = Some b1 -> CashPayment.admission_id p1 = None ->
  CashPayment.booking_id p2 = Some b2 -> CashPayment.admission_id p2 = None ->
  forall ph1 ph2 s,
    Race.Inv sh seat d b1 b2 (Race.progress ph1) (Race.progress ph2)
      (seat_bookings s) ->
    exists q1 q2 s',
      interleave sched (Race.approval_at M1 adm1 clock1 p1 ph1)
        (Race.approval_at M2 adm2 clock2 p2 ph2) s =
      (Race.alert_of q1, Race.alert_of q2, s')
      /\ Race.progress q1 <> Race.Waiting
      /\ Race.progress q2 <> Race.Waiting
      /\ Race.Inv sh seat d b1 b2 (Race.progress q1) (Race.progress q2)
           (seat_bookings s').
Proof.
  intros B1 A1 B2 A2.
  induction sched as [|[|] sched IH]; intros ph1 ph2 s H; simpl.
  - destruct (run_approval M1 adm1 clock1 p1 ph1 s B1 A1) as (s1 & E1 & T1).
    rewrite E1.
    destruct (run_approval M2 adm2 clock2 p2 ph2 s1 B2 A2) as (s2 & E2 & T2).
    rewrite E2.
    exists (Race.last_phase b1 ph1 (seat_bookings s)),
      (Race.last_phase b2 ph2 (seat_bookings s1)), s2.
    split; [reflexivity|].
    split; [apply last_phase_final|]. split; [apply last_phase_final|].
    rewrite T2, T1. apply inv_sym, inv_last, inv_sym, inv_last. exact H.
  - destruct (step_approval M1 adm1 clock1 p1 ph1 s B1 A1) as (s1 & E1 & T1).
    rewrite E1. apply IH. rewrite T1. now apply inv_next.
  - destruct (step_approval M2 adm2 clock2 p2 ph2 s B2 A2) as (s1 & E1 & T1).
    rewrite E1. apply IH. rewrite T1. now apply inv_sym, inv_next, inv_sym.
Qed.

Lemma find_by_id tbl r :
  NoDup (map SeatBooking.id tbl) -> In r tbl ->
  find (fun x => SeatBooking.id x =? SeatBooking.id r) tbl = Some r.
Proof.
  induction tbl as [|x tbl IH]; simpl; intros Hd Hr; [contradiction|].
  destruct (Nat.eqb_spec (SeatBooking.id x) (SeatBooking.id r)) as [E|E].
  - f_equal.
    apply (@NoDup_map_inj _ _ SeatBooking.id (x :: tbl) x r Hd);
      simpl; auto.
  - inversion Hd; subst. destruct Hr as [Hr|Hr]; [congruence|auto].
Qed.

Lemma status_of_row s r b :
  NoDup (map SeatBooking.id (seat_bookings s)) ->
  In r (seat_bookings s) -> SeatBooking.id r = b ->
  Spec.status_of s b = Some (SeatBooking.booking_status r).
Proof.
  intros Hd Hr <-. unfold Spec.status_of. now rewrite find_by_id.
Qed.

Lemma filter_length_ge_1 {A} (p : A -> bool) l x :
  In x l -> p x = true -> 1 <= List.length (filter p l).
Proof.
  intros Hx Px.
  assert (H : In x (filter p l)) by (apply filter_In; auto).
  destruct (filter p l); [contradiction|simpl; lia].
Qed.

(** With the first contender booked and the second refused, the seat has
    exactly one booked row. *)
Lemma one_booked_row sh seat d b1 b2 tbl :
  Race.Inv sh seat d b1 b2 Race.Booked Race.Refused tbl ->
  Spec.booked_rows tbl sh seat d = 1.
Proof.
  intros (Hd & (r1 & Hr1 & Hi1 & Ha1 & Hs1) & (r2 & Hr2 & Hi2 & Ha2 & Hs2)
          & Hall & Hne & _).
  simpl in Hs1, Hs2. unfold Spec.booked_rows.
  assert (Hb1 : forall x, In x tbl ->
            SeatBooking.is_booked x && SeatBooking.at_seat sh seat d x = true ->
            SeatBooking.id x = b1).
  { intros x Hx Px. apply andb_prop in Px. destruct Px as [Bx Ax].
    destruct (Hall x Hx Bx Ax) as [E|E]; [exact E|].
    assert (x = r2)
      by (apply (@NoDup_map_inj _ _ SeatBooking.id tbl x r2 Hd Hx Hr2);
          congruence).
    subst x. unfold SeatBooking.is_booked in Bx. rewrite Hs2 in Bx.
    discriminate. }
  apply Nat.le_antisymm.
  - apply (filter_length_le_1 _ SeatBooking.id _ Hd).
    intros x y Hx Hy Px Py. rewrite (Hb1 x Hx Px), (Hb1 y Hy Py). reflexivity.
  - apply (@filter_length_ge_1 _ _ tbl r1 Hr1).
    unfold SeatBooking.is_booked. now rewrite Hs1, Ha1.
Qed.

Lemma booked_rows_sym_inv sh seat d b1 b2 tbl :
  Race.Inv sh seat d b1 b2 Race.Refused Race.Booked tbl ->
  Spec.booked_rows tbl sh seat d = 1.
Proof. intros H. apply inv_sym in H. exact (one_booked_row H). Qed.

Lemma at_own_seat r :
  SeatBooking.at_seat (SeatBooking.shift r) (SeatBooking.seat_number r)
    (SeatBooking.booking_date r) r = true.
Proof. unfold SeatBooking.at_seat. now rewrite !String.eqb_refl. Qed.

Lemma at_seat_of_same_seat r1 r2 :
  SeatBooking.same_seat r1 r2 = true ->
  SeatBooking.at_seat (SeatBooking.shift r1) (SeatBooking.seat_number r1)
    (SeatBooking.booking_date r1) r2 = true.
Proof. intros H. rewrite same_seat_sym in H. exact H. Qed.

(** The index covers booked rows only: a pending row is accepted whatever
    the seat holds. *)
Lemma pending_insert clock_now p s :
  valid_shift (SeatBooking.i_shift p) = true ->
  SeatBooking.i_booking_status p = Some SeatBooking.pending ->
  fst (Db.insert_seat_booking clock_now p s) =
  Ok (Db.new_seat_booking clock_now p s).
Proof.
  intros V P. unfold Db.insert_seat_booking.
  unfold Db.new_seat_booking at 1 2. cbn -[valid_shift].
  rewrite V, P. reflexivity.
Qed.

(** C1: a booking table with a primary key obeys the index
    [seat_bookings_unique_booked] exactly when it is as [Spec.bookings_wf]
    asks, and then a seat of a shift and day has at most one row with
    [booking_status = 'booked'].  Whatever handlers run on such a store,
    alone or interleaved, and whatever admission is inserted, the store
    stays such a store: no handler checks for it, the index refuses the
    offending insert or update.  When two approvals of two different pending
    requests for one free seat run concurrently, then for every interleaving
    of their requests exactly one of them succeeds and books its request;
    the other one is refused and its request stays pending.  The index is
    scoped to booked rows: the insert of a pending row is never refused by
    it. *)
Theorem booked_seat_is_unique :
  (forall s, Spec.bookings_wf s -> Spec.unique_booked (seat_bookings s))
  /\ (forall s,
        NoDup (map SeatBooking.id (seat_bookings s)) ->
        (forall b, In b (seat_bookings s) -> SeatBooking.id b < next_id s) ->
        Spec.unique_booked (seat_bookings s) ->
        Spec.bookings_wf s)
  /\ (forall R (t : Task R) s,
        Spec.bookings_wf s -> Spec.bookings_wf (snd (run t s)))
  /\ (forall R1 R2 sched (t1 : Task R1) (t2 : Task R2) s,
        Spec.bookings_wf s ->
        Spec.bookings_wf (snd (interleave sched t1 t2 s)))
  /\ (forall t p s,
        Spec.bookings_wf s ->
        Spec.bookings_wf (snd (AdmissionDb.insert_admission t p s)))
  /\ (forall M1 M2 adm1 adm2 clock1 clock2 p1 p2 r1 r2 sched s,
        Spec.bookings_wf s ->
        CashPayment.booking_id p1 = Some (SeatBooking.id r1) ->
        CashPayment.admission_id p1 = None ->
        CashPayment.booking_id p2 = Some (SeatBooking.id r2) ->
        CashPayment.admission_id p2 = None ->
        In r1 (seat_bookings s) ->
        SeatBooking.booking_status r1 = SeatBooking.pending ->
        In r2 (seat_bookings s) ->
        SeatBooking.booking_status r2 = SeatBooking.pending ->
        SeatBooking.id r1 <> SeatBooking.id r2 ->
        SeatBooking.same_seat r1 r2 = true ->
        Spec.booked_rows (seat_bookings s) (SeatBooking.shift r1)
          (SeatBooking.seat_number r1) (SeatBooking.booking_date r1) = 0 ->
        exists a1 a2 s',
          interleave sched
            (AdminPayments.handlePaymentAction M1 adm1 clock1 p1
               AdminPayments.approve)
            (AdminPayments.handlePaymentAction M2 adm2 clock2 p2
               AdminPayments.approve) s = (a1, a2, s')
          /\ ((a1 = AdminPayments.Success /\ a2 = AdminPayments.Error
               /\ Spec.status_of s' (SeatBooking.id r1)
                  = Some SeatBooking.booked
               /\ Spec.status_of s' (SeatBooking.id r2)
                  = Some SeatBooking.pending)
              \/ (a1 = AdminPayments.Error /\ a2 = AdminPayments.Success
                  /\ Spec.status_of s' (SeatBooking.id r1)
                     = Some SeatBooking.pending
                  /\ Spec.status_of s' (SeatBooking.id r2)
                     = Some SeatBooking.booked))
          /\ Spec.booked_rows (seat_bookings s') (SeatBooking.shift r1)
               (SeatBooking.seat_number r1) (SeatBooking.booking_date r1)
             = 1)
  /\ (forall t p s,
        valid_shift (SeatBooking.i_shift p) = true ->
        SeatBooking.i_booking_status p = Some SeatBooking.pending ->
        fst (Db.insert_seat_booking t p s) =
        Ok (Db.new_seat_booking t p s)).
Proof.
  split; [exact wf_unique_booked|].
  split; [exact unique_booked_wf|].
  split; [exact wf_run|].
  split; [exact wf_interleave|].
  split; [exact wf_insert_admission|].
  split; [|exact pending_insert].
  intros M1 M2 adm1 adm2 clock1 clock2 p1 p2 r1 r2 sched s
    Hs B1 A1 B2 A2 Hr1 P1 Hr2 P2 Hne Hsame Hfree.
  destruct Hs as (Hd & _ & _).
  set (sh := SeatBooking.shift r1) in *.
  set (seat := SeatBooking.seat_number r1) in *.
  set (d := SeatBooking.booking_date r1) in *.
  assert (I0 : Race.Inv sh seat d (SeatBooking.id r1) (SeatBooking.id r2)
                 (Race.progress Race.PPay) (Race.progress Race.PPay)
                 (seat_bookings s)).
  { split; [exact Hd|].
    split; [exists r1; repeat split; auto; apply at_own_seat|].
    split; [exists r2; repeat split; auto;
            now apply at_seat_of_same_seat|].
    split.
    { intros r Hr B A. exfalso.
      pose proof (@filter_length_ge_1 _
        (fun b => SeatBooking.is_booked b && SeatBooking.at_seat sh seat d b)
        (seat_bookings s) r Hr) as G.
      unfold Spec.booked_rows in Hfree. rewrite Hfree in G.
      rewrite B, A in G. specialize (G eq_refl). lia. }
    split; [exact Hne|]. simpl.
    split; [discriminate|]. split; [discriminate|].
    intros [E _]. discriminate. }
  destruct (@race_invariant M1 M2 adm1 adm2 clock1 clock2 p1 p2
              (SeatBooking.id r1) (SeatBooking.id r2) sh seat d sched
              B1 A1 B2 A2 Race.PPay Race.PPay s I0)
    as (q1 & q2 & s' & E & F1 & F2 & I).
  exists (Race.alert_of q1), (Race.alert_of q2), s'.
  split; [exact E|].
  pose proof I as (Hd' & (x1 & Hx1 & Hi1 & _ & Hs1)
                   & (x2 & Hx2 & Hi2 & _ & Hs2) & _ & _ & Hf1 & Hf2 & Hnb).
  rewrite (@status_of_row s' x1 _ Hd' Hx1 Hi1),
    (@status_of_row s' x2 _ Hd' Hx2 Hi2).
  destruct (@alert_of_progress q1 F1) as [[G1 E1]|[G1 E1]],
    (@alert_of_progress q2 F2) as [[G2 E2]|[G2 E2]];
    rewrite G1, G2 in *; rewrite E1, E2.
  - exfalso. apply Hnb. split; reflexivity.
  - split; [left; rewrite Hs1, Hs2; auto|]. exact (one_booked_row I).
  - split; [right; rewrite Hs1, Hs2; auto|]. exact (booked_rows_sym_inv I).
  - specialize (Hf1 eq_refl). discriminate.
Qed.

(** The store of the two students who have paid and asked for seat A12 is
    as the schema keeps it. *)
Lemma paid_requests_wf : Spec.bookings_wf Examples.paid_requests.
Proof.
  change Examples.paid_requests with
    (snd (run (BookingScreen.requestBooking Scenario.clock_morning 2
                 "morning" "A12")
            (snd (run (BookingScreen.requestBooking Scenario.clock_morning 1
                         "morning" "A12") Examples.two_paid)))).
  apply wf_run, wf_run.
  split; [constructor|]. split; [intros b []|intros a b []].
Qed.

(** Two admins approve the two requests for seat A12 at once; and once the
    seat is booked, a further pending request for it is still accepted. *)
Lemma booked_seat_is_unique_witness :
  (exists a1 a2 s',
     interleave [true; false; false; true; true]
       (AdminPayments.handlePaymentAction Scenario.addMonths 99
          Scenario.clock_noon Examples.payment_of_chitra
          AdminPayments.approve)
       (AdminPayments.handlePaymentAction Scenario.addMonths 98
          Scenario.clock_noon Examples.payment_of_dev AdminPayments.approve)
       Examples.paid_requests = (a1, a2, s')
     /\ ((a1 = AdminPayments.Success /\ a2 = AdminPayments.Error
          /\ Spec.status_of s' 5 = Some SeatBooking.booked
          /\ Spec.status_of s' 7 = Some SeatBooking.pending)
         \/ (a1 = AdminPayments.Error /\ a2 = AdminPayments.Success
             /\ Spec.status_of s' 5 = Some SeatBooking.pending
             /\ Spec.status_of s' 7 = Some SeatBooking.booked))
     /\ Spec.booked_rows (seat_bookings s') "morning" "A12" "2025-01-10" = 1)
  /\ fst (Db.insert_seat_booking 1736510400000
            (SeatBooking.mkInsert 3 "morning" "A12" (Some SeatBooking.pending)
               "2025-01-10") Examples.seat_taken) =
     Ok (SeatBooking.mk 11 3 "morning" "A12" SeatBooking.pending "2025-01-10"
           1736510400000)
  /\ Spec.unique_booked (seat_bookings Examples.seat_taken).
Proof.
  split; [|split].
  - apply (proj1 (proj2 (proj2 (proj2 (proj2 (proj2 booked_seat_is_unique)))))
             Scenario.addMonths Scenario.addMonths 99 98 Scenario.clock_noon
             Scenario.clock_noon Examples.payment_of_chitra
             Examples.payment_of_dev Examples.request_of_chitra
             Examples.request_of_dev [true; false; false; true; true]
             Examples.paid_requests paid_requests_wf);
      try reflexivity.
    + simpl. auto.
    + simpl. auto.
    + discriminate.
  - apply (proj2 (proj2 (proj2 (proj2 (proj2 (proj2 booked_seat_is_unique)))))
             1736510400000%Z
             (SeatBooking.mkInsert 3 "morning" "A12"
                (Some SeatBooking.pending) "2025-01-10")
             Examples.seat_taken); reflexivity.
  - apply (proj1 booked_seat_is_unique).
    change Examples.seat_taken with
      (snd (run (AdminPayments.handlePaymentAction Scenario.addMonths 99
                   Scenario.clock_morning Examples.payment_of_chitra
                   AdminPayments.approve) Examples.paid_requests)).
    apply (proj1 (proj2 (proj2 booked_seat_is_unique))), paid_requests_wf.
Defined.

(** Both outcomes occur: who reaches the store first with the booking update
    wins the seat. *)
Example race_outcomes :
  fst (interleave [true; false; false; true; true]
         (AdminPayments.handlePaymentAction Scenario.addMonths 99
            Scenario.clock_noon Scenario.payment_of_1 AdminPayments.approve)
         (AdminPayments.handlePaymentAction Scenario.addMonths 98
            Scenario.clock_noon Scenario.payment_of_2 AdminPayments.approve)
         Scenario.two_requests) =
  (AdminPayments.Error, AdminPayments.Success)
  /\ fst (interleave [true; false; true]
            (AdminPayments.handlePaymentAction Scenario.addMonths 99
               Scenario.clock_noon Scenario.payment_of_1
               AdminPayments.approve)
            (AdminPayments.handlePaymentAction Scenario.addMonths 98
               Scenario.clock_noon Scenario.payment_of_2
               AdminPayments.approve)
            Scenario.two_requests) =
     (AdminPayments.Success, AdminPayments.Error).
Proof. split; reflexivity. Qed.

(** ** Cash payments for an admission *)

(** Scenario D of the specification: with exactly one pending cash payment
    of the caller for the admission, a further submission is turned down and
    nothing is inserted. *)
Lemma second_submission_is_rejected clock u a rest c s :
  fst (Db.select_latest_admission u s) = Ok (a :: rest) ->
  fst (Db.select_pending_cash_for_admission u (Admission.id a) s) = [c] ->
  run (PaymentScreen.submitCashPayment clock u) s =
  (Some PaymentScreen.PaymentRequestAlreadySubmitted, s).
Proof.
  intros Ha Hc. unfold PaymentScreen.submitCashPayment.
  rewrite run_bind. unfold PaymentScreen.fetchAdmission.
  cbn [PaymentScreen.user run exec].
  destruct (Db.select_latest_admission u s) as [res s1] eqn:E1.
  assert (s1 = s) by (unfold Db.select_latest_admission in E1; congruence).
  simpl in Ha. subst s1 res.
  cbn [run exec].
  destruct (Db.select_pending_cash_for_admission u (Admission.id a) s)
    as [rows s2] eqn:E2.
  assert (s2 = s)
    by (unfold Db.select_pending_cash_for_admission in E2; congruence).
  simpl in Hc. subst s2 rows. reflexivity.
Qed.

Example scenario_D :
  run (PaymentScreen.submitCashPayment Scenario.clock_noon 8)
    Scenario.cash_submitted =
  (Some PaymentScreen.PaymentRequestAlreadySubmitted, Scenario.cash_submitted).
Proof. reflexivity. Qed.

(** With two or more pending cash payments of the caller for the admission,
    [maybeSingle] reports none of them and the submission goes through. *)
Lemma several_pending_are_not_seen clock u a rest c1 c2 more s :
  fst (Db.select_latest_admission u s) = Ok (a :: rest) ->
  fst (Db.select_pending_cash_for_admission u (Admission.id a) s) =
  c1 :: c2 :: more ->
  (0 < Admission.total_amount a)%Z ->
  fst (run (PaymentScreen.submitCashPayment clock u) s) =
  Some PaymentScreen.CashPaymentSubmitted
  /\ cash_payments (snd (run (PaymentScreen.submitCashPayment clock u) s)) =
     (cash_payments s
      ++ [CashPayment.mk (next_id s) u None (Some (Admission.id a))
            (Admission.total_amount a) CashPayment.pending None None None
            (now clock)])%list.
Proof.
  intros Ha Hc Hpos. unfold PaymentScreen.submitCashPayment.
  rewrite run_bind. unfold PaymentScreen.fetchAdmission.
  cbn [PaymentScreen.user run exec].
  destruct (Db.select_latest_admission u s) as [res s1] eqn:E1.
  assert (s1 = s) by (unfold Db.select_latest_admission in E1; congruence).
  simpl in Ha. subst s1 res.
  cbn [run exec].
  destruct (Db.select_pending_cash_for_admission u (Admission.id a) s)
    as [rows s2] eqn:E2.
  assert (s2 = s)
    by (unfold Db.select_pending_cash_for_admission in E2; congruence).
  simpl in Hc. subst s2 rows.
  cbn [maybeSingle run]. unfold PaymentScreen.confirmCashPayment.
  cbn [PaymentScreen.user PaymentScreen.admission
       PaymentScreen.existingCashPayment run exec].
  rewrite E2. cbn [maybeSingle run exec].
  unfold Db.insert_cash_payment. cbn -[Z.leb].
  destruct (Z.leb_spec (Admission.total_amount a) 0); [lia|].
  split; reflexivity.
Qed.

(** C8 does not hold of the code.  Two submissions of user 8 for the same
    admission whose reads both precede the writes are both accepted and leave
    two pending cash payments for it; and in that state a third submission is
    accepted as well, because [maybeSingle] yields no row when two match. *)
Theorem duplicate_cash_payment_is_accepted :
  interleave Scenario.both_read_first
    (PaymentScreen.submitCashPayment Scenario.clock_morning 8)
    (PaymentScreen.submitCashPayment Scenario.clock_morning 8)
    Scenario.enrolled =
  (Some PaymentScreen.CashPaymentSubmitted,
   Some PaymentScreen.CashPaymentSubmitted, Scenario.raced)
  /\ List.length (Spec.pending_cash_for_admission Scenario.raced 2) = 2
  /\ fst (run (PaymentScreen.submitCashPayment Scenario.clock_noon 8)
            Scenario.raced) = Some PaymentScreen.CashPaymentSubmitted
  /\ PaymentScreen.duplicate_request
       (fst (run (PaymentScreen.submitCashPayment Scenario.clock_noon 8)
               Scenario.raced)) = false
  /\ List.length
       (Spec.pending_cash_for_admission
          (snd (run (PaymentScreen.submitCashPayment Scenario.clock_noon 8)
                  Scenario.raced)) 2) = 3.
Proof. repeat split. Qed.

(** * Further properties of the handlers *)

(** ** The absence detector: [GET], the hour of the run, check-ins *)

Lemma or_else_idem a b : or_else (Some (or_else a b)) b = or_else a b.
Proof.
  unfold or_else. destruct a as [x|].
  - destruct (String.eqb x "") eqn:E; [|rewrite E; reflexivity].
    destruct (String.eqb b ""); reflexivity.
  - destruct (String.eqb b ""); reflexivity.
Qed.

(** X1 ([GET] of app/+api/check-absent-students.ts).  [GET] answers what
    [POST] answers to a body carrying the same date, a missing or empty
    [date] parameter standing for today, and like [POST] it writes nothing.
    As [GET] always sends a body, a date of the form 'YYYY-MM-DD' (or none)
    is answered with a report for that date. *)
Theorem GET_is_POST_with_date clock date_param s :
  run (Api.GET clock date_param) s =
  run (Api.POST clock (Api.mkRequest (Some (Api.mkBody date_param)))) s
  /\ snd (run (Api.GET clock date_param) s) = s
  /\ (Spec.iso_date (or_else date_param (today clock)) = true ->
      exists report,
        fst (run (Api.GET clock date_param) s) = Api.Json report
        /\ Api.success report = true
        /\ Api.r_date report = or_else date_param (today clock)).
Proof.
  unfold Api.GET. rewrite !POST_run. cbn [Api.date fst snd].
  rewrite or_else_idem. split; [reflexivity|]. split; [reflexivity|].
  intros _. eexists. split; [reflexivity|]. split; reflexivity.
Qed.

(** With no [date] parameter, at noon on 10 January. *)
Lemma GET_is_POST_with_date_witness :
  exists report,
    fst (run (Api.GET Scenario.clock_noon None) Examples.detector_rows) =
    Api.Json report
    /\ Api.success report = true
    /\ Api.r_date report = "2025-01-10"%string.
Proof.
  apply (proj2 (proj2 (GET_is_POST_with_date Scenario.clock_noon None
                         Examples.detector_rows))).
  reflexivity.
Defined.

Lemma shiftEnded_before_five sh h :
  (h < 5)%Z -> Api.shiftEnded sh h = false.
Proof.
  intros H. unfold Api.shiftEnded.
  repeat match goal with
         | |- context [if ?c then _ else _] => destruct c
         end; lia.
Qed.

Lemma shiftEnded_valid_shift sh h :
  Api.shiftEnded sh h = true -> valid_shift sh = true.
Proof.
  unfold Api.shiftEnded, valid_shift. cbn [existsb].
  destruct (String.eqb sh "morning"); [reflexivity|].
  destruct (String.eqb sh "noon"); [reflexivity|].
  destruct (String.eqb sh "evening"); [reflexivity|].
  destruct (String.eqb sh "night"); [reflexivity|discriminate].
Qed.

Lemma absent_entry_inv s d h e :
  In e (Spec.absent_entries s d h) ->
  exists a,
    In a (admissions s) /\ Admission.is_paid a = true
    /\ In (Api.a_shift e) (Admission.selected_shifts a)
    /\ Api.a_user_id e = Admission.user_id a
    /\ Api.a_date e = d
    /\ Api.shiftEnded (Api.a_shift e) h = true
    /\ Spec.checked_in s (Api.a_user_id e) (Api.a_shift e) d = false.
Proof.
  unfold Spec.absent_entries, Spec.enrolled_pairs. intros H.
  apply in_map_iff in H. destruct H as [[a sh] [E H]]. subst e.
  apply filter_In in H. destruct H as [H F].
  apply in_flat_map in H. destruct H as [a' [Ha H]].
  apply filter_In in Ha. destruct Ha as [Ha P].
  apply in_map_iff in H. destruct H as [sh' [E H]]. inversion E; subst.
  unfold Spec.flagged in F. cbn [fst snd] in F.
  apply andb_true_iff in F. destruct F as [F1 F2].
  apply negb_true_iff in F2.
  exists a. cbn. auto 10.
Qed.

Lemma POST_json clock request s report :
  fst (run (Api.POST clock request) s) = Api.Json report ->
  exists body,
    report = Spec.report s (or_else (Api.date body) (today clock))
               (hours clock).
Proof.
  destruct request as [[body|]]; [|discriminate].
  rewrite POST_run. cbn [fst]. intros E. inversion E. eauto.
Qed.

(** X2 ([POST] of app/+api/check-absent-students.ts, the [switch] on the
    shift).  Whatever the date asked for, the detector judges by the hour of
    the run: before 05:00 it reports nobody; no run reports an evening
    absence together with a night absence; and every entry is for one of the
    four shifts, whose end the hour has passed, on the date of the report. *)
Theorem detector_judges_by_the_hour_of_the_run clock request s report :
  fst (run (Api.POST clock request) s) = Api.Json report ->
  ((hours clock < 5)%Z ->
   Api.absentStudents report = [] /\ Api.absentCount report = 0)
  /\ (forall e1 e2,
        In e1 (Api.absentStudents report) ->
        In e2 (Api.absentStudents report) ->
        Api.a_shift e1 = "evening"%string ->
        Api.a_shift e2 = "night"%string -> False)
  /\ (forall e,
        In e (Api.absentStudents report) ->
        Api.shiftEnded (Api.a_shift e) (hours clock) = true
        /\ valid_shift (Api.a_shift e) = true
        /\ Api.a_date e = Api.r_date report).
Proof.
  intros H. apply POST_json in H. destruct H as [body ->].
  unfold Spec.report. cbn [Api.absentStudents Api.absentCount Api.r_date].
  set (d := or_else (Api.date body) (today clock)).
  assert (A : forall e, In e (Spec.absent_entries s d (hours clock)) ->
                        Api.shiftEnded (Api.a_shift e) (hours clock) = true
                        /\ Api.a_date e = d).
  { intros e He. apply absent_entry_inv in He.
    destruct He as [a He]. tauto. }
  split; [|split].
  - intros Hh.
    destruct (Spec.absent_entries s d (hours clock)) as [|e l] eqn:E.
    + split; reflexivity.
    + exfalso. destruct (A e (or_introl eq_refl)) as [A1 _].
      rewrite shiftEnded_before_five in A1 by exact Hh. discriminate.
  - intros e1 e2 H1 H2 E1 E2.
    apply A in H1. apply A in H2. destruct H1 as [H1 _], H2 as [H2 _].
    rewrite E1 in H1. rewrite E2 in H2.
    unfold Api.shiftEnded in H1, H2. cbn in H1, H2.
    apply andb_true_iff in H2. lia.
  - intros e He. destruct (A e He) as [A1 A2].
    split; [exact A1|]. split; [|exact A2].
    exact (shiftEnded_valid_shift _ _ A1).
Qed.

Lemma detector_judges_by_the_hour_of_the_run_witness :
  let entry := Api.mkAbsent 7 "morning" "2025-01-10" "absent" "no_checkin" in
  let report := Api.mkReport true "2025-01-10" 1 [entry] in
  fst (run (Api.POST Scenario.clock_noon
              (Api.mkRequest (Some (Api.mkBody None)))) Scenario.one_student) =
  Api.Json report
  /\ Api.shiftEnded (Api.a_shift entry) 12 = true
  /\ valid_shift (Api.a_shift entry) = true
  /\ Api.a_date entry = Api.r_date report.
Proof.
  split; [reflexivity|].
  apply (proj2 (proj2
    (@detector_judges_by_the_hour_of_the_run Scenario.clock_noon
       (Api.mkRequest (Some (Api.mkBody None))) Scenario.one_student
       (Api.mkReport true "2025-01-10" 1
          [Api.mkAbsent 7 "morning" "2025-01-10" "absent" "no_checkin"])
       eq_refl))).
  left. reflexivity.
Defined.

Lemma handleCheckIn_success w clock st sh s u :
  AttendanceScreen.user st = Some u ->
  fst (run (AttendanceScreen.handleCheckIn w clock st sh) s) =
  Some AttendanceScreen.Success ->
  snd (run (AttendanceScreen.handleCheckIn w clock st sh) s) =
  Spec.add_attendance (Spec.check_in_row s clock u sh) s.
Proof.
  unfold AttendanceScreen.handleCheckIn. intros ->.
  destruct (AttendanceScreen.admission st); [|discriminate].
  destruct (w sh clock); simpl; [|discriminate].
  destruct (find _ _); [discriminate|].
  destruct (find _ _); [discriminate|].
  cbn -[Db.insert_attendance AttendanceScreen.fetchData].
  unfold Db.insert_attendance.
  destruct (negb _); [discriminate|].
  destruct (existsb _ _); [discriminate|].
  cbn -[AttendanceScreen.fetchData]. rewrite run_bind.
  match goal with
  | |- context [run (AttendanceScreen.fetchData ?c ?t) ?x] =>
      pose proof (attendance_fetchData_store c t x) as E;
      destruct (run (AttendanceScreen.fetchData c t) x) as [st' s']
  end.
  simpl in E. subst s'. reflexivity.
Qed.

Lemma checkIn_success w clock u sh s :
  fst (run (AttendanceScreen.checkIn w clock u sh) s) =
  Some AttendanceScreen.Success ->
  snd (run (AttendanceScreen.checkIn w clock u sh) s) =
  Spec.add_attendance (Spec.check_in_row s clock u sh) s.
Proof.
  unfold AttendanceScreen.checkIn. rewrite run_bind.
  destruct (run (AttendanceScreen.fetchData clock
                   (AttendanceScreen.mkState (Some u) None [])) s)
    as [st s'] eqn:E.
  assert (U : AttendanceScreen.user st = Some u).
  { unfold AttendanceScreen.fetchData in E. cbn -[order_desc] in E.
    inversion E. reflexivity. }
  pose proof (attendance_fetchData_store clock
                (AttendanceScreen.mkState (Some u) None []) s) as F.
  rewrite E in F. simpl in F. subst s'.
  apply handleCheckIn_success. exact U.
Qed.

(** X3 ([handleCheckIn] of app/admission/index.tsx with [POST] of
    app/+api/check-absent-students.ts).  A student whose check-in for a
    shift succeeded is not reported absent for that shift by any later run
    of the detector for that day, checked out or not. *)
Theorem checked_in_student_is_not_reported w clock u sh s clock' body :
  fst (run (AttendanceScreen.checkIn w clock u sh) s) =
  Some AttendanceScreen.Success ->
  or_else (Api.date body) (today clock') = today clock ->
  exists report,
    fst (run (Api.POST clock' (Api.mkRequest (Some body)))
           (snd (run (AttendanceScreen.checkIn w clock u sh) s))) =
    Api.Json report
    /\ Api.r_date report = today clock
    /\ forall e,
         In e (Api.absentStudents report) ->
         Api.a_user_id e = u -> Api.a_shift e <> sh.
Proof.
  intros H D. rewrite (checkIn_success _ _ _ _ _ H).
  rewrite POST_run, D. eexists. split; [reflexivity|].
  split; [reflexivity|].
  cbn [Api.absentStudents Spec.report]. intros e He Eu Esh.
  apply absent_entry_inv in He. destruct He as (a & _ & _ & _ & _ & _ & _ & C).
  rewrite Eu, Esh in C.
  unfold Spec.checked_in, Spec.add_attendance, Spec.check_in_row in C.
  cbn [attendance] in C. rewrite existsb_app in C.
  apply orb_false_iff in C. destruct C as [_ C]. cbn in C.
  rewrite Nat.eqb_refl, !String.eqb_refl in C. discriminate.
Qed.

Lemma checked_in_student_is_not_reported_witness :
  exists report,
    fst (run (Api.POST Scenario.clock_noon
                (Api.mkRequest (Some (Api.mkBody None))))
           (snd (run (AttendanceScreen.checkIn Scenario.in_window
                        Scenario.clock_morning 7 "morning")
                   Scenario.one_student))) =
    Api.Json report
    /\ Api.r_date report = "2025-01-10"%string
    /\ forall e,
         In e (Api.absentStudents report) ->
         Api.a_user_id e = 7 -> Api.a_shift e <> "morning"%string.
Proof.
  apply (@checked_in_student_is_not_reported Scenario.in_window
           Scenario.clock_morning 7 "morning" Scenario.one_student
           Scenario.clock_noon (Api.mkBody None)); reflexivity.
Defined.

(** ** Approving and rejecting cash payments: the trail a decision leaves *)

Lemma insert_payment_history_frame u amount mode months pd receipt s :
  let s' := snd (Db.insert_payment_history u amount mode months pd receipt s) in
  admissions s' = admissions s
  /\ seat_bookings s' = seat_bookings s
  /\ attendance s' = attendance s
  /\ cash_payments s' = cash_payments s
  /\ notifications s' = notifications s
  /\ admin_logs s' = admin_logs s.
Proof.
  unfold Db.insert_payment_history.
  destruct (amount <=? 0)%Z; [cbn; tauto|].
  destruct (negb _); [cbn; tauto|].
  destruct (existsb _ _); cbn; tauto.
Qed.

(** X4 ([handlePaymentAction] of the admin payments screen).  A decision
    on a cash payment that ends with the success alert has added exactly one
    row to the admin log, naming the admin, the action, the payment, its
    amount and its type, and exactly one notification for the student of the
    payment, 'Payment Approved' or 'Payment Rejected'; a decision that ends
    with the error alert has added neither, whichever request failed. *)
Theorem decision_is_logged_once addMonths adm clock p action s :
  let out := run (AdminPayments.handlePaymentAction addMonths adm clock p
                    action) s in
  match fst out with
  | AdminPayments.Success =>
      (exists lid,
         admin_logs (snd out) =
         (admin_logs s
          ++ [AdminLog.mk lid adm (AdminPayments.action_name action)
                (CashPayment.id p) (CashPayment.amount p)
                (AdminPayments.payment_type p)])%list)
      /\ (exists nid,
            notifications (snd out) =
            (notifications s
             ++ [match action with
                 | AdminPayments.approve =>
                     Notification.mk nid (CashPayment.user_id p)
                       "Payment Approved" "success" (Some adm)
                 | AdminPayments.reject =>
                     Notification.mk nid (CashPayment.user_id p)
                       "Payment Rejected" "error" (Some adm)
                 end])%list)
  | AdminPayments.Error =>
      admin_logs (snd out) = admin_logs s
      /\ notifications (snd out) = notifications s
  end.
Proof.
  unfold AdminPayments.handlePaymentAction.
  cbn -[Db.update_booking_status Db.select_admission_duration
        Db.insert_payment_history AdminPayments.approve_booking
        AdminPayments.reject_booking].
  destruct action.
  - unfold AdminPayments.approve_booking, AdminPayments.approve_admission.
    assert (A : forall s0,
      admin_logs s0 = admin_logs s -> notifications s0 = notifications s ->
      let out := run (AdminPayments.approve_admission addMonths adm clock p)
                   s0 in
      match fst out with
      | AdminPayments.Success =>
          (exists lid,
             admin_logs (snd out) =
             (admin_logs s
              ++ [AdminLog.mk lid adm "approve_cash_payment"
                    (CashPayment.id p) (CashPayment.amount p)
                    (AdminPayments.payment_type p)])%list)
          /\ (exists nid,
                notifications (snd out) =
                (notifications s
                 ++ [Notification.mk nid (CashPayment.user_id p)
                       "Payment Approved" "success" (Some adm)])%list)
      | AdminPayments.Error =>
          admin_logs (snd out) = admin_logs s
          /\ notifications (snd out) = notifications s
      end).
    { intros s0 L N. unfold AdminPayments.approve_admission.
      destruct (CashPayment.admission_id p) as [aid|].
      - cbn -[Db.insert_payment_history single].
        destruct (single _); [|cbn; auto].
        cbn -[Db.insert_payment_history].
        match goal with
        | |- context [Db.insert_payment_history ?a ?b ?c ?d ?e ?f ?x] =>
            pose proof (insert_payment_history_frame a b c d e f x) as F;
            destruct (Db.insert_payment_history a b c d e f x) as [r s']
        end.
        cbn in F. destruct F as (_ & _ & _ & _ & F1 & F2).
        cbn. rewrite F1, F2, L, N. eauto.
      - cbn. rewrite L, N. eauto. }
    destruct (CashPayment.booking_id p) as [bid|].
    + cbn -[Db.update_booking_status AdminPayments.approve_admission].
      unfold Db.update_booking_status.
      destruct (Db.booked_conflict _ _ _); [cbn; auto|].
      cbn -[AdminPayments.approve_admission]. apply A; reflexivity.
    + apply A; reflexivity.
  - unfold AdminPayments.reject_booking, AdminPayments.reject_admission.
    destruct (CashPayment.booking_id p) as [bid|];
      destruct (CashPayment.admission_id p) as [aid|]; cbn; eauto.
Qed.

Lemma filter_map_undo {A} (keep : A -> bool) (f : A -> A) (hit : A -> bool)
  (l : list A) :
  (forall x, keep (f x) = keep x) ->
  (forall x, In x l -> hit x = true -> keep x = false) ->
  filter keep (map (fun x => if hit x then f x else x) l) = filter keep l.
Proof.
  intros K H. induction l as [|x l IH]; [reflexivity|].
  cbn [map filter].
  rewrite IH by (intros y Hy; apply H; right; exact Hy).
  destruct (hit x) eqn:E; [|reflexivity].
  rewrite K, (H x (or_introl eq_refl) E). reflexivity.
Qed.

(** X5 ([handlePaymentAction] of the admin payments screen, reject branch,
    with ON DELETE CASCADE of [cash_payments.booking_id]).  Rejecting the
    payment of a booking request deletes the booking and, through the
    cascade, the payment row itself: the status 'rejected' that was written
    first does not survive, the other payments are untouched, and the admin
    sees 'Success'. *)
Theorem rejected_booking_payment_is_deleted addMonths adm clock p bid s :
  CashPayment.booking_id p = Some bid ->
  (forall c, In c (cash_payments s) ->
             CashPayment.id c = CashPayment.id p ->
             CashPayment.booking_id c = Some bid) ->
  let out := run (AdminPayments.handlePaymentAction addMonths adm clock p
                    AdminPayments.reject) s in
  fst out = AdminPayments.Success
  /\ seat_bookings (snd out) =
     filter (fun r => negb (SeatBooking.id r =? bid)) (seat_bookings s)
  /\ cash_payments (snd out) =
     filter (fun c => match CashPayment.booking_id c with
                      | Some b => negb (b =? bid)
                      | None => true
                      end) (cash_payments s)
  /\ (forall c, In c (cash_payments (snd out)) ->
                In c (cash_payments s)
                /\ CashPayment.id c <> CashPayment.id p).
Proof.
  intros B H out.
  assert (E : fst out = AdminPayments.Success
              /\ seat_bookings (snd out) =
                 filter (fun r => negb (SeatBooking.id r =? bid))
                   (seat_bookings s)
              /\ cash_payments (snd out) =
                 filter (fun c => match CashPayment.booking_id c with
                                  | Some b => negb (b =? bid)
                                  | None => true
                                  end)
                   (map (fun c => if CashPayment.id c =? CashPayment.id p
                                  then CashPayment.set_decision
                                         CashPayment.rejected (Some adm)
                                         (now clock) c
                                  else c) (cash_payments s))).
  { subst out. unfold AdminPayments.handlePaymentAction,
      AdminPayments.reject_booking, AdminPayments.reject_admission.
    rewrite B. destruct (CashPayment.admission_id p); cbn; auto. }
  destruct E as (E1 & E2 & E3).
  rewrite (@filter_map_undo _ _
             (CashPayment.set_decision CashPayment.rejected (Some adm)
                (now clock))
             (fun c => CashPayment.id c =? CashPayment.id p)) in E3.
  - split; [exact E1|]. split; [exact E2|]. split; [exact E3|].
    intros c Hc. rewrite E3 in Hc. apply filter_In in Hc.
    destruct Hc as [Hc K]. split; [exact Hc|].
    intros Ec. rewrite (H c Hc Ec), Nat.eqb_refl in K. discriminate.
  - reflexivity.
  - intros c Hc Ec. apply Nat.eqb_eq in Ec. rewrite (H c Hc Ec).
    now rewrite Nat.eqb_refl.
Qed.

Lemma rejected_booking_payment_is_deleted_witness :
  let out := run (AdminPayments.handlePaymentAction Scenario.addMonths 99
                    Scenario.clock_noon Scenario.payment_of_2
                    AdminPayments.reject) Scenario.two_requests in
  fst out = AdminPayments.Success
  /\ seat_bookings (snd out) = [Scenario.request_of_1]
  /\ cash_payments (snd out) = [Scenario.payment_of_1].
Proof.
  pose proof (@rejected_booking_payment_is_deleted Scenario.addMonths 99
                Scenario.clock_noon Scenario.payment_of_2 2
                Scenario.two_requests eq_refl) as H.
  cbv zeta in H. destruct H as (H1 & H2 & H3 & _).
  - intros c [<-|[<-|[]]]; [discriminate|reflexivity].
  - split; [exact H1|]. split; [exact H2|exact H3].
Defined.

(** X6 ([handlePaymentAction], approve branch for an admission payment).
    When the admission of the payment exists, approval makes it paid from
    now until now plus its duration and answers 'Success', whether or not
    the payment-history row could be written (its result is not read); the
    history row, when written, carries the amount of the payment.  When the
    admission does not exist the admin sees 'Error', nothing but the payment
    row has changed, and the payment stays approved. *)
Theorem approved_admission_payment addMonths adm clock p aid s :
  CashPayment.booking_id p = None ->
  CashPayment.admission_id p = Some aid ->
  let out := run (AdminPayments.handlePaymentAction addMonths adm clock p
                    AdminPayments.approve) s in
  let decided :=
    map (fun c => if CashPayment.id c =? CashPayment.id p
                  then CashPayment.set_decision CashPayment.approved
                         (Some adm) (now clock) c
                  else c) (cash_payments s) in
  (forall a,
     filter (fun x => Admission.id x =? aid) (admissions s) = [a] ->
     fst out = AdminPayments.Success
     /\ admissions (snd out) =
        map (fun x => if Admission.id x =? aid
                      then Admission.set_paid (now clock) (now clock)
                             (addMonths (now clock) (Admission.duration a)) x
                      else x) (admissions s)
     /\ cash_payments (snd out) = decided
     /\ (payment_history (snd out) = payment_history s
         \/ payment_history (snd out) =
            (payment_history s
             ++ [PaymentHistory.mk (next_id s) (CashPayment.user_id p)
                   (CashPayment.amount p) "cash" (Admission.duration a)
                   (now clock) (now clock)])%list))
  /\ ((forall a,
         filter (fun x => Admission.id x =? aid) (admissions s) <> [a]) ->
      out = (AdminPayments.Error, with_cash_payments decided s)).
Proof.
  intros B A out decided. subst out decided.
  unfold AdminPayments.handlePaymentAction, AdminPayments.approve_booking,
    AdminPayments.approve_admission.
  rewrite B, A. split.
  - intros a E. cbn -[Db.insert_payment_history single].
    rewrite E. cbn -[Db.insert_payment_history].
    unfold Db.insert_payment_history.
    cbn [admissions payment_history cash_payments with_admissions
         with_cash_payments next_id].
    destruct (CashPayment.amount p <=? 0)%Z; [cbn; auto|].
    destruct (negb _); [cbn; auto|].
    destruct (existsb _ _); cbn; auto.
  - intros N. cbn -[single].
    destruct (filter _ (admissions s)) as [|a [|b l]] eqn:E;
      try reflexivity.
    exfalso. exact (N a eq_refl).
Qed.

Lemma approved_admission_payment_witness :
  let out := run (AdminPayments.handlePaymentAction Scenario.addMonths 99
                    Scenario.clock_noon Scenario.payment_of_8
                    AdminPayments.approve) Scenario.cash_submitted in
  fst out = AdminPayments.Success
  /\ map (fun a => (Admission.id a, Admission.payment_status a,
                    Admission.start_date a, Admission.end_date a))
       (admissions (snd out)) =
     [(1, Admission.paid, Some 1735689600000%Z, Some 1738368000000%Z);
      (2, Admission.paid, Some 1736510400000%Z, Some 1744286400000%Z)]
  /\ map PaymentHistory.amount (payment_history (snd out)) = [549%Z].
Proof.
  pose proof (@approved_admission_payment Scenario.addMonths 99
                Scenario.clock_noon Scenario.payment_of_8 2
                Scenario.cash_submitted eq_refl eq_refl) as H.
  cbv zeta in H. destruct H as [H _].
  destruct (H Scenario.bina eq_refl) as (H1 & H2 & _ & _).
  split; [exact H1|]. split; [rewrite H2|]; reflexivity.
Defined.

(** ** Seat availability under requests and approvals *)

Lemma booking_fetchData_store clock st s :
  snd (run (BookingScreen.fetchData clock st) s) = s.
Proof.
  unfold BookingScreen.fetchData. destruct (BookingScreen.user st);
    reflexivity.
Qed.

(** A booking request adds at most one row to [seat_bookings], and that row
    is pending. *)
Lemma handleDirectBooking_bookings clock st s :
  exists l,
    seat_bookings (snd (run (BookingScreen.handleDirectBooking clock st) s)) =
    (seat_bookings s ++ l)%list
    /\ Forall (fun b => SeatBooking.booking_status b = SeatBooking.pending) l.
Proof.
  unfold BookingScreen.handleDirectBooking.
  destruct (BookingScreen.user st) as [uid|];
    [|exists []; cbn; rewrite app_nil_r; auto].
  destruct (_ || _); [exists []; cbn; rewrite app_nil_r; auto|].
  destruct (existsb _ _); [exists []; cbn; rewrite app_nil_r; auto|].
  cbn -[Db.insert_seat_booking Db.insert_cash_payment
        BookingScreen.fetchData].
  unfold Db.insert_seat_booking.
  cbn -[valid_shift Db.insert_cash_payment BookingScreen.fetchData].
  destruct (negb _); [exists []; cbn; rewrite app_nil_r; auto|].
  cbn -[Db.insert_cash_payment BookingScreen.fetchData].
  unfold Db.insert_cash_payment.
  cbn -[BookingScreen.fetchData].
  eexists [_]. rewrite run_bind.
  match goal with
  | |- context [run (BookingScreen.fetchData ?c ?t) ?x] =>
      pose proof (booking_fetchData_store c t x) as E;
      destruct (run (BookingScreen.fetchData c t) x) as [st' s']
  end.
  simpl in E. subst s'. cbn. split; [reflexivity|]. constructor; auto.
Qed.

Lemma requestBooking_bookings clock u sh seat s :
  exists l,
    seat_bookings
      (snd (run (BookingScreen.requestBooking clock u sh seat) s)) =
    (seat_bookings s ++ l)%list
    /\ Forall (fun b => SeatBooking.booking_status b = SeatBooking.pending) l.
Proof.
  unfold BookingScreen.requestBooking. rewrite run_bind.
  match goal with
  | |- context [run (BookingScreen.fetchData ?c ?t) ?x] =>
      pose proof (booking_fetchData_store c t x) as E;
      destruct (run (BookingScreen.fetchData c t) x) as [st' s']
  end.
  simpl in E. subst s'. unfold BookingScreen.handleSeatBooking.
  cbn [BookingScreen.user BookingScreen.selectedSeat
       BookingScreen.selectedShift BookingScreen.userBookings].
  destruct (BookingScreen.user st');
    [|exists []; cbn; rewrite app_nil_r; auto].
  destruct (_ || _); [exists []; cbn; rewrite app_nil_r; auto|].
  destruct (find _ _); [exists []; cbn; rewrite app_nil_r; auto|].
  apply handleDirectBooking_bookings.
Qed.

Lemma booked_count_app_pending s s' l sh d :
  seat_bookings s' = (seat_bookings s ++ l)%list ->
  Forall (fun b => SeatBooking.booking_status b = SeatBooking.pending) l ->
  Spec.booked_count s' sh d = Spec.booked_count s sh d.
Proof.
  intros E F. unfold Spec.booked_count. rewrite E, filter_app, length_app.
  clear E.
  replace (filter _ l) with (@nil SeatBooking.t);
    [simpl; now rewrite Nat.add_0_r|].
  induction F as [|b l Hb F IH]; [reflexivity|].
  cbn [filter]. unfold SeatBooking.is_booked at 1. rewrite Hb. exact IH.
Qed.

(** X7 ([handleSeatBooking] and [handleDirectBooking] of the booking screen
    with [fetchData] of the home screen).  Asking for a seat never changes
    the availability any home screen shows: whatever the outcome of the
    request, every shift has the same booked and available counts as
    before. *)
Theorem booking_request_leaves_availability clock u sh seat s SHIFTS clock'
  v prev :
  fst (run (HomeScreen.fetchData SHIFTS clock' v prev)
         (snd (run (BookingScreen.requestBooking clock u sh seat) s))) =
  fst (run (HomeScreen.fetchData SHIFTS clock' v prev) s).
Proof.
  destruct v as [v|]; [|reflexivity].
  rewrite !fetchData_run. cbn [fst].
  destruct (requestBooking_bookings clock u sh seat s) as (l & E & F).
  apply map_ext. intros shf.
  now rewrite (booked_count_app_pending _ _ _ _ E F).
Qed.

Lemma approve_admission_bookings addMonths adm clock p s :
  seat_bookings
    (snd (run (AdminPayments.approve_admission addMonths adm clock p) s)) =
  seat_bookings s.
Proof.
  unfold AdminPayments.approve_admission.
  destruct (CashPayment.admission_id p) as [aid|]; [|reflexivity].
  cbn -[Db.insert_payment_history single].
  destruct (single _); [|reflexivity].
  cbn -[Db.insert_payment_history].
  match goal with
  | |- context [Db.insert_payment_history ?a ?b ?c ?d ?e ?f ?x] =>
      pose proof (insert_payment_history_frame a b c d e f x) as F;
      destruct (Db.insert_payment_history a b c d e f x) as [r s']
  end.
  cbn in F. destruct F as (_ & F & _). cbn. exact F.
Qed.

Lemma approved_booking_bookings addMonths adm clock p bid s :
  CashPayment.booking_id p = Some bid ->
  fst (run (AdminPayments.handlePaymentAction addMonths adm clock p
              AdminPayments.approve) s) = AdminPayments.Success ->
  seat_bookings
    (snd (run (AdminPayments.handlePaymentAction addMonths adm clock p
                 AdminPayments.approve) s)) =
  Race.set_booked bid (seat_bookings s).
Proof.
  intros B. unfold AdminPayments.handlePaymentAction,
    AdminPayments.approve_booking. rewrite B.
  cbn -[Db.update_booking_status AdminPayments.approve_admission].
  unfold Db.update_booking_status.
  cbn -[Db.booked_conflict AdminPayments.approve_admission].
  destruct (Db.booked_conflict _ _ _); [discriminate|].
  intros _. cbn -[AdminPayments.approve_admission].
  rewrite approve_admission_bookings. reflexivity.
Qed.

Lemma set_booked_absent bid tbl :
  ~ In bid (map SeatBooking.id tbl) -> Race.set_booked bid tbl = tbl.
Proof.
  unfold Race.set_booked. induction tbl as [|r tbl IH]; [reflexivity|].
  cbn [map In]. intros N.
  destruct (SeatBooking.id r =? bid) eqn:E.
  - apply Nat.eqb_eq in E. tauto.
  - rewrite IH by tauto. reflexivity.
Qed.

Lemma booked_count_set_booked s s' b sh d :
  NoDup (map SeatBooking.id (seat_bookings s)) ->
  In b (seat_bookings s) ->
  SeatBooking.booking_status b = SeatBooking.pending ->
  seat_bookings s' = Race.set_booked (SeatBooking.id b) (seat_bookings s) ->
  Spec.booked_count s' sh d =
  (Spec.booked_count s sh d
   + (if String.eqb (SeatBooking.shift b) sh
         && String.eqb (SeatBooking.booking_date b) d then 1 else 0))%Z.
Proof.
  intros N I P E. unfold Spec.booked_count. rewrite E. clear E.
  induction (seat_bookings s) as [|r tbl IH]; [destruct I|].
  cbn [map] in N. inversion N as [|x l Nx N']; subst.
  destruct (Nat.eq_dec (SeatBooking.id r) (SeatBooking.id b)) as [Eid|Nid].
  - assert (r = b).
    { destruct I as [I|I]; [exact I|]. exfalso. apply Nx. rewrite Eid.
      now apply in_map. }
    subst r. unfold Race.set_booked. cbn [map filter].
    rewrite Nat.eqb_refl.
    fold (Race.set_booked (SeatBooking.id b) tbl).
    rewrite set_booked_absent by exact Nx.
    assert (Q : SeatBooking.is_booked b = false)
      by (unfold SeatBooking.is_booked; now rewrite P).
    rewrite Q. cbn.
    destruct (_ && _); cbn [List.length];
      [rewrite Nat2Z.inj_succ; reflexivity|now rewrite Z.add_0_r].
  - destruct I as [I|I]; [congruence|].
    unfold Race.set_booked. cbn [map filter].
    apply Nat.eqb_neq in Nid. rewrite Nid.
    fold (Race.set_booked (SeatBooking.id b) tbl).
    specialize (IH N' I).
    destruct (SeatBooking.is_booked r && _ && _); cbn [List.length];
      [|exact IH].
    rewrite !Nat2Z.inj_succ, IH. unfold Z.succ. ring.
Qed.

(** X8 ([handlePaymentAction], approve branch for a booking payment, with
    [fetchData] of the home screen).  A successful approval of the payment
    of a pending request for today takes exactly one seat of the shift of
    the request off the availability the home screen shows, and leaves the
    other shifts as they were. *)
Theorem approval_takes_one_seat addMonths adm clock p b s SHIFTS clock' v
  prev :
  CashPayment.booking_id p = Some (SeatBooking.id b) ->
  NoDup (map SeatBooking.id (seat_bookings s)) ->
  In b (seat_bookings s) ->
  SeatBooking.booking_status b = SeatBooking.pending ->
  SeatBooking.booking_date b = today clock' ->
  fst (run (AdminPayments.handlePaymentAction addMonths adm clock p
              AdminPayments.approve) s) = AdminPayments.Success ->
  fst (run (HomeScreen.fetchData SHIFTS clock' (Some v) prev)
         (snd (run (AdminPayments.handlePaymentAction addMonths adm clock p
                      AdminPayments.approve) s))) =
  map (fun a =>
         if String.eqb (SeatBooking.shift b) (HomeScreen.shift a)
         then HomeScreen.mkAvailability (HomeScreen.shift a)
                (HomeScreen.shiftName a) (HomeScreen.totalSeats a)
                (HomeScreen.bookedSeats a + 1)
                (HomeScreen.availableSeats a - 1) (HomeScreen.price a)
         else a)
    (fst (run (HomeScreen.fetchData SHIFTS clock' (Some v) prev) s)).
Proof.
  intros B N I P D S.
  pose proof (approved_booking_bookings _ _ _ _ _ B S) as E.
  rewrite !fetchData_run. cbn [fst]. rewrite map_map.
  apply map_ext. intros shf. cbn [HomeScreen.shift HomeScreen.shiftName
    HomeScreen.totalSeats HomeScreen.bookedSeats HomeScreen.availableSeats
    HomeScreen.price].
  rewrite (@booked_count_set_booked s _ b (HomeScreen.s_id shf)
             (today clock') N I P E).
  rewrite D, String.eqb_refl, andb_true_r.
  destruct (String.eqb _ _).
  - f_equal. lia.
  - rewrite Z.add_0_r. reflexivity.
Qed.

Lemma approval_takes_one_seat_witness :
  fst (run (HomeScreen.fetchData Scenario.SHIFTS Scenario.clock_noon (Some 5)
              []) Scenario.first_approved) =
  map (fun a =>
         if String.eqb "morning" (HomeScreen.shift a)
         then HomeScreen.mkAvailability (HomeScreen.shift a)
                (HomeScreen.shiftName a) (HomeScreen.totalSeats a)
                (HomeScreen.bookedSeats a + 1)
                (HomeScreen.availableSeats a - 1) (HomeScreen.price a)
         else a)
    (fst (run (HomeScreen.fetchData Scenario.SHIFTS Scenario.clock_noon
                 (Some 5) []) Scenario.two_requests)).
Proof.
  apply (@approval_takes_one_seat Scenario.addMonths 99 Scenario.clock_morning
           Scenario.payment_of_1 Scenario.request_of_1 Scenario.two_requests
           Scenario.SHIFTS Scenario.clock_noon 5 []);
    try reflexivity.
  - repeat constructor; simpl; intuition discriminate.
  - left. reflexivity.
Defined.

(** ** One attendance row per student, shift, day and status *)

Lemma same_attendance_key_iff a b :
  Db.same_attendance_key a b = true <->
  Facts.attendance_key a = Facts.attendance_key b.
Proof.
  unfold Db.same_attendance_key, Facts.attendance_key.
  rewrite !andb_true_iff, Nat.eqb_eq, !String.eqb_eq. split.
  - intros [[[-> ->] ->] H]. f_equal.
    destruct (Attendance.status a), (Attendance.status b);
      (reflexivity || discriminate).
  - intros H. inversion H as [[H1 H2 H3 H4]]. repeat split.
    now destruct (Attendance.status a), (Attendance.status b).

Qed.

Lemma attendance_keys_exec A (q : Q.t A) s :
  NoDup (map Facts.attendance_key (attendance s)) ->
  NoDup (map Facts.attendance_key (attendance (snd (exec q s)))).
Proof.
  intros H. destruct q; cbn [exec]; try exact H.
  - unfold Db.insert_seat_booking.
    destruct (negb _); [exact H|]. destruct (_ && _); exact H.
  - unfold Db.update_booking_status. destruct (Db.booked_conflict _ _ _);
      exact H.
  - unfold Db.insert_attendance. destruct (negb _); [exact H|].
    destruct (existsb _ _) eqn:E; [exact H|].
    cbn [snd attendance]. rewrite map_app. cbn [map].
    apply NoDup_app; [exact H|repeat constructor; intros []|].
    intros k Hk [<-|[]]. apply in_map_iff in Hk. destruct Hk as (r & K & Hr).
    apply not_true_iff_false in E. apply E.
    apply existsb_exists. exists r. split; [exact Hr|].
    now apply same_attendance_key_iff.
  - unfold Db.update_check_out. cbn [snd attendance]. rewrite map_map.
    cbn. erewrite map_ext; [exact H|].
    intros r. destruct (Attendance.id r =? rid); reflexivity.
  - unfold Db.insert_cash_payment. destruct (_ <=? _)%Z; exact H.
  - unfold Db.insert_payment_history. destruct (_ <=? _)%Z; [exact H|].
    destruct (negb _); [exact H|]. destruct (existsb _ _); exact H.
Qed.

Section Invariant.

(** A property of the store that every request keeps is kept by every
    handler, alone or interleaved with another one. *)
Variable P : Store -> Prop.
Hypothesis P_exec : forall A (q : Q.t A) s, P s -> P (snd (exec q s)).

Lemma invariant_run R (t : Task R) s : P s -> P (snd (run t s)).
Proof.
  revert s. induction t as [r|A q k IH]; intros s H; simpl; [exact H|].
  pose proof (P_exec q H) as H'.
  destruct (exec q s) as [a s']. now apply IH.
Qed.

Lemma invariant_step R (t : Task R) s : P s -> P (snd (step t s)).
Proof.
  destruct t as [r|A q k]; intros H; simpl; [exact H|].
  pose proof (P_exec q H) as H'.
  destruct (exec q s) as [a s']. exact H'.
Qed.

Lemma invariant_interleave R1 R2 sched (t1 : Task R1) (t2 : Task R2) s :
  P s -> P (snd (interleave sched t1 t2 s)).
Proof.
  revert t1 t2 s. induction sched as [|[|] sched IH]; intros t1 t2 s H; simpl.
  - pose proof (invariant_run t1 H) as H1.
    destruct (run t1 s) as [r1 s1]. simpl in H1.
    pose proof (invariant_run t2 H1) as H2.
    destruct (run t2 s1) as [r2 s2]. exact H2.
  - pose proof (invariant_step t1 H) as H1.
    destruct (step t1 s) as [t1' s']. apply IH. exact H1.
  - pose proof (invariant_step t2 H) as H1.
    destruct (step t2 s) as [t2' s']. apply IH. exact H1.
Qed.

End Invariant.

Lemma filter_length_le_1_key {A B} (p : A -> bool) (f : A -> B) (k : B) l :
  NoDup (map f l) ->
  (forall x, In x l -> p x = true -> f x = k) ->
  List.length (filter p l) <= 1.
Proof.
  induction l as [|x l IH]; intros N H; [simpl; lia|].
  cbn [map] in N. inversion N as [|y m Nx N']; subst.
  cbn [filter]. destruct (p x) eqn:Px.
  - destruct (filter p l) as [|y m] eqn:E; [simpl; lia|].
    exfalso. apply Nx.
    assert (Hy : In y (filter p l)) by (rewrite E; now left).
    apply filter_In in Hy. destruct Hy as [Hy Py].
    rewrite (H x (or_introl eq_refl) Px), <- (H y (or_intror Hy) Py).
    now apply in_map.
  - apply IH; [exact N'|]. intros y Hy. apply H. now right.
Qed.

Lemma attendance_rows_le_1 s u sh d st :
  NoDup (map Facts.attendance_key (attendance s)) ->
  List.length (Facts.attendance_rows s u sh d st) <= 1.
Proof.
  intros N. unfold Facts.attendance_rows.
  apply (@filter_length_le_1_key _ _ _ Facts.attendance_key (u, sh, d, st));
    [exact N|].
  intros r _ H. unfold Facts.attendance_key.
  rewrite !andb_true_iff, Nat.eqb_eq, !String.eqb_eq in H.
  destruct H as [[[-> ->] ->] H]. f_equal.
  now destruct (Attendance.status r), st.
Qed.

Lemma attendance_rows_keys s :
  (forall u sh d st, List.length (Facts.attendance_rows s u sh d st) <= 1) ->
  NoDup (map Facts.attendance_key (attendance s)).
Proof.
  unfold Facts.attendance_rows. induction (attendance s) as [|x l IH];
    intros H; [constructor|].
  cbn [map]. constructor.
  - intros I. apply in_map_iff in I. destruct I as (y & K & Hy).
    specialize (H (Attendance.user_id x) (Attendance.shift x)
                  (Attendance.date x) (Attendance.status x)).
    cbn [filter] in H.
    assert (T : forall r, Facts.attendance_key r = Facts.attendance_key x ->
      (Attendance.user_id r =? Attendance.user_id x)
      && String.eqb (Attendance.shift r) (Attendance.shift x)
      && String.eqb (Attendance.date r) (Attendance.date x)
      && Attendance.status_eqb (Attendance.status r) (Attendance.status x)
      = true).
    { intros r Kr. now apply same_attendance_key_iff. }
    rewrite (T x eq_refl) in H. cbn [List.length] in H.
    assert (F : In y (filter (fun r =>
      (Attendance.user_id r =? Attendance.user_id x)
      && String.eqb (Attendance.shift r) (Attendance.shift x)
      && String.eqb (Attendance.date r) (Attendance.date x)
      && Attendance.status_eqb (Attendance.status r) (Attendance.status x))
      l)) by (apply filter_In; auto).
    destruct (filter _ l); [destruct F|]. cbn [List.length] in H. lia.
  - apply IH. intros u sh d st. specialize (H u sh d st).
    cbn [filter] in H. destruct (_ && _) in H; cbn [List.length] in H; lia.
Qed.

(** X9 (the unique constraint of the attendance table with the handlers,
    [handleCheckIn] among them).  The handlers, run alone or interleaved
    request by request in any order, never leave a second attendance row
    for one student, shift, day and status: two check-ins of a student for
    one shift that race from two devices leave at most one present row. *)
Theorem attendance_rows_stay_unique s :
  (forall u sh d st, List.length (Facts.attendance_rows s u sh d st) <= 1) ->
  forall R1 R2 sched (t1 : Task R1) (t2 : Task R2) u sh d st,
    List.length
      (Facts.attendance_rows (snd (interleave sched t1 t2 s)) u sh d st) <= 1.
Proof.
  intros H R1 R2 sched t1 t2 u sh d st.
  apply attendance_rows_le_1.
  apply (invariant_interleave
           (fun s => NoDup (map Facts.attendance_key (attendance s)))
           attendance_keys_exec).
  now apply attendance_rows_keys.
Qed.

Lemma attendance_rows_stay_unique_witness :
  List.length
    (Facts.attendance_rows
       (snd (interleave [true; true; false; false; false; true]
               (AttendanceScreen.checkIn Scenario.in_window
                  Scenario.clock_morning 7 "morning")
               (AttendanceScreen.checkIn Scenario.in_window
                  Scenario.clock_morning 7 "morning")
               Scenario.one_student))
       7 "morning" "2025-01-10" Attendance.present) <= 1.
Proof.
  apply (@attendance_rows_stay_unique Scenario.one_student).
  intros u sh d st. simpl. lia.
Defined.

(** ** The attendance screen: which control a shift gets, and what it does *)

Lemma actionButtons_shift_status w shouldMarkAbsent formatAbsentMessage clock
  st sh :
  AttendanceView.actionButtons w clock st
    (AttendanceView.shift_status shouldMarkAbsent formatAbsentMessage clock
       st sh) =
  match AttendanceView.shiftAttendance st sh with
  | None =>
      if shouldMarkAbsent sh false clock then []
      else [AttendanceView.CheckInButton sh (negb (w sh clock))]
  | Some record =>
      if AttendanceScreen.is_set (Attendance.check_in_time record) then
        if AttendanceScreen.is_set (Attendance.check_out_time record)
        then [AttendanceView.CompletedLabel]
        else [AttendanceView.CheckOutButton (Attendance.id record) sh
                (negb (w sh clock))]
      else []
  end.
Proof.
  unfold AttendanceView.actionButtons, AttendanceView.shift_status,
    AttendanceView.isCheckedIn, AttendanceView.isCompleted,
    AttendanceView.isAbsent, AttendanceView.isShiftActive.
  destruct (AttendanceView.shiftAttendance st sh) as [r|] eqn:E.
  - destruct (Attendance.check_in_time r) as [ci|] eqn:Eci,
      (Attendance.check_out_time r) as [co|] eqn:Eco; cbn;
      try destruct (shouldMarkAbsent sh false clock); cbn;
      rewrite ?E, ?Eci, ?Eco; reflexivity.
  - cbn. destruct (shouldMarkAbsent sh false clock); cbn; rewrite E;
      reflexivity.
Qed.

(** X10 ([updateAttendanceStatus] and the action buttons of the attendance
    screen).  Each shift of the list gets at most one control, decided by
    the latest attendance row of the shift today: without a row, the Check
    In button unless the shift is marked absent; with an open row, the
    Check Out button for that row; with a closed row, the Completed label;
    and with a row that has no check-in time, such as a stored absence, no
    control at all. *)
Theorem one_control_per_shift w shouldMarkAbsent formatAbsentMessage clock
  st sh :
  AttendanceView.actionButtons w clock st
    (AttendanceView.shift_status shouldMarkAbsent formatAbsentMessage clock
       st sh) =
  match AttendanceView.shiftAttendance st sh with
  | None =>
      if shouldMarkAbsent sh false clock then []
      else [AttendanceView.CheckInButton sh (negb (w sh clock))]
  | Some record =>
      if AttendanceScreen.is_set (Attendance.check_in_time record) then
        if AttendanceScreen.is_set (Attendance.check_out_time record)
        then [AttendanceView.CompletedLabel]
        else [AttendanceView.CheckOutButton (Attendance.id record) sh
                (negb (w sh clock))]
      else []
  end.
Proof. apply actionButtons_shift_status. Qed.

Lemma attendance_fetchData_state clock u s :
  exists adm,
    run (AttendanceScreen.fetchData clock
           (AttendanceScreen.mkState (Some u) None [])) s =
    (AttendanceScreen.mkState (Some u) adm
       (order_desc Attendance.created_at
          (filter (fun r => (Attendance.user_id r =? u)
                            && String.eqb (Attendance.date r) (today clock))
             (attendance s))), s).
Proof. eexists. reflexivity. Qed.

Lemma find_none_weaken {A} (f g : A -> bool) l :
  (forall x, g x = true -> f x = true) ->
  find f l = None -> find g l = None.
Proof.
  intros H. induction l as [|x l IH]; [reflexivity|]. cbn.
  destruct (f x) eqn:F; [discriminate|].
  destruct (g x) eqn:G; [|exact IH].
  rewrite (H x G) in F. discriminate.
Qed.

Lemma In_order_desc {A} (key : A -> Z) x l :
  In x (order_desc key l) <-> In x l.
Proof.
  assert (I : forall y m, In x (insert_desc key y m) <-> x = y \/ In x m).
  { intros y m. induction m as [|z m IH]; cbn; [intuition auto|].
    destruct (key z <=? key y)%Z; cbn; [intuition auto|].
    rewrite IH. intuition auto. }
  induction l as [|y l IH]; cbn; [tauto|].
  rewrite I, IH. intuition auto.
Qed.

(** What the screen of student [u] holds when it has just loaded, and the
    entry of the status list for one of the shifts of the admission. *)
Lemma loaded_attendance_screen shouldMarkAbsent formatAbsentMessage clock u s
  st status :
  st = fst (run (AttendanceScreen.fetchData clock
                   (AttendanceScreen.mkState (Some u) None [])) s) ->
  In status
    (AttendanceView.updateAttendanceStatus shouldMarkAbsent
       formatAbsentMessage clock st []) ->
  exists a sh,
    st = AttendanceScreen.mkState (Some u) (Some a)
           (order_desc Attendance.created_at
              (filter (fun r => (Attendance.user_id r =? u)
                                && String.eqb (Attendance.date r)
                                     (today clock)) (attendance s)))
    /\ In sh (Admission.selected_shifts a)
    /\ status = AttendanceView.shift_status shouldMarkAbsent
                  formatAbsentMessage clock st sh.
Proof.
  intros E H. destruct (attendance_fetchData_state clock u s) as (adm & F).
  rewrite F in E. cbn [fst] in E.
  unfold AttendanceView.updateAttendanceStatus in H. rewrite E in H.
  cbn [AttendanceScreen.admission] in H.
  destruct adm as [a|]; [|destruct H].
  apply in_map_iff in H. destruct H as (sh & <- & H).
  exists a, sh. rewrite E. auto.
Qed.

(** X11 (the Check In button of the attendance screen with
    [handleCheckIn]).  On a screen that has just loaded, a Check In button
    that is shown and enabled always checks the student in: the answers
    'Invalid Time', 'Already Checked In' and 'Shift Completed' of the
    handler cannot be reached through the button, and for a shift the
    table accepts the press adds the row and answers 'Success'. *)
Theorem check_in_button_checks_in w shouldMarkAbsent formatAbsentMessage
  clock u s st status sh :
  st = fst (run (AttendanceScreen.fetchData clock
                   (AttendanceScreen.mkState (Some u) None [])) s) ->
  In status
    (AttendanceView.updateAttendanceStatus shouldMarkAbsent
       formatAbsentMessage clock st []) ->
  In (AttendanceView.CheckInButton sh false)
    (AttendanceView.actionButtons w clock st status) ->
  valid_shift sh = true ->
  run (AttendanceView.press w clock st
         (AttendanceView.CheckInButton sh false)) s =
  (Some AttendanceScreen.Success,
   Spec.add_attendance (Spec.check_in_row s clock u sh) s).
Proof.
  intros E H B V.
  destruct (@loaded_attendance_screen _ _ _ _ _ _ _ E H)
    as (a & sh' & Est & _ & ->).
  rewrite actionButtons_shift_status in B.
  destruct (AttendanceView.shiftAttendance st sh') as [r|] eqn:N.
  { destruct (AttendanceScreen.is_set (Attendance.check_in_time r));
      [|destruct B].
    destruct (AttendanceScreen.is_set (Attendance.check_out_time r));
      destruct B as [B|[]]; discriminate. }
  destruct (shouldMarkAbsent sh' false clock); [destruct B|].
  destruct B as [B|[]]. inversion B as [[B1 B2]]. subst sh'.
  apply negb_false_iff in B2.
  unfold AttendanceView.shiftAttendance in N.
  cbn [AttendanceView.press]. unfold AttendanceScreen.handleCheckIn.
  rewrite Est in N |- *.
  cbn [AttendanceScreen.user AttendanceScreen.admission
       AttendanceScreen.todayAttendance] in N |- *.
  rewrite B2. cbn [negb].
  rewrite (find_none_weaken _ _ _
             (fun x Hx => proj1 (andb_prop _ _ (proj1 (andb_prop _ _ Hx))))
             N).
  rewrite (find_none_weaken _ _ _
             (fun x Hx => proj1 (andb_prop _ _ (proj1 (andb_prop _ _ Hx))))
             N).
  assert (K : existsb (fun r => Db.same_attendance_key r
                                  (Spec.check_in_row s clock u sh))
                (attendance s) = false).
  { apply not_true_iff_false. intros K. apply existsb_exists in K.
    destruct K as (r & Hr & K). unfold Db.same_attendance_key in K.
    cbn in K. rewrite !andb_true_iff in K. destruct K as [[[K1 K2] K3] _].
    assert (F : find (fun record => String.eqb (Attendance.shift record) sh)
                  (order_desc Attendance.created_at
                     (filter (fun r => (Attendance.user_id r =? u)
                                       && String.eqb (Attendance.date r)
                                            (today clock)) (attendance s)))
                <> None).
    { intros F.
      assert (I : In r (order_desc Attendance.created_at
                          (filter (fun r => (Attendance.user_id r =? u)
                                            && String.eqb (Attendance.date r)
                                                 (today clock))
                             (attendance s)))).
      { apply In_order_desc, filter_In. split; [exact Hr|].
        now rewrite K1, K3. }
      pose proof (find_none _ _ F r I) as X. cbn in X. congruence. }
    contradiction. }
  cbn -[order_desc valid_shift Db.same_attendance_key
        AttendanceScreen.fetchData].
  unfold Db.insert_attendance.
  cbn -[order_desc valid_shift Db.same_attendance_key
        AttendanceScreen.fetchData].
  rewrite V. cbn -[order_desc Db.same_attendance_key
                   AttendanceScreen.fetchData].
  unfold Spec.check_in_row in K. unfold Db.new_attendance. cbn [
    Attendance.i_user_id Attendance.i_shift Attendance.i_check_in_time
    Attendance.i_date Attendance.i_status Attendance.i_reason].
  rewrite K. cbn -[order_desc AttendanceScreen.fetchData].
  rewrite run_bind.
  match goal with
  | |- context [run (AttendanceScreen.fetchData ?c ?t) ?x] =>
      pose proof (attendance_fetchData_store c t x) as F;
      destruct (run (AttendanceScreen.fetchData c t) x) as [st' s']
  end.
  simpl in F. subst s'. reflexivity.
Qed.

(** X12 (the Check Out button of the attendance screen with
    [handleCheckOut]).  On a screen that has just loaded, a Check Out button
    that is shown and enabled belongs to a row of the student for that shift
    and today that has a check-in time and no check-out time; pressing it
    sets the check-out time of the rows with that id to now, leaves the rest
    of the store as it was, and answers 'Success'. *)
Theorem check_out_button_closes_open_row w shouldMarkAbsent
  formatAbsentMessage clock u s st status rid sh :
  st = fst (run (AttendanceScreen.fetchData clock
                   (AttendanceScreen.mkState (Some u) None [])) s) ->
  In status
    (AttendanceView.updateAttendanceStatus shouldMarkAbsent
       formatAbsentMessage clock st []) ->
  In (AttendanceView.CheckOutButton rid sh false)
    (AttendanceView.actionButtons w clock st status) ->
  (exists r,
     In r (attendance s) /\ Attendance.id r = rid
     /\ Attendance.user_id r = u /\ Attendance.shift r = sh
     /\ Attendance.date r = today clock
     /\ Attendance.check_in_time r <> None
     /\ Attendance.check_out_time r = None)
  /\ run (AttendanceView.press w clock st
            (AttendanceView.CheckOutButton rid sh false)) s =
     (Some AttendanceScreen.Success,
      Facts.with_attendance (Facts.checked_out rid (now clock) s) s).
Proof.
  intros E H B.
  destruct (@loaded_attendance_screen _ _ _ _ _ _ _ E H)
    as (a & sh' & Est & _ & ->).
  rewrite actionButtons_shift_status in B.
  destruct (AttendanceView.shiftAttendance st sh') as [r|] eqn:N.
  2:{ destruct (shouldMarkAbsent sh' false clock); [destruct B|].
      destruct B as [B|[]]. discriminate. }
  destruct (Attendance.check_in_time r) as [ci|] eqn:Eci; [|destruct B].
  destruct (Attendance.check_out_time r) as [co|] eqn:Eco;
    destruct B as [B|[]]; [discriminate|].
  inversion B as [[B1 B2 B3]]. subst sh'. apply negb_false_iff in B3.
  unfold AttendanceView.shiftAttendance in N. rewrite Est in N.
  cbn [AttendanceScreen.todayAttendance] in N.
  apply find_some in N. destruct N as [I Sh].
  apply In_order_desc, filter_In in I. destruct I as [I K].
  apply andb_prop in K. destruct K as [K1 K2].
  apply Nat.eqb_eq in K1. apply String.eqb_eq in K2, Sh.
  split.
  - exists r. rewrite Eci. repeat split; auto. discriminate.
  - cbn [AttendanceView.press]. unfold AttendanceScreen.handleCheckOut.
    rewrite Est. cbn [AttendanceScreen.user]. rewrite B3. cbn [negb].
    cbn -[AttendanceScreen.fetchData]. rewrite run_bind.
    match goal with
    | |- context [run (AttendanceScreen.fetchData ?c ?t) ?x] =>
        pose proof (attendance_fetchData_store c t x) as F;
        destruct (run (AttendanceScreen.fetchData c t) x) as [st' s']
    end.
    simpl in F. subst s'. reflexivity.
Qed.

Lemma check_in_button_checks_in_witness :
  run (AttendanceView.press Scenario.in_window Scenario.clock_morning
         Examples.screen_at_eight
         (AttendanceView.CheckInButton "morning" false))
    Scenario.one_student =
  (Some AttendanceScreen.Success,
   Spec.add_attendance
     (Spec.check_in_row Scenario.one_student Scenario.clock_morning 7
        "morning") Scenario.one_student).
Proof.
  apply (@check_in_button_checks_in Scenario.in_window
           Examples.shouldMarkAbsent Examples.formatAbsentMessage
           Scenario.clock_morning 7 Scenario.one_student
           Examples.screen_at_eight
           (AttendanceView.shift_status Examples.shouldMarkAbsent
              Examples.formatAbsentMessage Scenario.clock_morning
              Examples.screen_at_eight "morning") "morning" eq_refl).
  - left. reflexivity.
  - left. reflexivity.
  - reflexivity.
Defined.

Lemma check_out_button_closes_open_row_witness :
  (exists r,
     In r (attendance Scenario.checked_in_store) /\ Attendance.id r = 2
     /\ Attendance.user_id r = 7 /\ Attendance.shift r = "morning"%string
     /\ Attendance.date r = "2025-01-10"%string
     /\ Attendance.check_in_time r <> None
     /\ Attendance.check_out_time r = None)
  /\ run (AttendanceView.press Scenario.in_window Scenario.clock_ten
            Examples.screen_at_ten
            (AttendanceView.CheckOutButton 2 "morning" false))
       Scenario.checked_in_store =
     (Some AttendanceScreen.Success, Scenario.checked_out_store).
Proof.
  apply (@check_out_button_closes_open_row Scenario.in_window
           Examples.shouldMarkAbsent Examples.formatAbsentMessage
           Scenario.clock_ten 7 Scenario.checked_in_store
           Examples.screen_at_ten
           (AttendanceView.shift_status Examples.shouldMarkAbsent
              Examples.formatAbsentMessage Scenario.clock_ten
              Examples.screen_at_ten "morning") 2 "morning" eq_refl).
  - left. reflexivity.
  - left. reflexivity.
Defined.

(** ** The booking screen: the seat grid *)

Lemma existsb_length_filter {A} (p : A -> bool) l :
  (0 <? List.length (filter p l)) = existsb p l.
Proof.
  induction l as [|x l IH]; [reflexivity|]. cbn.
  destruct (p x); [reflexivity|exact IH].
Qed.

Lemma booking_fetchData_lists clock u adm sel seat0 sb ub pc s :
  let st := fst (run (BookingScreen.fetchData clock
                        (BookingScreen.mkState (Some u) adm sel seat0 sb ub
                           pc)) s) in
  BookingScreen.seatBookings st =
  filter (fun b => String.eqb (SeatBooking.booking_date b) (today clock)
                   && SeatBooking.is_booked b) (seat_bookings s)
  /\ BookingScreen.userBookings st =
     filter (fun booking => SeatBooking.user_id booking =? u)
       (filter (fun b => String.eqb (SeatBooking.booking_date b) (today clock)
                         && SeatBooking.is_booked b) (seat_bookings s))
  /\ BookingScreen.selectedSeat st = seat0
  /\ BookingScreen.user st = Some u.
Proof. cbn. auto. Qed.

(** X13 ([isSeatBooked], [isUserSeat], [hasUserBookedShift] and
    [getUserSeatForShift] of the booking screen, after [fetchData]).  On a
    screen that has loaded, a seat is shown as booked exactly when the table
    holds a booked row for it today; a seat shown as the student's own is
    also shown as booked; the student counts as having booked a shift
    exactly when the table holds a booked row of theirs for it today; and
    the seat named for a booked shift is one of the student's own. *)
Theorem seat_helpers_agree clock u adm sel seat0 sb ub pc s seat sh :
  let st := fst (run (BookingScreen.fetchData clock
                        (BookingScreen.mkState (Some u) adm sel seat0 sb ub
                           pc)) s) in
  BookingSeats.isSeatBooked st seat sh =
  (0 <? Spec.booked_rows (seat_bookings s) sh seat (today clock))
  /\ (BookingSeats.isUserSeat st seat sh = true ->
      BookingSeats.isSeatBooked st seat sh = true
      /\ BookingSeats.hasUserBookedShift st sh = true)
  /\ BookingSeats.hasUserBookedShift st sh =
     Spec.holds_booked s u sh (today clock)
  /\ (BookingSeats.getUserSeatForShift st sh = None <->
      BookingSeats.hasUserBookedShift st sh = false)
  /\ (forall x, BookingSeats.getUserSeatForShift st sh = Some x ->
                BookingSeats.isUserSeat st x sh = true).
Proof.
  intros st.
  pose proof (booking_fetchData_lists clock u adm sel seat0 sb ub pc s) as L.
  cbv zeta in L. destruct L as (Esb & Eub & _). fold st in Esb, Eub.
  unfold BookingSeats.isSeatBooked, BookingSeats.isUserSeat,
    BookingSeats.hasUserBookedShift, BookingSeats.getUserSeatForShift.
  rewrite Esb, Eub. clear Esb Eub st.
  split; [|split; [|split; [|split]]].
  - unfold Spec.booked_rows. rewrite existsb_length_filter, existsb_filter.
    apply existsb_ext. intros b. unfold SeatBooking.at_seat.
    destruct (String.eqb (SeatBooking.booking_date b) (today clock)),
      (SeatBooking.is_booked b),
      (String.eqb (SeatBooking.seat_number b) seat),
      (String.eqb (SeatBooking.shift b) sh); reflexivity.
  - rewrite !existsb_filter. intros H. apply existsb_exists in H.
    destruct H as (b & Hb & H). rewrite !andb_true_iff in H.
    destruct H as [[H1 H2] [H3 [[H4 H5] H6]]].
    split; apply existsb_exists; exists b; (split; [exact Hb|]);
      now rewrite ?H1, ?H2, ?H3, ?H4, ?H5, ?H6.
  - rewrite <- snapshot_booked. now rewrite find_existsb.
  - rewrite <- find_existsb. destruct (find _ _); split; congruence.
  - intros x H. destruct (find _ _) as [b|] eqn:F; [|discriminate].
    inversion H; subst x. apply find_some in F. destruct F as [Hb Sh].
    apply existsb_exists. exists b. split; [exact Hb|].
    apply filter_In in Hb. destruct Hb as [Hb _].
    apply filter_In in Hb. destruct Hb as [_ Hb].
    apply andb_prop in Hb. destruct Hb as [_ Hb].
    now rewrite String.eqb_refl, Sh, Hb.
Qed.

Lemma seat_helpers_agree_witness :
  let st := fst (run (BookingScreen.fetchData Scenario.clock_noon
                        (BookingScreen.mkState (Some 1) None "" "" [] [] []))
                   Scenario.first_approved) in
  BookingSeats.isUserSeat st "A12" "morning" = true
  /\ BookingSeats.isSeatBooked st "A12" "morning" = true
  /\ BookingSeats.hasUserBookedShift st "morning" = true
  /\ BookingSeats.getUserSeatForShift st "morning" = Some "A12"%string.
Proof.
  pose proof (@seat_helpers_agree Scenario.clock_noon 1 None ""%string
                ""%string [] [] [] Scenario.first_approved "A12"%string
                "morning"%string) as H.
  cbv zeta in H. destruct H as (_ & H & _).
  split; [reflexivity|]. split; [|split]; [apply H|apply H|]; reflexivity.
Defined.

Lemma find_existsb_none {A} (f : A -> bool) l :
  existsb f l = false -> find f l = None.
Proof.
  intros H. rewrite <- find_existsb in H. now destruct (find f l).
Qed.

Lemma isUserSeat_hasUserBookedShift st n sh :
  BookingSeats.hasUserBookedShift st sh = false ->
  BookingSeats.isUserSeat st n sh = false.
Proof.
  unfold BookingSeats.hasUserBookedShift, BookingSeats.isUserSeat.
  intros H. apply not_true_iff_false. intros K.
  apply existsb_exists in K. destruct K as (b & Hb & K).
  rewrite !andb_true_iff in K. destruct K as [[_ K] _].
  apply not_true_iff_false in H. apply H.
  apply existsb_exists. now exists b.
Qed.

Lemma pressSeat_enabled st n :
  BookingSeats.seatDisabled st n = false ->
  BookingSeats.pressSeat st n =
  (None, BookingSeats.setSelectedSeat st
           (if String.eqb (BookingScreen.selectedSeat st) n
            then ""%string else n)).
Proof.
  intros D. unfold BookingSeats.pressSeat. rewrite D.
  unfold BookingSeats.seatDisabled in D. apply orb_false_iff in D.
  destruct D as [D1 D2]. unfold BookingSeats.seatOnPress.
  now rewrite D2, D1, (isUserSeat_hasUserBookedShift _ _ _ D2).
Qed.

(** X14 (the seat grid and the submit button of the booking screen with
    [handleSeatBooking]).  Pressing a seat never raises the 'Already Booked'
    alert of its [onPress], since the seat is disabled whenever the student
    has booked the shift: a disabled seat does nothing, and any other seat
    becomes the selected one, or is deselected if it was selected.  Pressing
    an enabled seat twice gives back the screen as it was, provided no other
    seat was selected.  And when the submit button is shown,
    [handleSeatBooking] does not answer 'Already Booked' either: it is
    [handleDirectBooking]. *)
Theorem seat_grid_offers_free_seats_only st n :
  BookingSeats.pressSeat st n =
  (None,
   if BookingSeats.seatDisabled st n then st
   else BookingSeats.setSelectedSeat st
          (if String.eqb (BookingScreen.selectedSeat st) n
           then ""%string else n))
  /\ (BookingSeats.seatDisabled st n = false ->
      BookingScreen.selectedSeat st = ""%string
      \/ BookingScreen.selectedSeat st = n ->
      snd (BookingSeats.pressSeat (snd (BookingSeats.pressSeat st n)) n) = st)
  /\ (BookingSeats.submitShown st = true ->
      forall clock,
        BookingScreen.handleSeatBooking clock st =
        BookingScreen.handleDirectBooking clock st).
Proof.
  split; [|split].
  - destruct (BookingSeats.seatDisabled st n) eqn:D.
    + unfold BookingSeats.pressSeat. now rewrite D.
    + now apply pressSeat_enabled.
  - intros D H. rewrite (pressSeat_enabled _ _ D). cbn [snd].
    rewrite pressSeat_enabled by exact D. cbn [snd].
    destruct st as [u a sh seat sb ub pc].
    unfold BookingSeats.setSelectedSeat. cbn in *. f_equal.
    destruct H as [->| ->].
    + destruct (String.eqb "" n) eqn:E.
      * apply String.eqb_eq in E. subst n. reflexivity.
      * now rewrite String.eqb_refl.
    + rewrite String.eqb_refl. destruct (String.eqb "" n) eqn:E.
      * now apply String.eqb_eq in E.
      * reflexivity.
  - intros S clock. unfold BookingSeats.submitShown in S.
    rewrite !andb_true_iff in S. destruct S as [S1 [S2 S3]].
    apply negb_true_iff in S3.
    unfold BookingScreen.handleSeatBooking, BookingScreen.handleDirectBooking.
    destruct (BookingScreen.user st); [|reflexivity].
    rewrite S1, S2. cbn [negb orb].
    unfold BookingSeats.hasUserBookedShift in S3.
    now rewrite (find_existsb_none _ _ S3).
Qed.

Lemma seat_grid_offers_free_seats_only_witness :
  let st := BookingSeats.pressShift
              (fst (run (BookingScreen.fetchData Scenario.clock_noon
                           (BookingScreen.mkState (Some 2) None "" "" [] []
                              [])) Scenario.first_approved)) "morning" in
  snd (BookingSeats.pressSeat (snd (BookingSeats.pressSeat st "A13")) "A13") =
  st
  /\ BookingScreen.handleSeatBooking Scenario.clock_noon
       (snd (BookingSeats.pressSeat st "A13")) =
     BookingScreen.handleDirectBooking Scenario.clock_noon
       (snd (BookingSeats.pressSeat st "A13")).
Proof.
  cbv zeta. split.
  - apply (proj1 (proj2 (seat_grid_offers_free_seats_only _ "A13")));
      [reflexivity|left; reflexivity].
  - apply (proj2 (proj2 (seat_grid_offers_free_seats_only _ "A13"))).
    reflexivity.
Defined.

(** ** The admission form *)

Lemma existsb_eqb_In x l :
  existsb (String.eqb x) l = true <-> In x l.
Proof.
  rewrite existsb_exists. split.
  - intros (y & Hy & E). apply String.eqb_eq in E. now subst y.
  - intros H. exists x. split; [exact H|apply String.eqb_refl].
Qed.

Lemma toggleShift_NoDup x f :
  NoDup (AdmissionScreen.selectedShifts f) ->
  NoDup (AdmissionScreen.selectedShifts (AdmissionScreen.toggleShift x f)).
Proof.
  intros N. unfold AdmissionScreen.toggleShift.
  cbn [AdmissionScreen.selectedShifts].
  destruct (existsb _ _) eqn:E.
  - now apply NoDup_filter.
  - apply NoDup_app; [exact N|repeat constructor; intros []|].
    intros y Hy [<-|[]]. apply existsb_eqb_In in Hy. congruence.
Qed.

(** X15 ([toggleShift] of the admission form).  Toggling a shift flips
    whether that shift is selected and leaves every other shift as it was;
    it never selects a shift twice, so whatever the student presses, a form
    that started empty holds each shift at most once. *)
Theorem toggleShift_flips_one_shift x f :
  (In x (AdmissionScreen.selectedShifts (AdmissionScreen.toggleShift x f)) <->
   ~ In x (AdmissionScreen.selectedShifts f))
  /\ (forall y,
        y <> x ->
        (In y (AdmissionScreen.selectedShifts
                 (AdmissionScreen.toggleShift x f)) <->
         In y (AdmissionScreen.selectedShifts f)))
  /\ (NoDup (AdmissionScreen.selectedShifts f) ->
      NoDup (AdmissionScreen.selectedShifts (AdmissionScreen.toggleShift x f)))
  /\ (forall presses,
        NoDup (AdmissionScreen.selectedShifts
                 (fold_left (fun g y => AdmissionScreen.toggleShift y g)
                    presses AdmissionScreen.initialForm))).
Proof.
  split; [|split; [|split]].
  - unfold AdmissionScreen.toggleShift. cbn [AdmissionScreen.selectedShifts].
    destruct (existsb _ _) eqn:E.
    + apply existsb_eqb_In in E. rewrite filter_In, String.eqb_refl.
      cbn. intuition discriminate.
    + rewrite in_app_iff. cbn. split; [|auto].
      intros _ H. apply existsb_eqb_In in H. congruence.
  - intros y Hy. unfold AdmissionScreen.toggleShift.
    cbn [AdmissionScreen.selectedShifts].
    destruct (existsb _ _).
    + rewrite filter_In. apply String.eqb_neq in Hy. rewrite Hy. cbn. tauto.
    + rewrite in_app_iff. cbn. intuition congruence.
  - apply toggleShift_NoDup.
  - intros presses.
    assert (G : forall g, NoDup (AdmissionScreen.selectedShifts g) ->
              NoDup (AdmissionScreen.selectedShifts
                       (fold_left (fun g y => AdmissionScreen.toggleShift y g)
                          presses g))).
    { induction presses as [|y l IH]; intros g Hg; [exact Hg|].
      cbn [fold_left]. apply IH. now apply toggleShift_NoDup. }
    apply G. constructor.
Qed.

Lemma toggleShift_flips_one_shift_witness :
  let f := AdmissionScreen.toggleShift "noon"
             (AdmissionScreen.toggleShift "morning"
                AdmissionScreen.initialForm) in
  AdmissionScreen.selectedShifts f = ["morning"; "noon"]%string
  /\ AdmissionScreen.selectedShifts (AdmissionScreen.toggleShift "morning" f)
     = ["noon"]%string
  /\ NoDup (AdmissionScreen.selectedShifts
              (AdmissionScreen.toggleShift "morning" f)).
Proof.
  cbv zeta. split; [reflexivity|]. split; [reflexivity|].
  apply toggleShift_flips_one_shift.
  repeat constructor; simpl; intuition discriminate.
Defined.

Lemma truthy_false_iff x : truthy x = false <-> x = ""%string.
Proof.
  unfold truthy. rewrite negb_false_iff. apply String.eqb_eq.
Qed.

Lemma handleSubmit_validation f :
  negb (truthy (AdmissionScreen.name f))
  || negb (truthy (AdmissionScreen.age f))
  || negb (truthy (AdmissionScreen.contactNumber f))
  || negb (truthy (AdmissionScreen.fullAddress f))
  || negb (truthy (AdmissionScreen.email f))
  || negb (truthy (AdmissionScreen.courseName f))
  || negb (truthy (AdmissionScreen.fatherName f))
  || negb (truthy (AdmissionScreen.fatherContact f))
  || (List.length (AdmissionScreen.selectedShifts f) =? 0) = true <->
  AdmissionFacts.incomplete f.
Proof.
  unfold AdmissionFacts.incomplete.
  rewrite !orb_true_iff, !negb_true_iff, !truthy_false_iff, Nat.eqb_eq,
    length_zero_iff_nil. tauto.
Qed.

(** X16 ([handleSubmit] of the admission form with the constraints of the
    admissions table).  A form with an empty required field or without a
    shift is turned down with 'Please fill in all required fields' and
    nothing is stored; the second message, 'Please select at least one
    shift', can never appear.  A submission goes through exactly when the
    form is complete, the age reads as a number between 1 and 149 and the
    duration as 1, 3 or 6; it then adds one pending admission with a
    registration fee of 50 and a total of the shift fee plus 50, and in
    every other case the store is left as it was. *)
Theorem handleSubmit_outcomes parseInt calculateShiftFee clock u f s :
  let out := AdmissionScreen.handleSubmit parseInt calculateShiftFee clock
               (Some u) f s in
  let accepted a d :=
    parseInt (AdmissionScreen.age f) = Some a /\ (0 < a < 150)%Z
    /\ parseInt (AdmissionScreen.duration f) = Some d
    /\ (d = 1 \/ d = 3 \/ d = 6)%Z in
  (AdmissionFacts.incomplete f -> out = (AdmissionScreen.FillAllFields, s))
  /\ fst out <> AdmissionScreen.SelectAShift
  /\ (fst out <> AdmissionScreen.GoToPayment -> snd out = s)
  /\ (forall a d,
        ~ AdmissionFacts.incomplete f -> accepted a d ->
        out = (AdmissionScreen.GoToPayment,
               Facts.add_admission
                 (AdmissionFacts.submitted_row s clock u f a d
                    (calculateShiftFee (AdmissionScreen.selectedShifts f)))
                 s))
  /\ (fst out = AdmissionScreen.GoToPayment ->
      ~ AdmissionFacts.incomplete f /\ exists a d, accepted a d).
Proof.
  intros out accepted. subst out accepted.
  unfold AdmissionScreen.handleSubmit.
  pose proof (handleSubmit_validation f) as V.
  destruct (_ || _) eqn:E.
  - cbn [fst snd]. repeat split; try discriminate.
    intros a d N. exfalso. apply N, V. reflexivity.
  - assert (N : ~ AdmissionFacts.incomplete f)
      by (intros I; apply V in I; discriminate).
    assert (L : (List.length (AdmissionScreen.selectedShifts f) =? 0) = false).
    { apply orb_false_iff in E. tauto. }
    rewrite L. unfold AdmissionDb.insert_admission.
    cbn [AdmissionDb.i_age AdmissionDb.i_duration].
    split; [tauto|].
    destruct (parseInt (AdmissionScreen.age f)) as [a|] eqn:Pa.
    2:{ cbn. repeat split; try discriminate; try tauto.
        intros a d _ (Q & _). discriminate. }
    destruct (parseInt (AdmissionScreen.duration f)) as [d|] eqn:Pd.
    2:{ cbn. repeat split; try discriminate; try tauto.
        intros a' d _ (_ & _ & Q & _). discriminate. }
    destruct ((0 <? a)%Z && (a <? 150)%Z) eqn:Ra; cbn [negb].
    2:{ cbn. repeat split; try discriminate; try tauto.
        intros a' d' _ (Q & R & _). inversion Q; subst a'.
        apply andb_false_iff in Ra. rewrite !Z.ltb_ge in Ra. lia. }
    apply andb_prop in Ra. rewrite !Z.ltb_lt in Ra.
    destruct (existsb (Z.eqb d) [1; 3; 6]%Z) eqn:Rd; cbn [negb].
    2:{ cbn. repeat split; try discriminate; try tauto.
        intros a' d' _ (_ & _ & Q & R). inversion Q; subst d'.
        cbn in Rd. rewrite !orb_false_iff, !Z.eqb_neq in Rd. lia. }
    cbn [existsb] in Rd. rewrite !orb_true_iff, !Z.eqb_eq in Rd.
    cbn [fst snd]. repeat split; try discriminate; try tauto.
    + intros a' d' _ (Q1 & _ & Q2 & _). inversion Q1; inversion Q2; subst.
      reflexivity.
    + exists a, d. repeat split; try tauto; try lia.
Qed.

Lemma handleSubmit_outcomes_witness :
  AdmissionScreen.handleSubmit Examples.parseInt Examples.calculateShiftFee
    Scenario.clock_morning (Some 9) Examples.cara_form Scenario.enrolled =
  (AdmissionScreen.GoToPayment,
   Facts.add_admission
     (Admission.mk 3 9 "Cara" 20 "9000000005" "7 Mill Lane"
        "cara@example.org" "Banking" "Dev" "9000000006" 3
        ["morning"; "noon"]%string 50 648 698 Admission.pending None None
        None 1736496000000) Scenario.enrolled)
  /\ AdmissionScreen.handleSubmit Examples.parseInt Examples.calculateShiftFee
       Scenario.clock_morning (Some 9)
       (AdmissionScreen.toggleShift "noon"
          (AdmissionScreen.toggleShift "morning" Examples.cara_form))
       Scenario.enrolled =
     (AdmissionScreen.FillAllFields, Scenario.enrolled).
Proof.
  split.
  - apply (proj1 (proj2 (proj2 (proj2
      (@handleSubmit_outcomes Examples.parseInt Examples.calculateShiftFee
         Scenario.clock_morning 9 Examples.cara_form Scenario.enrolled))))
      20%Z 3%Z).
    + unfold AdmissionFacts.incomplete. cbn.
      intuition discriminate.
    + cbn. repeat split; auto; lia.
  - apply (@handleSubmit_outcomes Examples.parseInt
             Examples.calculateShiftFee Scenario.clock_morning 9).
    unfold AdmissionFacts.incomplete. cbn. tauto.
Defined.

(** Whatever its outcome, [handleSubmit] leaves the store as it was or adds
    one pending admission. *)
Lemma handleSubmit_store parseInt calculateShiftFee clock user f s :
  snd (AdmissionScreen.handleSubmit parseInt calculateShiftFee clock user f s)
  = s
  \/ exists a,
       Admission.payment_status a = Admission.pending
       /\ snd (AdmissionScreen.handleSubmit parseInt calculateShiftFee clock
                 user f s) = Facts.add_admission a s.
Proof.
  unfold AdmissionScreen.handleSubmit.
  destruct user as [u|]; [|now left].
  destruct (_ || _); [now left|].
  destruct (_ =? _); [now left|].
  unfold AdmissionDb.insert_admission.
  cbn [AdmissionDb.i_age AdmissionDb.i_duration].
  destruct (parseInt (AdmissionScreen.age f)); [|now left].
  destruct (parseInt (AdmissionScreen.duration f)); [|now left].
  destruct (negb _); [now left|].
  destruct (negb _); [now left|].
  right. eexists. split; [|reflexivity]. reflexivity.
Qed.

(** X17 ([handleSubmit] of the admission form with [POST] of
    app/+api/check-absent-students.ts).  Submitting the admission form never
    changes what the absence detector answers: a new admission is pending,
    and the detector reads paid admissions only. *)
Theorem new_admission_is_not_reported parseInt calculateShiftFee clock user f
  s clock' request :
  fst (run (Api.POST clock' request)
         (snd (AdmissionScreen.handleSubmit parseInt calculateShiftFee clock
                 user f s))) =
  fst (run (Api.POST clock' request) s).
Proof.
  destruct (handleSubmit_store parseInt calculateShiftFee clock user f s)
    as [->|(a & P & ->)]; [reflexivity|].
  destruct request as [[body|]]; [|reflexivity].
  rewrite !POST_run. cbn [fst]. f_equal.
  assert (E : forall d h,
            Spec.absent_entries (Facts.add_admission a s) d h =
            Spec.absent_entries s d h).
  { intros d h. unfold Spec.absent_entries, Spec.enrolled_pairs,
      Facts.add_admission. cbn [admissions].
    rewrite filter_app. cbn [filter].
    unfold Admission.is_paid at 2. rewrite P, app_nil_r. reflexivity. }
  unfold Spec.report. now rewrite E.
Qed.

Lemma handleSubmit_accepted parseInt calculateShiftFee clock u f s :
  fst (AdmissionScreen.handleSubmit parseInt calculateShiftFee clock (Some u)
         f s) = AdmissionScreen.GoToPayment ->
  exists a d,
    snd (AdmissionScreen.handleSubmit parseInt calculateShiftFee clock
           (Some u) f s) =
    Facts.add_admission
      (AdmissionFacts.submitted_row s clock u f a d
         (calculateShiftFee (AdmissionScreen.selectedShifts f))) s.
Proof.
  unfold AdmissionScreen.handleSubmit.
  destruct (_ || _); [discriminate|].
  destruct (_ =? _); [discriminate|].
  unfold AdmissionDb.insert_admission.
  cbn [AdmissionDb.i_age AdmissionDb.i_duration].
  destruct (parseInt (AdmissionScreen.age f)) as [a|]; [|discriminate].
  destruct (parseInt (AdmissionScreen.duration f)) as [d|]; [|discriminate].
  destruct (negb _); [discriminate|].
  destruct (negb _); [discriminate|].
  intros _. exists a, d. reflexivity.
Qed.

Lemma order_desc_latest {A} (key : A -> Z) l x :
  (forall y, In y l -> (key y < key x)%Z) ->
  order_desc key (l ++ [x]) = x :: order_desc key l.
Proof.
  unfold order_desc. rewrite fold_right_app. cbn [fold_right insert_desc].
  induction l as [|y l IH]; intros H; [reflexivity|].
  cbn [fold_right]. rewrite IH by (intros z Hz; apply H; now right).
  cbn [insert_desc].
  destruct (key x <=? key y)%Z eqn:E; [|reflexivity].
  apply Z.leb_le in E. specialize (H y (or_introl eq_refl)). lia.
Qed.

(** X18 ([handleSubmit] of the admission form with [fetchAdmission] and
    [confirmCashPayment] of the payment screen).  After a submission that
    went through, the payment screen of the student shows the new admission
    (it is their latest), and a cash payment request made there is filed
    for that admission with the amount the form computed: the shift fee
    plus 50. *)
Theorem admission_fee_reaches_the_payment_request parseInt calculateShiftFee
  clock u f s clock' :
  fst (AdmissionScreen.handleSubmit parseInt calculateShiftFee clock (Some u)
         f s) = AdmissionScreen.GoToPayment ->
  (forall a, In a (admissions s) -> Admission.user_id a = u ->
             (Admission.created_at a < now clock)%Z) ->
  (forall c, In c (cash_payments s) ->
             CashPayment.admission_id c <> Some (next_id s)) ->
  (0 < calculateShiftFee (AdmissionScreen.selectedShifts f) + 50)%Z ->
  let s1 := snd (AdmissionScreen.handleSubmit parseInt calculateShiftFee
                   clock (Some u) f s) in
  let out := run (PaymentScreen.submitCashPayment clock' u) s1 in
  fst out = Some PaymentScreen.CashPaymentSubmitted
  /\ cash_payments (snd out) =
     (cash_payments s
      ++ [CashPayment.mk (S (next_id s)) u None (Some (next_id s))
            (calculateShiftFee (AdmissionScreen.selectedShifts f) + 50)
            CashPayment.pending None None None (now clock')])%list.
Proof.
  intros G Hlate Hfresh Hpos s1 out. subst out s1.
  destruct (handleSubmit_accepted _ _ _ _ _ _ G) as (a & d & ->).
  set (fee := calculateShiftFee (AdmissionScreen.selectedShifts f)) in *.
  set (row := AdmissionFacts.submitted_row s clock u f a d fee).
  unfold PaymentScreen.submitCashPayment. rewrite run_bind.
  unfold PaymentScreen.fetchAdmission. cbn [PaymentScreen.user].
  cbn -[order_desc maybeSingle row PaymentScreen.confirmCashPayment
        Db.select_pending_cash_for_admission].
  rewrite filter_app. cbn [filter].
  replace (Admission.user_id row =? u) with true
    by (symmetry; apply Nat.eqb_refl).
  rewrite order_desc_latest.
  2:{ intros y Hy. apply filter_In in Hy. destruct Hy as [Hy Uy].
      apply Nat.eqb_eq in Uy. exact (Hlate y Hy Uy). }
  cbn [firstn].
  assert (P : forall s0, cash_payments s0 = cash_payments s ->
            Db.select_pending_cash_for_admission u (Admission.id row) s0
            = ([], s0)).
  { intros s0 E. unfold Db.select_pending_cash_for_admission. f_equal.
    rewrite E. clear E.
    induction (cash_payments s) as [|c l IH]; [reflexivity|].
    cbn [filter].
    rewrite IH by (intros c' Hc'; apply Hfresh; now right).
    specialize (Hfresh c (or_introl eq_refl)).
    destruct (CashPayment.admission_id c) as [x|];
      [|now rewrite andb_false_r].
    destruct (x =? Admission.id row) eqn:E.
    - apply Nat.eqb_eq in E. cbn in E. congruence.
    - now rewrite andb_false_r. }
  cbn -[row maybeSingle PaymentScreen.confirmCashPayment
        Db.select_pending_cash_for_admission].
  rewrite P by reflexivity. cbn [maybeSingle run].
  unfold PaymentScreen.confirmCashPayment.
  cbn [PaymentScreen.admission PaymentScreen.user
       PaymentScreen.existingCashPayment].
  cbn -[row maybeSingle Db.select_pending_cash_for_admission
        Db.insert_cash_payment Db.update_admission_status].
  rewrite P by reflexivity. cbn [maybeSingle].
  cbn -[row Db.insert_cash_payment Db.update_admission_status].
  unfold Db.insert_cash_payment.
  cbn -[row Db.update_admission_status Z.leb Z.add].
  match goal with
  | |- context [(?x <=? 0)%Z] =>
      destruct (x <=? 0)%Z eqn:E;
        [apply Z.leb_le in E; subst row fee; cbn in E, Hpos; lia|]
  end.
  cbn. split; reflexivity.
Qed.

Lemma admission_fee_reaches_the_payment_request_witness :
  let out := run (PaymentScreen.submitCashPayment Scenario.clock_noon 9)
               Examples.cara_enrolled in
  fst out = Some PaymentScreen.CashPaymentSubmitted
  /\ cash_payments (snd out) =
     [CashPayment.mk 4 9 None (Some 3) 698 CashPayment.pending None None None
        1736510400000].
Proof.
  apply (@admission_fee_reaches_the_payment_request Examples.parseInt
           Examples.calculateShiftFee Scenario.clock_morning 9
           Examples.cara_form Scenario.enrolled Scenario.clock_noon).
  - reflexivity.
  - intros a [<-|[<-|[]]]; discriminate.
  - intros c [].
  - reflexivity.
Defined.

(** ** Paying by QR code *)

Lemma fetchAdmission_store st s :
  snd (run (PaymentScreen.fetchAdmission st) s) = s.
Proof.
  unfold PaymentScreen.fetchAdmission.
  destruct (PaymentScreen.user st) as [u|]; [|reflexivity].
  cbn -[order_desc maybeSingle firstn].
  destruct (firstn 1 _) as [|a l]; [reflexivity|].
  cbn -[maybeSingle]. destruct (maybeSingle _); reflexivity.
Qed.

Lemma fetchAdmission_user u s :
  PaymentScreen.user
    (fst (run (PaymentScreen.fetchAdmission
                 (PaymentScreen.mkState (Some u) None None)) s)) = Some u.
Proof.
  unfold PaymentScreen.fetchAdmission. cbn -[order_desc maybeSingle firstn].
  destruct (firstn 1 _) as [|a l]; [reflexivity|].
  cbn -[maybeSingle]. destruct (maybeSingle _); reflexivity.
Qed.

(** X19 ([confirmPayment] of the payment screen).  A student who confirms
    a payment by QR code makes the admission their screen shows paid from
    now until now plus its duration, whatever else is on record: no request
    to an admin is involved, the cash payment requests are left as they
    are, and the answer is 'Payment Confirmed!' whether or not the
    payment-history row could be written. *)
Theorem qr_confirmation_activates_admission addMonthsToDate clock u s st a :
  st = fst (run (PaymentScreen.fetchAdmission
                   (PaymentScreen.mkState (Some u) None None)) s) ->
  PaymentScreen.admission st = Some a ->
  let out := run (QrPayment.confirmPayment addMonthsToDate clock st) s in
  fst out = Some QrPayment.PaymentConfirmed
  /\ admissions (snd out) =
     map (fun x => if Admission.id x =? Admission.id a
                   then Admission.set_paid (now clock) (now clock)
                          (addMonthsToDate (now clock) (Admission.duration a))
                          x
                   else x) (admissions s)
  /\ cash_payments (snd out) = cash_payments s
  /\ seat_bookings (snd out) = seat_bookings s
  /\ (payment_history (snd out) = payment_history s
      \/ payment_history (snd out) =
         (payment_history s
          ++ [PaymentHistory.mk (next_id s) u (Admission.total_amount a)
                "upi" (Admission.duration a) (now clock) (now clock)])%list).
Proof.
  intros E A out. subst out. unfold QrPayment.confirmPayment.
  rewrite A. pose proof (fetchAdmission_user u s) as U. rewrite <- E in U.
  rewrite U. cbn -[Db.insert_payment_history].
  unfold Db.insert_payment_history.
  cbn [admissions payment_history cash_payments with_admissions next_id
       seat_bookings].
  destruct (_ <=? _)%Z; [cbn; auto 6|].
  destruct (negb _); [cbn; auto 6|].
  destruct (existsb _ _); cbn; auto 6.
Qed.

Lemma qr_confirmation_activates_admission_witness :
  let st := fst (run (PaymentScreen.fetchAdmission
                        (PaymentScreen.mkState (Some 8) None None))
                   Scenario.cash_submitted) in
  let out := run (QrPayment.confirmPayment Scenario.addMonths
                    Scenario.clock_noon st) Scenario.cash_submitted in
  fst out = Some QrPayment.PaymentConfirmed
  /\ map (fun x => (Admission.id x, Admission.payment_status x,
                    Admission.end_date x)) (admissions (snd out)) =
     [(1, Admission.paid, Some 1738368000000%Z);
      (2, Admission.paid, Some 1744286400000%Z)]
  /\ cash_payments (snd out) = [Scenario.payment_of_8].
Proof.
  pose proof (@qr_confirmation_activates_admission Scenario.addMonths
                Scenario.clock_noon 8 Scenario.cash_submitted _ Scenario.bina
                eq_refl eq_refl) as H.
  cbv zeta in *. destruct H as (H1 & H2 & H3 & _).
  split; [exact H1|]. split; [|exact H3].
  refine (eq_trans (f_equal _ H2) _). reflexivity.
Defined.

(** X20 ([fetchAdmission] and the confirm button of the payment screen with
    [confirmCashPayment]).  On a payment screen that has just loaded, the
    confirm button is shown, once a method is chosen, exactly when the
    latest admission of the student is not paid and the pending cash
    payment requests for it are not exactly one: with two or more of them
    the button is back.  And whenever the button is shown,
    [confirmCashPayment] does not answer 'Payment Request Already
    Submitted'. *)
Theorem confirm_button_is_hidden_by_one_request u s m :
  let st := fst (run (PaymentScreen.fetchAdmission
                        (PaymentScreen.mkState (Some u) None None)) s) in
  QrPayment.confirmShown st (Some m) =
  match Facts.latest_admission s u with
  | Some a =>
      negb (Admission.is_paid a)
      && negb (List.length (Facts.pending_requests s u (Admission.id a)) =? 1)
  | None => false
  end
  /\ (forall st' m' clock s',
        QrPayment.confirmShown st' m' = true ->
        fst (run (PaymentScreen.confirmCashPayment clock st') s') <>
        Some PaymentScreen.PaymentRequestAlreadySubmitted).
Proof.
  split.
  - unfold Facts.latest_admission, Facts.pending_requests,
      PaymentScreen.fetchAdmission, QrPayment.confirmShown.
    cbn -[order_desc maybeSingle firstn].
    destruct (order_desc _ _) as [|a l]; [reflexivity|].
    cbn -[maybeSingle].
    destruct (filter _ (cash_payments s)) as [|c [|c' l']]; cbn;
      now rewrite ?andb_true_r, ?andb_false_r.
  - intros st' m' clock s' H. unfold QrPayment.confirmShown in H.
    unfold PaymentScreen.confirmCashPayment.
    destruct (PaymentScreen.admission st') as [a|]; [|discriminate].
    destruct (PaymentScreen.user st'); [|discriminate].
    destruct (PaymentScreen.existingCashPayment st');
      [now rewrite andb_false_r in H|].
    cbn -[maybeSingle Db.insert_cash_payment].
    destruct (maybeSingle _); [discriminate|].
    cbn -[Db.insert_cash_payment]. unfold Db.insert_cash_payment.
    destruct (_ <=? _)%Z; discriminate.
Qed.

Lemma confirm_button_is_hidden_by_one_request_witness :
  QrPayment.confirmShown
    (fst (run (PaymentScreen.fetchAdmission
                 (PaymentScreen.mkState (Some 8) None None))
            Scenario.cash_submitted)) (Some QrPayment.cash) = false
  /\ QrPayment.confirmShown
       (fst (run (PaymentScreen.fetchAdmission
                    (PaymentScreen.mkState (Some 8) None None))
               Scenario.raced)) (Some QrPayment.cash) = true
  /\ fst (run (PaymentScreen.confirmCashPayment Scenario.clock_noon
                 (fst (run (PaymentScreen.fetchAdmission
                              (PaymentScreen.mkState (Some 8) None None))
                         Scenario.raced))) Scenario.raced) <>
     Some PaymentScreen.PaymentRequestAlreadySubmitted.
Proof.
  split; [reflexivity|]. split; [reflexivity|].
  apply (proj2 (confirm_button_is_hidden_by_one_request 8 Scenario.raced
                  QrPayment.cash)
           _ (Some QrPayment.cash)).
  reflexivity.
Defined.

(** ** The colour and the label of a shift's availability *)

Lemma availability_badge_table :
  forallb (fun n =>
    let a := Z.of_nat n in
    String.eqb (AvailabilityBadge.getAvailabilityColor a)
      (if (25 <? a)%Z then "#10B981"
       else if (10 <? a)%Z then "#F59E0B" else "#EF4444")
    && String.eqb (AvailabilityBadge.getAvailabilityStatus a)
         (if (25 <? a)%Z then "Good Availability"
          else if (10 <? a)%Z then "Limited Seats" else "Almost Full"))
    (seq 0 51) = true.
Proof. vm_compute. reflexivity. Qed.

(** X21 ([getAvailabilityColor] and [getAvailabilityStatus] of the home
    screen).  With the 50 seats of the screen and between 0 and 50 of them
    free, the percentage computed in floating point falls where the exact
    one does: more than 25 free seats are green and 'Good Availability',
    11 to 25 are orange and 'Limited Seats', 10 or fewer are red and
    'Almost Full'; and for any count the colour and the label go
    together. *)
Theorem availability_badge_thresholds a :
  ((0 <= a <= 50)%Z ->
   AvailabilityBadge.getAvailabilityColor a =
   (if (25 <? a)%Z then "#10B981"
    else if (10 <? a)%Z then "#F59E0B" else "#EF4444")%string
   /\ AvailabilityBadge.getAvailabilityStatus a =
      (if (25 <? a)%Z then "Good Availability"
       else if (10 <? a)%Z then "Limited Seats" else "Almost Full")%string)
  /\ (AvailabilityBadge.getAvailabilityColor a = "#10B981"%string <->
      AvailabilityBadge.getAvailabilityStatus a = "Good Availability"%string)
  /\ (AvailabilityBadge.getAvailabilityColor a = "#F59E0B"%string <->
      AvailabilityBadge.getAvailabilityStatus a = "Limited Seats"%string)
  /\ (AvailabilityBadge.getAvailabilityColor a = "#EF4444"%string <->
      AvailabilityBadge.getAvailabilityStatus a = "Almost Full"%string).
Proof.
  split.
  - intros R. pose proof availability_badge_table as T.
    rewrite forallb_forall in T.
    specialize (T (Z.to_nat a)). rewrite Z2Nat.id in T by lia.
    cbv zeta in T. apply andb_prop in T.
    + destruct T as [T1 T2]. apply String.eqb_eq in T1, T2. auto.
    + apply in_seq. lia.
  - unfold AvailabilityBadge.getAvailabilityColor,
      AvailabilityBadge.getAvailabilityStatus.
    destruct (PrimFloat.ltb _ _);
      [repeat split; intros; (reflexivity || discriminate)|].
    destruct (PrimFloat.ltb _ _); repeat split; intros;
      (reflexivity || discriminate).
Qed.

Lemma availability_badge_thresholds_witness :
  AvailabilityBadge.getAvailabilityColor 25 = "#F59E0B"%string
  /\ AvailabilityBadge.getAvailabilityStatus 25 = "Limited Seats"%string.
Proof.
  apply (proj1 (availability_badge_thresholds 25)). lia.
Defined.

(** ** The admin's list of students *)

(** X22 ([filterStudents], [getStatusColor] and [getStatusText] of the
    admin students screen).  Filtering only ever drops students, and drops
    none without a search text and with the filter 'all'; the filter
    'expiring' keeps exactly the students shown in orange; no student is
    both 'active' and 'expired'; and the colour goes with the text: red with
    'Expired', orange with 'Expires in n days', green with 'n days
    remaining'. *)
Theorem student_filters_and_status calculateRemainingDays toLowerCase clock
  students q f st :
  (In st (AdminStudents.filterStudents calculateRemainingDays toLowerCase
            clock students q f) -> In st students)
  /\ AdminStudents.filterStudents calculateRemainingDays toLowerCase clock
       students "" AdminStudents.all = students
  /\ (In st (AdminStudents.filterStudents calculateRemainingDays toLowerCase
               clock students "" AdminStudents.expiring) <->
      In st students
      /\ AdminStudents.getStatusColor calculateRemainingDays clock st =
         "#F59E0B"%string)
  /\ ~ (In st (AdminStudents.filterStudents calculateRemainingDays
                 toLowerCase clock students q AdminStudents.active)
        /\ In st (AdminStudents.filterStudents calculateRemainingDays
                    toLowerCase clock students q AdminStudents.expired))
  /\ (AdminStudents.getStatusColor calculateRemainingDays clock st =
      "#EF4444"%string <->
      AdminStudents.getStatusText calculateRemainingDays clock st =
      AdminStudents.Expired)
  /\ (AdminStudents.getStatusColor calculateRemainingDays clock st =
      "#F59E0B"%string <->
      exists n, AdminStudents.getStatusText calculateRemainingDays clock st =
                AdminStudents.ExpiresIn n)
  /\ (AdminStudents.getStatusColor calculateRemainingDays clock st =
      "#10B981"%string <->
      exists n, AdminStudents.getStatusText calculateRemainingDays clock st =
                AdminStudents.Remaining n).
Proof.
  assert (S : forall g,
            In st (AdminStudents.filterStudents calculateRemainingDays
                     toLowerCase clock students q g) -> In st students).
  { intros g. unfold AdminStudents.filterStudents.
    destruct (truthy q), g; rewrite ?filter_In; tauto. }
  split; [apply S|]. split; [reflexivity|]. split; [|split].
  - unfold AdminStudents.filterStudents. cbn [truthy String.eqb negb].
    rewrite filter_In.
    unfold AdminStudents.isExpiring, AdminStudents.getStatusColor.
    destruct (AdminStudents.admission st) as [a|];
      [|intuition discriminate].
    destruct (Admission.end_date a) as [e|],
      (negb (Admission.is_paid a)); try (intuition discriminate).
    cbv zeta.
    destruct (calculateRemainingDays e clock <=? 0)%Z eqn:E0,
      (calculateRemainingDays e clock <=? 7)%Z eqn:E7; cbn;
      try (intuition discriminate).
    + apply Z.leb_le in E0. split; [|intuition discriminate].
      intros [_ H]. apply Z.ltb_lt in H. lia.
    + apply Z.leb_gt in E0. split; [tauto|]. intros [H _].
      split; [exact H|]. apply Z.ltb_lt. lia.
  - unfold AdminStudents.filterStudents.
    rewrite !filter_In. unfold AdminStudents.isActive, AdminStudents.isExpired.
    intros [[_ A] [_ B]].
    destruct (AdminStudents.admission st) as [a|]; [|discriminate].
    destruct (Admission.end_date a) as [e|];
      [|now rewrite andb_false_r in A].
    apply andb_prop in A. destruct A as [_ A].
    apply Z.ltb_lt in A. apply Z.leb_le in B. lia.
  - unfold AdminStudents.getStatusColor, AdminStudents.getStatusText.
    destruct (AdminStudents.admission st) as [a|].
    2:{ repeat split; try discriminate; intros [n H]; discriminate. }
    destruct (negb (Admission.is_paid a)).
    { repeat split; try discriminate; intros [n H]; discriminate. }
    destruct (Admission.end_date a) as [e|].
    2:{ repeat split; try discriminate; intros [n H]; discriminate. }
    cbv zeta.
    destruct (_ <=? 0)%Z.
    { repeat split; try discriminate; intros [n H]; discriminate. }
    destruct (_ <=? 7)%Z; repeat split; try discriminate; eauto;
      intros [n H]; discriminate.
Qed.

Lemma student_filters_and_status_witness :
  AdminStudents.filterStudents Examples.calculateRemainingDays
    Examples.toLowerCase Examples.clock_late [Examples.student_asha] "rao"
    AdminStudents.active = [Examples.student_asha]
  /\ In Examples.student_asha
       (AdminStudents.filterStudents Examples.calculateRemainingDays
          Examples.toLowerCase Examples.clock_late [Examples.student_asha] ""
          AdminStudents.expiring)
  /\ exists n,
       AdminStudents.getStatusText Examples.calculateRemainingDays
         Examples.clock_late Examples.student_asha =
       AdminStudents.ExpiresIn n.
Proof.
  split; [reflexivity|]. split.
  - apply (proj1 (proj2 (proj2
      (@student_filters_and_status Examples.calculateRemainingDays
         Examples.toLowerCase Examples.clock_late [Examples.student_asha]
         ""%string AdminStudents.all Examples.student_asha)))).
    split; [left|]; reflexivity.
  - apply (@student_filters_and_status Examples.calculateRemainingDays
             Examples.toLowerCase Examples.clock_late [Examples.student_asha]
             ""%string AdminStudents.all Examples.student_asha).
    reflexivity.
Defined.

(** ** Availability and the seat grid *)

Lemma NoDup_map_on {A B} (f : A -> B) l :
  NoDup l ->
  (forall x y, In x l -> In y l -> f x = f y -> x = y) ->
  NoDup (map f l).
Proof.
  induction 1 as [|x l Nx N IH]; intros H; cbn [map]; constructor.
  - intros I. apply in_map_iff in I. destruct I as (y & E & Hy).
    apply Nx. rewrite <- (H y x (or_intror Hy) (or_introl eq_refl) E).
    exact Hy.
  - apply IH. intros y z Hy Hz. apply H; now right.
Qed.

Lemma booked_count_le_grid seatNumbers s sh d :
  Spec.bookings_wf s ->
  (forall b, In b (seat_bookings s) -> SeatBooking.is_booked b = true ->
             In (SeatBooking.seat_number b) seatNumbers) ->
  (Spec.booked_count s sh d <= Z.of_nat (List.length seatNumbers))%Z.
Proof.
  intros (N & _ & U) G. unfold Spec.booked_count.
  apply inj_le. rewrite <- (length_map SeatBooking.seat_number).
  apply NoDup_incl_length.
  - apply NoDup_map_on.
    + apply NoDup_filter. exact (NoDup_map_inv _ _ N).
    + intros x y Hx Hy E. apply filter_In in Hx, Hy.
      destruct Hx as [Hx Px], Hy as [Hy Py].
      rewrite !andb_true_iff in Px, Py.
      destruct Px as [[Bx Sx] Dx], Py as [[By Sy] Dy].
      apply String.eqb_eq in Sx, Sy, Dx, Dy.
      apply (@NoDup_map_inj _ _ SeatBooking.id (seat_bookings s)); auto.
      apply U; auto. unfold SeatBooking.same_seat.
      now rewrite Sx, Sy, Dx, Dy, E, !String.eqb_refl.
  - intros n Hn. apply in_map_iff in Hn. destruct Hn as (b & <- & Hb).
    apply filter_In in Hb. destruct Hb as [Hb Pb].
    rewrite !andb_true_iff in Pb. apply G; tauto.
Qed.

(** X23 ([fetchData] of the home screen with the partial unique index of
    [seat_bookings]).  The home screen subtracts the booked rows from 50
    without a lower bound; yet in a booking table that obeys the index, as
    long as every booked row is for a seat of a grid of at most 50 seats,
    the booked rows of a shift and day sit on different seats, so the
    available count the screen shows is never negative. *)
Theorem availability_stays_within_bounds seatNumbers SHIFTS clock v prev s
  entry :
  Spec.bookings_wf s ->
  (forall b, In b (seat_bookings s) -> SeatBooking.is_booked b = true ->
             In (SeatBooking.seat_number b) seatNumbers) ->
  List.length seatNumbers <= 50 ->
  In entry (fst (run (HomeScreen.fetchData SHIFTS clock (Some v) prev) s)) ->
  (0 <= HomeScreen.availableSeats entry)%Z.
Proof.
  intros W G L H. rewrite fetchData_run in H. cbn [fst] in H.
  apply in_map_iff in H. destruct H as (shf & <- & _).
  cbn [HomeScreen.availableSeats].
  pose proof (@booked_count_le_grid seatNumbers s (HomeScreen.s_id shf)
                (today clock) W G) as B.
  lia.
Qed.

(** The home screen of a student once seat A12 is taken. *)
Lemma availability_stays_within_bounds_witness :
  let entry := HomeScreen.mkAvailability "morning" "Morning" 50 1 49 299 in
  In entry
    (fst (run (HomeScreen.fetchData Scenario.SHIFTS Scenario.clock_noon
                 (Some 2) []) Examples.seat_taken))
  /\ (0 <= HomeScreen.availableSeats entry)%Z.
Proof.
  cbv zeta. split; [left; reflexivity|].
  apply (@availability_stays_within_bounds Examples.seatNumbers
           Scenario.SHIFTS Scenario.clock_noon 2 [] Examples.seat_taken).
  - change Examples.seat_taken with
      (snd (run (AdminPayments.handlePaymentAction Scenario.addMonths 99
                   Scenario.clock_morning Examples.payment_of_chitra
                   AdminPayments.approve) Examples.paid_requests)).
    apply wf_run, paid_requests_wf.
  - intros b [<-|[<-|[]]] B; [|discriminate].
    right. left. reflexivity.
  - simpl. lia.
  - left. reflexivity.
Defined.

(** ** Checking in, checking out, checking in again *)

Lemma no_admission_rows s u :
  Spec.has_admission s u = false ->
  filter (fun a => Admission.user_id a =? u) (admissions s) = [].
Proof.
  unfold Spec.has_admission. induction (admissions s) as [|a l IH];
    [reflexivity|]. cbn. destruct (Admission.user_id a =? u);
    [discriminate|exact IH].
Qed.

(** What [checkIn] does, case by case, in terms of the store alone. *)
Lemma checkIn_run w clock u sh s :
  run (AttendanceScreen.checkIn w clock u sh) s =
  if negb (Spec.has_admission s u) then (None, s)
  else if negb (w sh clock) then (Some AttendanceScreen.InvalidTime, s)
  else if Spec.open_row s u sh (today clock)
  then (Some AttendanceScreen.AlreadyCheckedIn, s)
  else if Spec.closed_row s u sh (today clock)
  then (Some AttendanceScreen.ShiftCompleted, s)
  else
    match Db.insert_attendance (now clock)
            (Attendance.mkInsert u sh (Some (now clock)) (today clock) None
               None) s with
    | (Ok _, s') => (Some AttendanceScreen.Success, s')
    | (Err _, s') => (Some AttendanceScreen.Error, s')
    end.
Proof.
  destruct (Spec.has_admission s u) eqn:Ha; cbn [negb].
  - destruct (attendance_fetchData clock u s Ha) as (a & Ef).
    unfold AttendanceScreen.checkIn. rewrite run_bind, Ef.
    unfold AttendanceScreen.handleCheckIn.
    cbn [AttendanceScreen.user AttendanceScreen.admission
         AttendanceScreen.todayAttendance].
    destruct (w sh clock); cbn [negb]; [|reflexivity].
    rewrite <- snapshot_open, <- snapshot_closed.
    destruct (find _ _); [reflexivity|].
    destruct (find _ _); [reflexivity|].
    cbn -[Db.insert_attendance AttendanceScreen.fetchData].
    destruct (Db.insert_attendance _ _ s) as [[r|e] s'];
      [|reflexivity].
    cbn -[AttendanceScreen.fetchData]. rewrite run_bind.
    match goal with
    | |- context [run (AttendanceScreen.fetchData ?c ?t) ?x] =>
        pose proof (attendance_fetchData_store c t x) as F;
        destruct (run (AttendanceScreen.fetchData c t) x) as [st' s'']
    end.
    simpl in F. subst s''. reflexivity.
  - unfold AttendanceScreen.checkIn. rewrite run_bind.
    unfold AttendanceScreen.fetchData. cbn -[order_desc].
    rewrite (no_admission_rows _ _ Ha). reflexivity.
Qed.

Lemma checked_out_fresh rid ts l r0 :
  (forall r, In r l -> Attendance.id r <> rid) ->
  Attendance.id r0 = rid ->
  map (fun r => if Attendance.id r =? rid
                then Attendance.set_check_out ts r else r) (l ++ [r0]) =
  (l ++ [Attendance.set_check_out ts r0])%list.
Proof.
  intros H E. rewrite map_app. cbn [map]. rewrite E, Nat.eqb_refl.
  f_equal. induction l as [|r l IH]; [reflexivity|]. cbn [map].
  rewrite IH by (intros x Hx; apply H; now right).
  specialize (H r (or_introl eq_refl)). apply Nat.eqb_neq in H.
  now rewrite H.
Qed.

(** X24 ([handleCheckIn] and [handleCheckOut] of the attendance screen).
    A check-in that succeeded, followed by the check-out of the row it
    added, leaves exactly one row more than before, carrying both times;
    and a further check-in for that shift on that day is then turned down
    with 'Shift Completed' and changes nothing. *)
Theorem check_in_then_out_completes_the_shift w clock1 clock2 clock3 u sh s :
  (forall r, In r (attendance s) -> Attendance.id r <> next_id s) ->
  fst (run (AttendanceScreen.checkIn w clock1 u sh) s) =
  Some AttendanceScreen.Success ->
  w sh clock2 = true -> w sh clock3 = true ->
  today clock3 = today clock1 ->
  let s1 := snd (run (AttendanceScreen.checkIn w clock1 u sh) s) in
  let out := run (AttendanceScreen.handleCheckOut w clock2
                    (AttendanceScreen.mkState (Some u) None []) (next_id s)
                    sh) s1 in
  fst out = Some AttendanceScreen.Success
  /\ attendance (snd out) =
     (attendance s
      ++ [Attendance.mk (next_id s) u sh (Some (now clock1))
            (Some (now clock2)) (today clock1) Attendance.present None
            (now clock1)])%list
  /\ run (AttendanceScreen.checkIn w clock3 u sh) (snd out) =
     (Some AttendanceScreen.ShiftCompleted, snd out).
Proof.
  intros Fresh S1 W2 W3 D s1 out.
  pose proof (checkIn_success _ _ _ _ _ S1) as E1. fold s1 in E1.
  rewrite checkIn_run in S1.
  destruct (Spec.has_admission s u) eqn:Ha; [|discriminate].
  cbn [negb] in S1.
  destruct (w sh clock1); [|discriminate]. cbn [negb] in S1.
  destruct (Spec.open_row s u sh (today clock1)) eqn:O; [discriminate|].
  destruct (Spec.closed_row s u sh (today clock1)) eqn:C; [discriminate|].
  clear S1.
  assert (Eout : out = (Some AttendanceScreen.Success,
                        Facts.with_attendance
                          (Facts.checked_out (next_id s) (now clock2) s1) s1)).
  { subst out. unfold AttendanceScreen.handleCheckOut.
    cbn [AttendanceScreen.user]. rewrite W2. cbn [negb].
    cbn -[AttendanceScreen.fetchData]. rewrite run_bind.
    match goal with
    | |- context [run (AttendanceScreen.fetchData ?c ?t) ?x] =>
        pose proof (attendance_fetchData_store c t x) as F;
        destruct (run (AttendanceScreen.fetchData c t) x) as [st' s']
    end.
    simpl in F. subst s'. reflexivity. }
  rewrite Eout. cbn [fst snd].
  assert (Eatt : Facts.checked_out (next_id s) (now clock2) s1 =
                 (attendance s
                  ++ [Attendance.mk (next_id s) u sh (Some (now clock1))
                        (Some (now clock2)) (today clock1) Attendance.present
                        None (now clock1)])%list).
  { unfold Facts.checked_out. rewrite E1.
    unfold Spec.add_attendance, Spec.check_in_row. cbn [attendance].
    now rewrite checked_out_fresh. }
  split; [reflexivity|]. split; [exact Eatt|].
  rewrite checkIn_run. rewrite Eatt.
  set (s2 := Facts.with_attendance _ s1).
  assert (Ha2 : Spec.has_admission s2 u = true).
  { subst s2. unfold Spec.has_admission, Facts.with_attendance.
    cbn [admissions]. rewrite E1. exact Ha. }
  rewrite Ha2, W3. cbn [negb]. rewrite D.
  assert (O2 : Spec.open_row s2 u sh (today clock1) = false).
  { subst s2. unfold Spec.open_row, Facts.with_attendance. cbn [attendance].
    rewrite existsb_app. unfold Spec.open_row in O. rewrite O. cbn.
    now rewrite !andb_false_r. }
  assert (C2 : Spec.closed_row s2 u sh (today clock1) = true).
  { subst s2. unfold Spec.closed_row, Facts.with_attendance.
    cbn [attendance]. rewrite existsb_app. apply orb_true_iff. right. cbn.
    now rewrite Nat.eqb_refl, !String.eqb_refl. }
  now rewrite O2, C2.
Qed.

Lemma check_in_then_out_completes_the_shift_witness :
  let out := run (AttendanceScreen.handleCheckOut Scenario.in_window
                    Scenario.clock_ten
                    (AttendanceScreen.mkState (Some 7) None []) 2 "morning")
               Scenario.checked_in_store in
  fst out = Some AttendanceScreen.Success
  /\ attendance (snd out) =
     [Attendance.mk 2 7 "morning" (Some 1736496000000%Z)
        (Some 1736503200000%Z) "2025-01-10" Attendance.present None
        1736496000000]
  /\ run (AttendanceScreen.checkIn Scenario.in_window Scenario.clock_ten 7
            "morning") (snd out) =
     (Some AttendanceScreen.ShiftCompleted, snd out).
Proof.
  apply (@check_in_then_out_completes_the_shift Scenario.in_window
           Scenario.clock_morning Scenario.clock_ten Scenario.clock_ten 7
           "morning" Scenario.one_student); try reflexivity.
  intros r [].
Defined.

(** ** A cash payment request and the admission it is for *)

(** X25 ([confirmCashPayment] of the payment screen).  A cash payment
    request that is submitted sets the admission back to 'pending' whatever
    its status was: a screen that still shows the admission as unpaid, after
    it has been paid from elsewhere, takes the paid status away.  The
    request carries the amount the screen shows, and it is submitted
    whenever the pending requests of the student for the admission are not
    exactly one. *)
Theorem cash_request_sets_admission_pending clock st a u s :
  PaymentScreen.admission st = Some a ->
  PaymentScreen.user st = Some u ->
  PaymentScreen.existingCashPayment st = None ->
  List.length (Facts.pending_requests s u (Admission.id a)) <> 1 ->
  (0 < Admission.total_amount a)%Z ->
  let out := run (PaymentScreen.confirmCashPayment clock st) s in
  fst out = Some PaymentScreen.CashPaymentSubmitted
  /\ admissions (snd out) =
     map (fun x => if Admission.id x =? Admission.id a
                   then Admission.set_payment_status Admission.pending x
                   else x) (admissions s)
  /\ cash_payments (snd out) =
     (cash_payments s
      ++ [CashPayment.mk (next_id s) u None (Some (Admission.id a))
            (Admission.total_amount a) CashPayment.pending None None None
            (now clock)])%list
  /\ (forall x, In x (admissions (snd out)) ->
                Admission.id x = Admission.id a ->
                Admission.payment_status x = Admission.pending).
Proof.
  intros A U X L Pos out.
  assert (E : out = (Some PaymentScreen.CashPaymentSubmitted,
                     mkStore
                       (map (fun x => if Admission.id x =? Admission.id a
                                      then Admission.set_payment_status
                                             Admission.pending x
                                      else x) (admissions s))
                       (seat_bookings s) (attendance s)
                       (cash_payments s
                        ++ [CashPayment.mk (next_id s) u None
                              (Some (Admission.id a))
                              (Admission.total_amount a) CashPayment.pending
                              None None None (now clock)])
                       (payment_history s) (notifications s) (admin_logs s)
                       (S (next_id s)))).
  { subst out. unfold PaymentScreen.confirmCashPayment.
    rewrite A, U, X.
    cbn -[maybeSingle Db.insert_cash_payment Db.update_admission_status].
    unfold Facts.pending_requests in L.
    destruct (filter _ (cash_payments s)) as [|c [|c' l]]; cbn [maybeSingle];
      try (exfalso; apply L; reflexivity).
    all: cbn -[Db.insert_cash_payment Db.update_admission_status];
      unfold Db.insert_cash_payment;
      cbn -[Db.update_admission_status Z.leb];
      destruct (Admission.total_amount a <=? 0)%Z eqn:Z0;
      [apply Z.leb_le in Z0; lia|reflexivity]. }
  rewrite E. cbn [fst snd admissions cash_payments].
  repeat split. intros x Hx Ex. apply in_map_iff in Hx.
  destruct Hx as (y & <- & _).
  destruct (Admission.id y =? Admission.id a) eqn:Ey; [reflexivity|].
  apply Nat.eqb_neq in Ey. cbn in Ex. contradiction.
Qed.

Lemma cash_request_sets_admission_pending_witness :
  let out := run (PaymentScreen.confirmCashPayment Scenario.clock_noon
                    Examples.payment_screen_of_8) Examples.paid_by_qr in
  fst out = Some PaymentScreen.CashPaymentSubmitted
  /\ map Admission.payment_status (admissions Examples.paid_by_qr) =
     [Admission.paid; Admission.paid]
  /\ map Admission.payment_status (admissions (snd out)) =
     [Admission.paid; Admission.pending].
Proof.
  pose proof (@cash_request_sets_admission_pending Scenario.clock_noon
                Examples.payment_screen_of_8 Scenario.bina 8
                Examples.paid_by_qr eq_refl eq_refl eq_refl) as H.
  cbv zeta in *. destruct H as (H1 & H2 & _).
  - simpl. lia.
  - reflexivity.
  - split; [exact H1|]. split; [reflexivity|].
    refine (eq_trans (f_equal _ H2) _). reflexivity.
Defined.

(** ** Booking requests that are turned down *)

(** Once [handleDirectBooking] has sent its first insert it answers 'Booking
    Failed' or 'Booking Submitted!'. *)
Lemma handleDirectBooking_turned_down clock st s :
  fst (run (BookingScreen.handleDirectBooking clock st) s) = None
  \/ fst (run (BookingScreen.handleDirectBooking clock st) s) =
     Some BookingScreen.AlreadyBooked
  \/ fst (run (BookingScreen.handleDirectBooking clock st) s) =
     Some BookingScreen.PendingPaymentRequest ->
  snd (run (BookingScreen.handleDirectBooking clock st) s) = s.
Proof.
  unfold BookingScreen.handleDirectBooking.
  destruct (BookingScreen.user st) as [uid|]; [|reflexivity].
  destruct (_ || _); [reflexivity|].
  destruct (existsb _ _); [reflexivity|].
  cbn -[Db.insert_seat_booking Db.insert_cash_payment
        BookingScreen.fetchData].
  destruct (Db.insert_seat_booking _ _ s) as [[b|e] s1];
    [|cbn; intros [H|[H|H]]; discriminate].
  cbn -[Db.insert_cash_payment BookingScreen.fetchData].
  destruct (Db.insert_cash_payment _ _ s1) as [[c|e] s2];
    [|cbn; intros [H|[H|H]]; discriminate].
  rewrite run_bind.
  match goal with
  | |- context [run (BookingScreen.fetchData ?c ?t) ?x] =>
      destruct (run (BookingScreen.fetchData c t) x) as [st' s']
  end.
  cbn. intros [H|[H|H]]; discriminate.
Qed.

(** X26 ([handleSeatBooking] and [handleDirectBooking] of the booking
    screen with the CHECK constraint on the shift).  A request without a
    seat or a shift does nothing and shows nothing; a request that passes
    the checks of the screen for a shift the table does not know fails with
    'Booking Failed' on its first insert and leaves the store as it was; and
    a request that the screen itself turns down, with no alert, 'Already
    Booked' or 'Pending Payment Request', has written nothing. *)
Theorem refused_booking_request_writes_nothing clock u sh seat s :
  let out := run (BookingScreen.requestBooking clock u sh seat) s in
  (seat = ""%string \/ sh = ""%string -> out = (None, s))
  /\ (seat <> ""%string -> sh <> ""%string -> valid_shift sh = false ->
      Spec.holds_booked s u sh (today clock) = false ->
      Spec.has_pending_booking_payment s u = false ->
      out = (Some BookingScreen.BookingFailed, s))
  /\ (fst out = None \/ fst out = Some BookingScreen.AlreadyBooked
      \/ fst out = Some BookingScreen.PendingPaymentRequest ->
      snd out = s).
Proof.
  intros out. subst out. split; [|split].
  - intros H. unfold BookingScreen.requestBooking.
    destruct (booking_fetchData clock u s) as (adm & sel & Ef).
    rewrite run_bind, Ef. unfold BookingScreen.handleSeatBooking.
    cbn [BookingScreen.user BookingScreen.selectedShift
         BookingScreen.selectedSeat].
    destruct H as [-> | ->]; cbn; [reflexivity|].
    now rewrite orb_true_r.
  - intros Hseat Hsh V B P. unfold BookingScreen.requestBooking.
    destruct (booking_fetchData clock u s) as (adm & sel & Ef).
    rewrite run_bind, Ef.
    unfold BookingScreen.handleSeatBooking, BookingScreen.handleDirectBooking.
    cbn [BookingScreen.user BookingScreen.selectedShift
         BookingScreen.selectedSeat BookingScreen.userBookings
         BookingScreen.seatBookings BookingScreen.pendingCashPayments].
    rewrite (truthy_nonempty Hseat), (truthy_nonempty Hsh).
    pose proof (snapshot_booked clock u sh s) as Sb.
    rewrite snapshot_pending_payment, P. rewrite B in Sb. cbn [negb orb].
    destruct (find _ _); [discriminate|].
    cbn -[Db.insert_seat_booking]. unfold Db.insert_seat_booking.
    cbn -[valid_shift]. rewrite V. reflexivity.
  - unfold BookingScreen.requestBooking. rewrite run_bind.
    match goal with
    | |- context [run (BookingScreen.fetchData ?c ?t) ?x] =>
        pose proof (booking_fetchData_store c t x) as E;
        destruct (run (BookingScreen.fetchData c t) x) as [st' s']
    end.
    simpl in E. subst s'. unfold BookingScreen.handleSeatBooking.
    cbn [BookingScreen.user BookingScreen.selectedSeat
         BookingScreen.selectedShift BookingScreen.userBookings].
    destruct (BookingScreen.user st'); [|reflexivity].
    destruct (_ || _); [reflexivity|].
    destruct (find _ _); [reflexivity|].
    apply handleDirectBooking_turned_down.
Qed.

(** A shift the table does not know, an empty seat, and a second request
    while the first waits for the admin. *)
Lemma refused_booking_request_writes_nothing_witness :
  run (BookingScreen.requestBooking Scenario.clock_noon 1 "afternoon" "C1")
    Scenario.first_approved =
  (Some BookingScreen.BookingFailed, Scenario.first_approved)
  /\ run (BookingScreen.requestBooking Scenario.clock_noon 1 "noon" "")
       Scenario.first_approved = (None, Scenario.first_approved)
  /\ fst (run (BookingScreen.requestBooking Scenario.clock_noon 2 "noon" "C1")
            Scenario.first_approved) =
     Some BookingScreen.PendingPaymentRequest
  /\ snd (run (BookingScreen.requestBooking Scenario.clock_noon 2 "noon" "C1")
            Scenario.first_approved) = Scenario.first_approved.
Proof.
  split; [|split; [|split; [reflexivity|]]].
  - apply (@refused_booking_request_writes_nothing Scenario.clock_noon 1
             "afternoon" "C1" Scenario.first_approved);
      (discriminate || reflexivity).
  - apply (@refused_booking_request_writes_nothing Scenario.clock_noon 1
             "noon" "" Scenario.first_approved).
    left. reflexivity.
  - apply (@refused_booking_request_writes_nothing Scenario.clock_noon 2
             "noon" "C1" Scenario.first_approved).
    right. right. reflexivity.
Defined.

(** ** Two check-ins racing for one shift *)

Lemma checked_task w u sh clock r t :
  AttendanceScreen.handleCheckIn w clock (CheckInRace.loaded u r t) sh =
  CheckInRace.task_at w u sh clock (CheckInRace.checked w u sh clock r t).
Proof.
  unfold AttendanceScreen.handleCheckIn, CheckInRace.checked.
  cbn [AttendanceScreen.user CheckInRace.loaded].
  destruct (AttendanceScreen.admission _); [|reflexivity].
  destruct (negb _); [reflexivity|].
  destruct (find _ _); [reflexivity|].
  destruct (find _ _); reflexivity.
Qed.

Lemma step_at w u sh clock ph s :
  step (CheckInRace.task_at w u sh clock ph) s =
  (CheckInRace.task_at w u sh clock (CheckInRace.next_phase w u sh clock ph s),
   CheckInRace.next_store u sh clock ph s).
Proof.
  destruct ph as [|r|r t|r t| |a]; cbn [CheckInRace.next_phase
    CheckInRace.next_store].
  - reflexivity.
  - cbn -[AttendanceScreen.handleCheckIn CheckInRace.checked order_desc].
    now rewrite checked_task.
  - cbn -[Db.insert_attendance AttendanceScreen.fetchData].
    destruct (Db.insert_attendance _ _ s) as [[x|e] s']; reflexivity.
  - reflexivity.
  - reflexivity.
  - reflexivity.
Qed.

Lemma run_step {R} (t : Task R) s :
  run t s = run (fst (step t s)) (snd (step t s)).
Proof.
  destruct t as [r|A q k]; cbn; [reflexivity|].
  destruct (exec q s) as [a s']. reflexivity.
Qed.

Lemma run_at w u sh clock ph s :
  run (CheckInRace.task_at w u sh clock ph) s =
  run (CheckInRace.task_at w u sh clock
         (CheckInRace.next_phase w u sh clock ph s))
    (CheckInRace.next_store u sh clock ph s).
Proof. now rewrite run_step, step_at. Qed.

Lemma rank_next w u sh clock ph s :
  CheckInRace.rank (CheckInRace.next_phase w u sh clock ph s) <=
  pred (CheckInRace.rank ph).
Proof.
  destruct ph as [|r|r t|r t| |a]; cbn; try lia.
  - unfold CheckInRace.checked.
    destruct (AttendanceScreen.admission _); [|cbn; lia].
    destruct (negb _); [cbn; lia|].
    destruct (find _ _); [cbn; lia|].
    destruct (find _ _); cbn; lia.
  - destruct (fst _); cbn; lia.
Qed.

Section CheckInRaceFacts.

Variable w : string -> Clock -> bool.
Variable u : Uuid.
Variable sh : string.
Variable s0 : Store.

Hypothesis Hadm : Spec.has_admission s0 u = true.
Hypothesis Hvalid : valid_shift sh = true.

(** The facts about one of the two check-ins, at [clock], on a day [d]
    without a row of the student for the shift. *)
Variable clock : Clock.
Hypothesis Hw : w sh clock = true.
Hypothesis Hnone :
  forall r, In r (attendance s0) -> Attendance.user_id r = u ->
            Attendance.shift r = sh -> Attendance.date r <> today clock.

Let r0 := fst (Db.select_latest_admission u s0).

Lemma race_admission : exists a l, r0 = Ok (a :: l).
Proof.
  subst r0. unfold Db.select_latest_admission. cbn [fst].
  apply existsb_filter_nonempty in Hadm.
  destruct (order_desc_cons Admission.created_at Hadm) as (a & l & E).
  rewrite E. cbn. eauto.
Qed.

Lemma race_no_row :
  find (fun record => String.eqb (Attendance.shift record) sh)
    (order_desc Attendance.created_at
       (filter (fun r => (Attendance.user_id r =? u)
                         && String.eqb (Attendance.date r) (today clock))
          (attendance s0))) = None.
Proof.
  apply find_existsb_none. rewrite existsb_order_desc, existsb_filter.
  apply not_true_iff_false. intros H. apply existsb_exists in H.
  destruct H as (r & Hr & H). rewrite !andb_true_iff in H.
  destruct H as [[H1 H2] H3].
  apply Nat.eqb_eq in H1. apply String.eqb_eq in H2, H3.
  exact (Hnone r Hr H1 H3 H2).
Qed.

(** With the store untouched the check-in passes its checks ... *)
Lemma race_checked_first :
  exists t,
    CheckInRace.checked w u sh clock r0
      (fst (Db.select_attendance_of u (today clock) s0)) =
    CheckInRace.Insert r0 t.
Proof.
  destruct race_admission as (a & l & E).
  unfold CheckInRace.checked, Db.select_attendance_of.
  cbn [fst CheckInRace.loaded AttendanceScreen.admission
       AttendanceScreen.todayAttendance].
  rewrite E, Hw. cbn [negb].
  rewrite !(find_none_weaken _ _ _
               (fun x Hx => proj1 (andb_prop _ _ (proj1 (andb_prop _ _ Hx))))
               race_no_row).
  eauto.
Qed.

(** ... and its insert goes through. *)
Lemma race_insert_first :
  Db.insert_attendance (now clock) (CheckInRace.payload u sh clock) s0 =
  (Ok tt, Spec.add_attendance (Spec.check_in_row s0 clock u sh) s0).
Proof.
  unfold Db.insert_attendance, Db.new_attendance, CheckInRace.payload.
  cbn [Attendance.i_user_id Attendance.i_shift Attendance.i_check_in_time
       Attendance.i_date Attendance.i_status Attendance.i_reason
       Attendance.shift].
  rewrite Hvalid. cbn [negb].
  replace (existsb _ (attendance s0)) with false; [reflexivity|].
  symmetry. apply not_true_iff_false. intros H. apply existsb_exists in H.
  destruct H as (r & Hr & H). unfold Db.same_attendance_key in H.
  cbn in H. rewrite !andb_true_iff in H. destruct H as [[[H1 H2] H3] _].
  apply Nat.eqb_eq in H1. apply String.eqb_eq in H2, H3.
  exact (Hnone r Hr H1 H2 H3).
Qed.

(** Once the other check-in, at [clock'] on the same day, has inserted its
    row, this one finds it ... *)
Variable clock' : Clock.
Hypothesis Hday : today clock' = today clock.

Let s' := Spec.add_attendance (Spec.check_in_row s0 clock' u sh) s0.

Lemma race_latest_second : fst (Db.select_latest_admission u s') = r0.
Proof. reflexivity. Qed.

Lemma race_checked_second :
  CheckInRace.checked w u sh clock r0
    (fst (Db.select_attendance_of u (today clock) s')) =
  CheckInRace.Done (Some AttendanceScreen.AlreadyCheckedIn).
Proof.
  destruct race_admission as (a & l & E).
  unfold CheckInRace.checked, Db.select_attendance_of.
  cbn [fst CheckInRace.loaded AttendanceScreen.admission
       AttendanceScreen.todayAttendance].
  rewrite E, Hw. cbn [negb].
  match goal with
  | |- match find ?f ?rows with _ => _ end = _ =>
      assert (F : existsb f rows = true);
        [|rewrite <- find_existsb in F; destruct (find f rows);
          [reflexivity|discriminate]]
  end.
  rewrite existsb_order_desc, existsb_filter.
  subst s'. unfold Spec.add_attendance, Spec.check_in_row.
  cbn [attendance]. rewrite existsb_app. apply orb_true_iff. right. cbn.
  now rewrite Nat.eqb_refl, Hday, !String.eqb_refl.
Qed.

(** ... or, having passed its checks before, is refused by the unique
    constraint. *)
Lemma race_insert_second :
  exists e,
    Db.insert_attendance (now clock) (CheckInRace.payload u sh clock) s' =
    (Err e, s').
Proof.
  unfold Db.insert_attendance, Db.new_attendance, CheckInRace.payload.
  cbn [Attendance.i_user_id Attendance.i_shift Attendance.i_check_in_time
       Attendance.i_date Attendance.i_status Attendance.i_reason
       Attendance.shift].
  rewrite Hvalid. cbn [negb].
  replace (existsb _ (attendance s')) with true; [eauto|].
  symmetry. subst s'. unfold Spec.add_attendance, Spec.check_in_row.
  cbn [attendance]. rewrite existsb_app. apply orb_true_iff. right.
  unfold Db.same_attendance_key. cbn.
  now rewrite Nat.eqb_refl, Hday, !String.eqb_refl.
Qed.

End CheckInRaceFacts.

Section CheckInRaceInvariant.

Variable w : string -> Clock -> bool.
Variable u : Uuid.
Variable sh : string.
Variable s0 : Store.

Hypothesis Hadm : Spec.has_admission s0 u = true.
Hypothesis Hvalid : valid_shift sh = true.

(** A request of the first check-in keeps the invariant. *)
Lemma race_inv_step clock1 clock2 ph1 ph2 s :
  w sh clock1 = true ->
  today clock2 = today clock1 ->
  (forall r, In r (attendance s0) -> Attendance.user_id r = u ->
             Attendance.shift r = sh -> Attendance.date r <> today clock1) ->
  CheckInRace.Inv u sh clock1 clock2 s0 ph1 ph2 s ->
  CheckInRace.Inv u sh clock1 clock2 s0
    (CheckInRace.next_phase w u sh clock1 ph1 s) ph2
    (CheckInRace.next_store u sh clock1 ph1 s).
Proof.
  intros Hw Hday Hnone (g1 & g2 & A1 & A2 & C).
  destruct g1; cbn [CheckInRace.at_progress] in A1.
  - destruct A1 as [-> | ->];
      cbn [CheckInRace.next_phase CheckInRace.next_store].
    + exists CheckInRace.Before, g2. split; [|split; [exact A2|exact C]].
      right. f_equal.
      destruct C as [(-> & _) | [(-> & _) | (-> & _)]]; reflexivity.
    + destruct C as [(-> & _ & _ & G) | [(_ & E & _) | (-> & -> & _)]];
        [|discriminate|].
      * destruct (@race_checked_first w u sh s0 Hadm clock1 Hw Hnone) as [t Ht].
        rewrite Ht. exists CheckInRace.Ready, g2.
        split; [cbn; eauto|]. split; [exact A2|].
        left. repeat split; try discriminate; apply G.
      * rewrite (@race_checked_second w u sh s0 Hadm clock1 Hw clock2 Hday).
        exists CheckInRace.Lost, CheckInRace.Won.
        split; [cbn; auto|]. split; [exact A2|].
        right. right. repeat split. discriminate.
  - destruct A1 as [t ->].
    cbn [CheckInRace.next_phase CheckInRace.next_store].
    destruct C as [(-> & _ & _ & G) | [(_ & E & _) | (-> & -> & _)]];
      [|discriminate|].
    + rewrite (@race_insert_first u sh s0 Hvalid clock1 Hnone). cbn [fst snd].
      exists CheckInRace.Won, g2. split; [cbn; eauto|]. split; [exact A2|].
      right. left. repeat split. apply G.
    + destruct (@race_insert_second u sh s0 Hvalid clock1 clock2 Hday)
        as [e He].
      rewrite He. cbn [fst snd].
      exists CheckInRace.Lost, CheckInRace.Won.
      split; [cbn; auto|]. split; [exact A2|].
      right. right. repeat split. discriminate.
  - exists CheckInRace.Won, g2.
    assert (E : CheckInRace.next_store u sh clock1 ph1 s = s)
      by (destruct A1 as [[t ->] | [-> | ->]]; reflexivity).
    rewrite E. split; [|split; [exact A2|exact C]].
    destruct A1 as [[t ->] | [-> | ->]]; cbn; auto.
  - exists CheckInRace.Lost, g2.
    assert (E : CheckInRace.next_store u sh clock1 ph1 s = s)
      by (destruct A1 as [-> | ->]; reflexivity).
    rewrite E. split; [|split; [exact A2|exact C]].
    destruct A1 as [-> | ->]; cbn; auto.
Qed.

(** The invariant does not care which check-in is called the first. *)
Lemma race_inv_sym clock1 clock2 ph1 ph2 s :
  CheckInRace.Inv u sh clock1 clock2 s0 ph1 ph2 s ->
  CheckInRace.Inv u sh clock2 clock1 s0 ph2 ph1 s.
Proof.
  intros (g1 & g2 & A1 & A2 & C). exists g2, g1.
  split; [exact A2|]. split; [exact A1|].
  destruct C as [(E & G1 & G2 & G3 & G4) | [C | C]]; auto 10.
Qed.

Variables clock1 clock2 : Clock.

Hypothesis Hw1 : w sh clock1 = true.
Hypothesis Hw2 : w sh clock2 = true.
Hypothesis Hday : today clock2 = today clock1.
Hypothesis Hnone :
  forall r, In r (attendance s0) -> Attendance.user_id r = u ->
            Attendance.shift r = sh -> Attendance.date r <> today clock1.

Lemma race_none_second :
  forall r, In r (attendance s0) -> Attendance.user_id r = u ->
            Attendance.shift r = sh -> Attendance.date r <> today clock2.
Proof. rewrite Hday. exact Hnone. Qed.

Lemma race_step_first ph1 ph2 s :
  CheckInRace.Inv u sh clock1 clock2 s0 ph1 ph2 s ->
  CheckInRace.Inv u sh clock1 clock2 s0
    (CheckInRace.next_phase w u sh clock1 ph1 s) ph2
    (CheckInRace.next_store u sh clock1 ph1 s).
Proof. now apply race_inv_step. Qed.

Lemma race_step_second ph1 ph2 s :
  CheckInRace.Inv u sh clock1 clock2 s0 ph1 ph2 s ->
  CheckInRace.Inv u sh clock1 clock2 s0 ph1
    (CheckInRace.next_phase w u sh clock2 ph2 s)
    (CheckInRace.next_store u sh clock2 ph2 s).
Proof.
  intros H. apply race_inv_sym. apply race_inv_step.
  - exact Hw2.
  - now symmetry.
  - exact race_none_second.
  - now apply race_inv_sym.
Qed.

Lemma race_run_first n ph1 ph2 s :
  CheckInRace.rank ph1 <= n ->
  CheckInRace.Inv u sh clock1 clock2 s0 ph1 ph2 s ->
  CheckInRace.Inv u sh clock1 clock2 s0
    (CheckInRace.Done (fst (run (CheckInRace.task_at w u sh clock1 ph1) s)))
    ph2 (snd (run (CheckInRace.task_at w u sh clock1 ph1) s)).
Proof.
  revert ph1 s. induction n as [|n IH]; intros ph1 s Hn H.
  - destruct ph1; cbn in Hn; try lia. exact H.
  - rewrite run_at. apply IH; [|now apply race_step_first].
    pose proof (rank_next w u sh clock1 ph1 s). lia.
Qed.

Lemma race_run_second n ph1 ph2 s :
  CheckInRace.rank ph2 <= n ->
  CheckInRace.Inv u sh clock1 clock2 s0 ph1 ph2 s ->
  CheckInRace.Inv u sh clock1 clock2 s0 ph1
    (CheckInRace.Done (fst (run (CheckInRace.task_at w u sh clock2 ph2) s)))
    (snd (run (CheckInRace.task_at w u sh clock2 ph2) s)).
Proof.
  revert ph2 s. induction n as [|n IH]; intros ph2 s Hn H.
  - destruct ph2; cbn in Hn; try lia. exact H.
  - rewrite run_at. apply IH; [|now apply race_step_second].
    pose proof (rank_next w u sh clock2 ph2 s). lia.
Qed.

(** Every interleaving ends with both check-ins done and the invariant
    kept. *)
Lemma race_interleave sched ph1 ph2 s :
  CheckInRace.Inv u sh clock1 clock2 s0 ph1 ph2 s ->
  let out :=
    interleave sched (CheckInRace.task_at w u sh clock1 ph1)
      (CheckInRace.task_at w u sh clock2 ph2) s in
  CheckInRace.Inv u sh clock1 clock2 s0
    (CheckInRace.Done (fst (fst out))) (CheckInRace.Done (snd (fst out)))
    (snd out).
Proof.
  revert ph1 ph2 s.
  induction sched as [|[|] sched IH]; intros ph1 ph2 s H; cbn zeta;
    cbn [interleave].
  - pose proof (race_run_first (Nat.le_refl _) H) as H1.
    destruct (run (CheckInRace.task_at w u sh clock1 ph1) s) as [a1 s1].
    cbn [fst snd] in H1.
    pose proof (race_run_second (Nat.le_refl _) H1) as H2.
    destruct (run (CheckInRace.task_at w u sh clock2 ph2) s1) as [a2 s2].
    exact H2.
  - rewrite step_at. apply IH. now apply race_step_first.
  - rewrite step_at. apply IH. now apply race_step_second.
Qed.

Lemma race_start :
  CheckInRace.Inv u sh clock1 clock2 s0 CheckInRace.Load CheckInRace.Load s0.
Proof.
  exists CheckInRace.Before, CheckInRace.Before. cbn.
  split; [auto|]. split; [auto|]. left. repeat split; discriminate.
Qed.

End CheckInRaceInvariant.

(** X27 (AttendanceScreen, [handleCheckIn] and [fetchData], with the unique
    constraint of the attendance table).  Two check-ins of one student for
    one shift, sent on the same day while the shift is open and the day has
    no row for it yet, race for one row: however their requests are
    interleaved, exactly one of them reports success and its row is the
    only one added; the other is told that the student is already checked
    in, or gets the error of the refused insert. *)
Theorem racing_check_ins_leave_one_row w u sh s0 clock1 clock2 sched :
  Spec.has_admission s0 u = true ->
  valid_shift sh = true ->
  w sh clock1 = true ->
  w sh clock2 = true ->
  today clock2 = today clock1 ->
  (forall r, In r (attendance s0) -> Attendance.user_id r = u ->
             Attendance.shift r = sh -> Attendance.date r <> today clock1) ->
  let out :=
    interleave sched (AttendanceScreen.checkIn w clock1 u sh)
      (AttendanceScreen.checkIn w clock2 u sh) s0 in
  let lost alert :=
    alert = Some AttendanceScreen.AlreadyCheckedIn
    \/ alert = Some AttendanceScreen.Error in
  (fst (fst out) = Some AttendanceScreen.Success /\ lost (snd (fst out))
   /\ snd out = Spec.add_attendance (Spec.check_in_row s0 clock1 u sh) s0)
  \/ (snd (fst out) = Some AttendanceScreen.Success /\ lost (fst (fst out))
      /\ snd out = Spec.add_attendance (Spec.check_in_row s0 clock2 u sh) s0).
Proof.
  intros Hadm Hvalid Hw1 Hw2 Hday Hnone.
  pose proof (@race_interleave w u sh s0 Hadm Hvalid clock1 clock2
                Hw1 Hw2 Hday Hnone sched _ _ _
                (race_start u sh s0 clock1 clock2)) as H.
  cbn zeta in *. cbn [CheckInRace.task_at] in H.
  destruct (interleave sched _ _ s0) as [[a1 a2] s]. cbn [fst snd] in *.
  destruct H as (g1 & g2 & A1 & A2 & C).
  destruct C as [(_ & G1 & G2 & _) | [(-> & -> & G) | (-> & -> & G)]].
  - destruct g1; try congruence; cbn in A1.
    + destruct A1; discriminate.
    + destruct A1; discriminate.
  - left. cbn in A1. destruct A1 as [[t A1] | [A1 | A1]]; try discriminate.
    injection A1 as ->. split; [reflexivity|]. split; [|reflexivity].
    destruct g2; try congruence; cbn in A2.
    + destruct A2; discriminate.
    + destruct A2; discriminate.
    + destruct A2 as [A2 | A2]; injection A2 as ->; auto.
  - right. cbn in A2. destruct A2 as [[t A2] | [A2 | A2]]; try discriminate.
    injection A2 as ->. split; [reflexivity|]. split; [|reflexivity].
    destruct g1; try congruence; cbn in A1.
    + destruct A1; discriminate.
    + destruct A1; discriminate.
    + destruct A1 as [A1 | A1]; injection A1 as ->; auto.
Qed.

Lemma racing_check_ins_leave_one_row_witness :
  let out :=
    interleave [true; true; false; false; false; true]
      (AttendanceScreen.checkIn Scenario.in_window Scenario.clock_morning 7
         "morning")
      (AttendanceScreen.checkIn Scenario.in_window Scenario.clock_ten 7
         "morning") Scenario.one_student in
  let lost alert :=
    alert = Some AttendanceScreen.AlreadyCheckedIn
    \/ alert = Some AttendanceScreen.Error in
  (fst (fst out) = Some AttendanceScreen.Success /\ lost (snd (fst out))
   /\ snd out =
      Spec.add_attendance
        (Spec.check_in_row Scenario.one_student Scenario.clock_morning 7
           "morning") Scenario.one_student)
  \/ (snd (fst out) = Some AttendanceScreen.Success /\ lost (fst (fst out))
      /\ snd out =
         Spec.add_attendance
           (Spec.check_in_row Scenario.one_student Scenario.clock_ten 7
              "morning") Scenario.one_student).
Proof.
  apply (@racing_check_ins_leave_one_row Scenario.in_window 7 "morning"
           Scenario.one_student Scenario.clock_morning Scenario.clock_ten);
    try reflexivity.
  intros r [].
Defined.
